(** * OpenSeadragon DrawerBase (src/drawerbase.js)

    A shallow embedding of the DrawerBase constructor, of its prototype and of
    the coordinate helpers, over IEEE binary64 numbers (Rocq's primitive
    floats), followed by the properties of the drawer contract.

    JavaScript values are a tagged union; objects that only carry data are
    finite maps from property names to values; the instance under construction
    is the mutable part of the state; effects on the console and on the DOM are
    recorded in the state. *)

From Stdlib Require Import ZArith Lia Bool List String Floats.
From stdpp Require Import base option gmap strings.

Set Warnings "-inexact-float,-register-all".
Local Open Scope Z_scope.

(** ** Numbers

    A JavaScript number is a binary64 float: [float], with [PrimFloat.mul] for
    [*].  [Math.round] follows ECMAScript: a value that is not finite or is
    already integral is returned as it is, otherwise the result is
    floor(x + 1/2) computed without intermediate rounding, and a zero result
    keeps the sign of [x]. *)

(** floor(v + 1/2) for v = (-1)^s * m * 2^e, used for e < 0. *)
Definition round_half_up (s : bool) (m : positive) (e : Z) : Z :=
  let den := 2 ^ (- e) in
  let num := if s then Z.neg m else Z.pos m in
  (2 * num + den) / (2 * den).

(** An integer of magnitude below 2^53 as a number (exact in that range). *)
Definition float_of_Z (k : Z) : float :=
  match k with
  | Z0 => PrimFloat.zero
  | Zpos _ => PrimFloat.of_uint63 (Uint63.of_Z k)
  | Zneg p => PrimFloat.opp (PrimFloat.of_uint63 (Uint63.of_Z (Zpos p)))
  end.

Definition Math_round (x : float) : float :=
  match Prim2SF x with
  | S754_finite s m e =>
      if 0 <=? e then x
      else match round_half_up s m e with
           | Z0 => if s then PrimFloat.neg_zero else PrimFloat.zero
           | k => float_of_Z k
           end
  | _ => x
  end.

(** The integer that a number is, for a finite number without fractional
    part. *)
Definition integer_value (x : float) : option Z :=
  match Prim2SF x with
  | S754_zero _ => Some 0
  | S754_finite s m e =>
      let n := if s then Z.neg m else Z.pos m in
      if 0 <=? e then Some (n * 2 ^ e)
      else if Z.pos m mod 2 ^ (- e) =? 0 then Some (n / 2 ^ (- e))
      else None
  | _ => None
  end.

(** "[k] is [x] rounded to the nearest integer", ties upwards:
    k <= x + 1/2 < k + 1, for x = n * 2^e, with the denominators cleared. *)
Definition rounds_to (x : float) (k : Z) : Prop :=
  match Prim2SF x with
  | S754_zero _ => k = 0
  | S754_finite s m e =>
      let n := if s then Z.neg m else Z.pos m in
      if 0 <=? e then 2 * k <= 2 * (n * 2 ^ e) + 1 < 2 * (k + 1)
      else 2 * k * 2 ^ (- e) <= 2 * n + 2 ^ (- e) < 2 * (k + 1) * 2 ^ (- e)
  | _ => False
  end.

(** The number 2 in the specification format, and doubling there. *)
Definition SF_two : spec_float := S754_finite false 4503599627370496 (-51).
Definition SF_double (x : spec_float) : spec_float := SF64mul SF_two x.

(** Doubling [d] does not overflow: [d] is not finite, or [2 * d] is finite. *)
Definition double_is_finite (d : float) : bool :=
  negb (PrimFloat.is_finite d) || PrimFloat.is_finite (2 * d).

(** The exact product [c * d], when both are finite and not zero, has
    magnitude at least 2^-1022: rounding it does not leave the normal range
    downwards.  (An exact product m * 2^e with k binary digits in m lies in
    [2^(k-1+e), 2^(k+e)).) *)
Definition product_normal (c d : float) : bool :=
  match Prim2SF c, Prim2SF d with
  | S754_finite _ mc ec, S754_finite _ md ed =>
      emin + prec <=? Zdigits2 (Z.pos (mc * md)) + (ec + ed)
  | _, _ => true
  end.

(** ** Points and rectangles *)

Module Point.
(** Modelled from the spec: [$.Point] is not under src; a point is an
    immutable value with two numeric coordinates. *)
Record t : Type := make { x : float; y : float }.
End Point.

Module Rect.
(** Modelled from the spec: [$.Rect] is not under src; a rectangle is an
    immutable value given by its top-left point and its size, and
    [new $.Rect(x, y, width, height)] stores the four numbers as given. *)
Record t : Type := make { x : float; y : float; width : float; height : float }.

(** Modelled from the spec: the rectangle's top-left point. *)
Definition getTopLeft (r : t) : Point.t := Point.make (x r) (y r).

(** Modelled from the spec: the rectangle's size, as a point. *)
Definition getSize (r : t) : Point.t := Point.make (width r) (height r).
End Rect.

(** ** The viewport collaborator *)

Module Viewport.
(** Modelled from the spec: the viewport is not under src; section 6 of the
    spec gives the capabilities consumed from it, each a projection that
    returns a point and leaves the viewport as it is. *)
Record t : Type := make {
  getContainerSize : Point.t;
  pixelFromPointNoRotate : Point.t -> bool -> Point.t;
  deltaPixelsFromPointsNoRotate : Point.t -> bool -> Point.t
}.
End Viewport.

(** ** Values *)

(** Function objects are compared by identity.  [Proto name] is the function
    object created for the entry [name] of the object literal assigned to
    [$.DrawerBase.prototype]; [HostFn] is any function object created
    elsewhere (a method of a concrete drawer, for instance). *)
Inductive fn : Type :=
| Proto (name : string)
| HostFn (id : nat).

Inductive value : Type :=
| VUndefined
| VNull
| VBool (b : bool)
| VNum (n : float)
| VStr (s : string)
| VFun (f : fn)
| VArr (items : list value)
| VPoint (p : Point.t)
| VRect (r : Rect.t)
| VViewport (vp : Viewport.t)
| VElement (e : nat)               (* a DOM element *)
| VStyle (e : nat)                 (* the [style] object of element [e] *)
| VObject (plain : bool) (props : gmap string value).

Definition fn_eqb (f g : fn) : bool :=
  match f, g with
  | Proto a, Proto b => String.eqb a b
  | HostFn a, HostFn b => Nat.eqb a b
  | _, _ => false
  end.

(** [v === f] where [f] is a function object. *)
Definition is_function (v : value) (f : fn) : bool :=
  match v with
  | VFun g => fn_eqb g f
  | _ => false
  end.

(** ToBoolean. *)
Definition truthy (v : value) : bool :=
  match v with
  | VUndefined | VNull => false
  | VBool b => b
  | VNum n => negb (PrimFloat.is_zero n || PrimFloat.is_nan n)
  | VStr s => negb (String.eqb s "")
  | _ => true
  end.

(** [typeof v === 'string']. *)
Definition typeof_string (v : value) : bool :=
  match v with
  | VStr _ => true
  | _ => false
  end.

(** ** Instances and the prototype chain *)

(** A property is a data property or an accessor property that has a getter
    and no setter. *)
Inductive prop : Type :=
| Data (v : value)
| Accessor (getter : unit -> value).

(** An instance has its own properties and inherits from the prototypes of
    the concrete drawer classes ([layers], nearest first, holding data
    properties), then from [$.DrawerBase.prototype]. *)
Record instance : Type := Instance {
  own : gmap string value;
  layers : list (gmap string value)
}.

(** The entries of the object literal assigned to [$.DrawerBase.prototype]. *)
Definition prototype_entries : list string :=
  [ "draw"; "canRotate"; "destroy"; "clear"; "setImageSmoothingEnabled";
    "_checkForAPIOverrides"; "viewportToDrawerRectangle";
    "viewportCoordToDrawerCoord"; "_calculateCanvasSize";
    "addOverlay"; "updateOverlay"; "removeOverlay"; "clearOverlays";
    "needsUpdate"; "numTilesLoaded"; "reset"; "update"; "setOpacity";
    "getOpacity" ]%string.

(** [$.DrawerBase.prototype]: the object literal, then
    [Object.defineProperty(..., "isOpenSeadragonDrawer", { get: ... })]. *)
Definition DrawerBase_prototype : gmap string prop :=
  <[ "isOpenSeadragonDrawer"%string := Accessor (fun _ => VBool true) ]>
    (list_to_map (map (fun k => (k, Data (VFun (Proto k)))) prototype_entries)).

Fixpoint layers_lookup (ls : list (gmap string value)) (k : string) : option value :=
  match ls with
  | [] => None
  | l :: rest =>
      match l !! k with
      | Some v => Some v
      | None => layers_lookup rest k
      end
  end.

(** The property found for [k] above the instance's own properties. *)
Definition inherited (o : instance) (k : string) : option prop :=
  match layers_lookup (layers o) k with
  | Some v => Some (Data v)
  | None => DrawerBase_prototype !! k
  end.

(** [o.k] *)
Definition get_field (o : instance) (k : string) : value :=
  match own o !! k with
  | Some v => v
  | None =>
      match inherited o k with
      | Some (Data v) => v
      | Some (Accessor g) => g tt
      | None => VUndefined
      end
  end.

(** [o.k = v]: an own property is updated; an inherited accessor without a
    setter rejects the assignment ([None]; silently ignored by sloppy-mode
    code, a TypeError in strict-mode code); otherwise an own property is
    created. *)
Definition put_field (o : instance) (k : string) (v : value) : option instance :=
  match own o !! k with
  | Some _ => Some (Instance (<[k := v]> (own o)) (layers o))
  | None =>
      match inherited o k with
      | Some (Accessor _) => None
      | _ => Some (Instance (<[k := v]> (own o)) (layers o))
      end
  end.

(** The state of an object after the statement [o.k = v]. *)
Definition assign (o : instance) (k : string) (v : value) : instance :=
  match put_field o k v with
  | Some o' => o'
  | None => o
  end.

(** ** State, effects and exceptions *)

Inductive console_entry : Type :=
| Assertion (msg : string)     (* a failed [console.assert] *)
| Error (msg : string).        (* [console.error] *)

Inductive dom_event : Type :=
| CreateElement (e : nat) (tag : string)
| SetProperty (target : value) (k : string) (v : value)
| Call (target : value) (method : string) (args : list value)
| Helper (name : string) (args : list value).

(** [this] is the drawer instance; the next three fields are
    [$.pixelDensityRatio], [$.supportsCanvas] and
    [$.DEFAULT_SETTINGS.debugGridColor]; [getElementById] is the document;
    [console] and [dom] record the effects, oldest first; [host_returns] is
    what a function of a concrete drawer class returns when it is called on
    the instance. *)
Record world : Type := World {
  this : instance;
  pixelDensityRatio : float;
  supportsCanvas : bool;
  DEFAULT_SETTINGS_debugGridColor : value;
  getElementById : string -> value;
  console : list console_entry;
  dom : list dom_event;
  next_element : nat;
  host_returns : fn -> value
}.

Definition with_this (o : instance) (w : world) : world :=
  World o (pixelDensityRatio w) (supportsCanvas w) (DEFAULT_SETTINGS_debugGridColor w)
        (getElementById w) (console w) (dom w) (next_element w) (host_returns w).

Definition with_pixelDensityRatio (d : float) (w : world) : world :=
  World (this w) d (supportsCanvas w) (DEFAULT_SETTINGS_debugGridColor w)
        (getElementById w) (console w) (dom w) (next_element w) (host_returns w).

Definition with_console (c : list console_entry) (w : world) : world :=
  World (this w) (pixelDensityRatio w) (supportsCanvas w) (DEFAULT_SETTINGS_debugGridColor w)
        (getElementById w) c (dom w) (next_element w) (host_returns w).

Definition with_dom (d : list dom_event) (n : nat) (w : world) : world :=
  World (this w) (pixelDensityRatio w) (supportsCanvas w) (DEFAULT_SETTINGS_debugGridColor w)
        (getElementById w) (console w) d n (host_returns w).

Inductive exn : Type :=
| TypeError (what : string)
| Thrown (v : value).           (* [throw(v)] *)

Inductive outcome (A : Type) : Type :=
| Return (a : A)
| Raise (e : exn).
Arguments Return {A} a.
Arguments Raise {A} e.

(** A computation runs in a state and ends by returning or by raising; the
    effects made before an exception stay in the state. *)
Definition M (A : Type) : Type := world -> outcome A * world.

#[global] Instance M_ret : MRet M := fun A a w => (Return a, w).

#[global] Instance M_bind : MBind M := fun A B f m w =>
  match m w with
  | (Return a, w') => f a w'
  | (Raise e, w') => (Raise e, w')
  end.

Definition raise {A : Type} (e : exn) : M A := fun w => (Raise e, w).

Definition get_world : M world := fun w => (Return w, w).

(** [this.k] *)
Definition get_this (k : string) : M value :=
  fun w => (Return (get_field (this w) k), w).

(** [this.k = v] (the script is not in strict mode) *)
Definition set_this (k : string) (v : value) : M unit :=
  fun w => (Return tt, with_this (assign (this w) k v) w).

(** [$.console] is the console of the host.  By the Console Standard,
    [assert(condition, message)] prints the message when the condition is
    falsy and returns; it does not raise. *)
Definition console_assert (condition : value) (msg : string) : M unit :=
  fun w => (Return tt,
            if truthy condition then w
            else with_console (console w ++ [Assertion msg]) w).

Definition console_error (msg : string) : M unit :=
  fun w => (Return tt, with_console (console w ++ [Error msg]) w).

Definition emit (ev : dom_event) : M unit :=
  fun w => (Return tt, with_dom (dom w ++ [ev]) (next_element w) w).

Definition nullish (v : value) : bool :=
  match v with
  | VUndefined | VNull => true
  | _ => false
  end.

(** The value of the property [k] of a value [v] that is neither [undefined]
    nor [null]; a property that the model does not hold reads as
    [undefined]. *)
Definition property (v : value) (k : string) : value :=
  match v with
  | VObject _ props => default VUndefined (props !! k)
  | VPoint p =>
      if String.eqb k "x" then VNum (Point.x p)
      else if String.eqb k "y" then VNum (Point.y p)
      else VUndefined
  | VRect r =>
      if String.eqb k "x" then VNum (Rect.x r)
      else if String.eqb k "y" then VNum (Rect.y r)
      else if String.eqb k "width" then VNum (Rect.width r)
      else if String.eqb k "height" then VNum (Rect.height r)
      else VUndefined
  | VElement e => if String.eqb k "style" then VStyle e else VUndefined
  | _ => VUndefined
  end.

(** [v.k] for a value [v]: reading a property of [undefined] or [null]
    raises a TypeError. *)
Definition member (v : value) (k : string) : M value :=
  if nullish v then raise (TypeError ("cannot read property " ++ k))
  else mret (property v k).

(** [target.k = v] for a value [target] other than [this]: a TypeError on
    [undefined] and [null], otherwise an effect on that object. *)
Definition set_member (target : value) (k : string) (v : value) : M unit :=
  if nullish target then raise (TypeError ("cannot set property " ++ k))
  else emit (SetProperty target k v).

(** Whether [target.method] can be called: a DOM element has its methods,
    another object needs a function in that property. *)
Definition has_method (target : value) (method : string) : bool :=
  match target with
  | VElement _ => true
  | _ => match property target method with VFun _ => true | _ => false end
  end.

(** [target.method(args)] for a method of a host object (a DOM element). *)
Definition call_method (target : value) (method : string) (args : list value) : M unit :=
  if nullish target then raise (TypeError ("cannot read property " ++ method))
  else if has_method target method then emit (Call target method args)
  else raise (TypeError (method ++ " is not a function")).

(** Modelled from the spec: [$.isPlainObject] is not under src; it tells a
    configuration object from any other first argument (legacy positional
    construction). *)
Definition isPlainObject (v : value) : bool :=
  match v with
  | VObject true _ => true
  | _ => false
  end.

(** Modelled from the spec: [$.getElement] is not under src; it yields the
    container element for the [element] option: an element id is looked up in
    the document, any other value is the element itself. *)
Definition getElement (element : value) : M value :=
  fun w => (Return (match element with
                    | VStr id => getElementById w id
                    | _ => element
                    end), w).

(** Modelled from the spec: [$.makeNeutralElement] is not under src; it
    creates a new DOM element with the given tag. *)
Definition makeNeutralElement (tag : string) : M value :=
  fun w => (Return (VElement (next_element w)),
            with_dom (dom w ++ [CreateElement (next_element w) tag]) (S (next_element w)) w).

(** Modelled from the spec: the styling helpers [$.setElementOpacity],
    [$.setElementPointerEventsNone] and [$.setElementTouchActionNone] are not
    under src; each is an effect on the DOM. *)
Definition dom_helper (name : string) (args : list value) : M unit :=
  emit (Helper name args).

(** ** The collaborators' methods, called on values *)

(** [v.method(...)] where the viewport's projection [method] is expected.
    The model has the projections of a viewport ([VViewport]) only: reading
    the method fails on [undefined] and [null], and a value that holds no
    function under that name cannot be called.  An object of another kind
    that holds a function under that name is outside the model; the
    statements below keep off it. *)
Definition viewport_of (v : value) (method : string) : M Viewport.t :=
  match v with
  | VViewport vp => mret vp
  | VUndefined | VNull => raise (TypeError ("cannot read property " ++ method))
  | _ => raise (TypeError (method ++ " is not a function"))
  end.

(** [v.method()] where a rectangle's accessor [method] is expected. *)
Definition rect_of (v : value) (method : string) : M Rect.t :=
  match v with
  | VRect r => mret r
  | VUndefined | VNull => raise (TypeError ("cannot read property " ++ method))
  | _ => raise (TypeError (method ++ " is not a function"))
  end.

(** The viewport's projections are defined on points. *)
Definition point_of (v : value) : M Point.t :=
  match v with
  | VPoint p => mret p
  | _ => raise (TypeError "not a point")
  end.

(** ** $.DrawerBase.prototype *)

Definition draw (tiledImage : value) : M value :=
  console_error "Drawer.draw must be implemented by child class";;
  mret VUndefined.

Definition canRotate : M value :=
  console_error "Drawer.canRotate must be implemented by child class";;
  mret VUndefined.

Definition destroy : M value :=
  console_error "Drawer.destroy must be implemented by child class";;
  mret VUndefined.

Definition clear : M value :=
  console_error "Drawer.clear must be implemented by child class";;
  mret VUndefined.

Definition setImageSmoothingEnabled (imageSmoothingEnabled : value) : M value :=
  console_error "Drawer.setImageSmoothingEnabled must be implemented by child class";;
  mret VUndefined.

(** The operations a concrete drawer has to provide, in the order of the
    checks. *)
Definition required_operations : list string :=
  [ "draw"; "canRotate"; "destroy"; "clear"; "setImageSmoothingEnabled" ]%string.

(** [this.k === $.DrawerBase.prototype.k], for an entry [k] of the prototype's
    object literal. *)
Definition is_placeholder (o : instance) (k : string) : bool :=
  is_function (get_field o k) (Proto k).

(** [k] is the first required operation, in the order of the checks, that
    the object [o] leaves to the placeholder. *)
Definition first_missing (o : instance) (k : string) : Prop :=
  exists before after : list string,
    required_operations = (before ++ k :: after)%list /\
    Forall (fun k' => is_placeholder o k' = false) before /\
    is_placeholder o k = true.

Definition _checkForAPIOverrides : M unit :=
  w ← get_world;
  if is_placeholder (this w) "draw" then
    raise (Thrown (VStr "[drawer].draw must be implemented by child class"))
  else if is_placeholder (this w) "canRotate" then
    raise (Thrown (VStr "[drawer].canRotate must be implemented by child class"))
  else if is_placeholder (this w) "destroy" then
    raise (Thrown (VStr "[drawer].destroy must be implemented by child class"))
  else if is_placeholder (this w) "clear" then
    raise (Thrown (VStr "[drawer].clear must be implemented by child class"))
  else if is_placeholder (this w) "setImageSmoothingEnabled" then
    raise (Thrown (VStr "[drawer].setImageSmoothingEnabled must be implemented by child class"))
  else mret tt.

Definition viewportToDrawerRectangle (rectangle : value) : M value :=
  viewport ← get_this "viewport";
  vp ← viewport_of viewport "pixelFromPointNoRotate";
  r ← rect_of rectangle "getTopLeft";
  let topLeft := Viewport.pixelFromPointNoRotate vp (Rect.getTopLeft r) true in
  viewport ← get_this "viewport";
  vp ← viewport_of viewport "deltaPixelsFromPointsNoRotate";
  r ← rect_of rectangle "getSize";
  let size := Viewport.deltaPixelsFromPointsNoRotate vp (Rect.getSize r) true in
  w ← get_world;
  mret (VRect (Rect.make
    (Point.x topLeft * pixelDensityRatio w)
    (Point.y topLeft * pixelDensityRatio w)
    (Point.x size * pixelDensityRatio w)
    (Point.y size * pixelDensityRatio w))).

Definition viewportCoordToDrawerCoord (point : value) : M value :=
  viewport ← get_this "viewport";
  vp ← viewport_of viewport "pixelFromPointNoRotate";
  p ← point_of point;
  let vpPoint := Viewport.pixelFromPointNoRotate vp p true in
  w ← get_world;
  mret (VPoint (Point.make
    (Point.x vpPoint * pixelDensityRatio w)
    (Point.y vpPoint * pixelDensityRatio w))).

Definition _calculateCanvasSize : M value :=
  w ← get_world;
  let pixelDensityRatio := pixelDensityRatio w in
  viewport ← get_this "viewport";
  vp ← viewport_of viewport "getContainerSize";
  let viewportSize := Viewport.getContainerSize vp in
  mret (VObject true
    (<[ "x"%string := VNum (Math_round (Point.x viewportSize * pixelDensityRatio)) ]>
    (<[ "y"%string := VNum (Math_round (Point.y viewportSize * pixelDensityRatio)) ]> ∅))).

(** ** The constructor *)

(** [this.method()] for a helper of [$.DrawerBase.prototype]: the function
    that the instance holds under that name is the one that is called.  It is
    the helper of the prototype, with the given [body], unless a concrete
    drawer class defines the name.  A function of a class is a function of the
    host: what it returns is [host_returns], and it acts on nothing that the
    model holds.  A value that is not a function cannot be called. *)
Definition dispatch (method : string) (body : M value) (f : value) : M value :=
  match f with
  | VFun g =>
      if fn_eqb g (Proto method) then body
      else w ← get_world; mret (host_returns w g)
  | _ => raise (TypeError (method ++ " is not a function"))
  end.

Definition call_this (method : string) (body : M value) : M value :=
  f ← get_this method;
  dispatch method body f.

(** Line 71: [typeof g === 'string' ? [g] : g || DEFAULT], for the value [g]
    of [options.debugGridColor]. *)
Definition debugGridColor_of (g default_color : value) : value :=
  if typeof_string g then VArr [g]
  else if truthy g then g else default_color.

(** [$.DrawerBase = function( options ) { ... }], run with [this] bound to
    the new instance; [arguments] are the actual arguments.  The helpers
    [_calculateCanvasSize] and [_checkForAPIOverrides] are called through
    [this] (lines 107 and 130). *)
Definition DrawerBase (arguments : list value) : M unit :=
  let options := nth 0 arguments VUndefined in
  viewer ← member options "viewer";
  console_assert viewer "[Drawer] options.viewer is required";;
  let args := arguments in
  let options :=
    if negb (isPlainObject options) then
      VObject true
        (<[ "source"%string := nth 0 args VUndefined ]>
        (<[ "viewport"%string := nth 1 args VUndefined ]>
        (<[ "element"%string := nth 2 args VUndefined ]> ∅)))
    else options in
  viewport ← member options "viewport";
  console_assert viewport "[Drawer] options.viewport is required";;
  element ← member options "element";
  console_assert element "[Drawer] options.element is required";;
  source ← member options "source";
  (if truthy source then
     console_error "[Drawer] options.source is no longer accepted; use TiledImage instead"
   else mret tt);;
  viewer ← member options "viewer";
  set_this "viewer" viewer;;
  viewport ← member options "viewport";
  set_this "viewport" viewport;;
  g ← member options "debugGridColor";
  w ← get_world;
  set_this "debugGridColor" (debugGridColor_of g (DEFAULT_SETTINGS_debugGridColor w));;
  opacity ← member options "opacity";
  (if truthy opacity then
     console_error "[Drawer] options.opacity is no longer accepted; set the opacity on the TiledImage instead"
   else mret tt);;
  w ← get_world;
  useCanvas ←
    (if supportsCanvas w then
       viewer ← get_this "viewer";
       if truthy viewer then member viewer "useCanvas" else mret (VBool true)
     else mret (VBool false));
  set_this "useCanvas" useCanvas;;
  element ← member options "element";
  container ← getElement element;
  set_this "container" container;;
  useCanvas ← get_this "useCanvas";
  canvas ← makeNeutralElement (if truthy useCanvas then "canvas" else "div");
  set_this "canvas" canvas;;
  container ← get_this "container";
  set_this "element" container;;
  container ← get_this "container";
  set_member container "dir" (VStr "ltr");;
  useCanvas ← get_this "useCanvas";
  (if truthy useCanvas then
     viewportSize ← call_this "_calculateCanvasSize" _calculateCanvasSize;
     canvas ← get_this "canvas";
     x ← member viewportSize "x";
     set_member canvas "width" x;;
     canvas ← get_this "canvas";
     y ← member viewportSize "y";
     set_member canvas "height" y
   else mret tt);;
  canvas ← get_this "canvas";
  style ← member canvas "style";
  set_member style "width" (VStr "100%");;
  canvas ← get_this "canvas";
  style ← member canvas "style";
  set_member style "height" (VStr "100%");;
  canvas ← get_this "canvas";
  style ← member canvas "style";
  set_member style "position" (VStr "absolute");;
  canvas ← get_this "canvas";
  opacity ← get_this "opacity";
  dom_helper "setElementOpacity" [canvas; opacity; VBool true];;
  canvas ← get_this "canvas";
  dom_helper "setElementPointerEventsNone" [canvas];;
  canvas ← get_this "canvas";
  dom_helper "setElementTouchActionNone" [canvas];;
  container ← get_this "container";
  style ← member container "style";
  set_member style "textAlign" (VStr "left");;
  container ← get_this "container";
  canvas ← get_this "canvas";
  call_method container "appendChild" [canvas];;
  set_this "_imageSmoothingEnabled" (VBool true);;
  call_this "_checkForAPIOverrides" (_checkForAPIOverrides;; mret VUndefined);;
  mret tt.

(** [new C(arguments)] for a drawer class [C] whose constructor runs
    [$.DrawerBase] on the new object: [class] holds the prototypes between the
    new object and [$.DrawerBase.prototype] (none for [$.DrawerBase] itself).
    The object is returned when the constructor returns. *)
Definition construct (class : list (gmap string value)) (arguments : list value)
    (w : world) : outcome instance * world :=
  match DrawerBase arguments (with_this (Instance ∅ class) w) with
  | (Return _, w') => (Return (this w'), w')
  | (Raise e, w') => (Raise e, w')
  end.

(** ** What a construction computes

    The quantities the constructor derives from its arguments and from the
    state it starts in, named for the statements below. *)

Section Construction.
Variable class : list (gmap string value).
Variable arguments : list value.
Variable w : world.

(** The [options] object after the positional arguments were handled. *)
Definition options_of : value :=
  if negb (isPlainObject (nth 0 arguments VUndefined)) then
    VObject true
      (<[ "source"%string := nth 0 arguments VUndefined ]>
      (<[ "viewport"%string := nth 1 arguments VUndefined ]>
      (<[ "element"%string := nth 2 arguments VUndefined ]> ∅)))
  else nth 0 arguments VUndefined.

(** The value stored in [this.useCanvas]. *)
Definition useCanvas_of : value :=
  if supportsCanvas w then
    if truthy (property options_of "viewer")
    then property (property options_of "viewer") "useCanvas"
    else VBool true
  else VBool false.

(** The value stored in [this.container]. *)
Definition container_of : value :=
  match property options_of "element" with
  | VStr id => getElementById w id
  | _ => property options_of "element"
  end.

(** What the constructor has written on the console when it reaches the
    statements that build the DOM. *)
Definition reports : list console_entry :=
  (if truthy (property (nth 0 arguments VUndefined) "viewer") then []
   else [Assertion "[Drawer] options.viewer is required"]) ++
  (if truthy (property options_of "viewport") then []
   else [Assertion "[Drawer] options.viewport is required"]) ++
  (if truthy (property options_of "element") then []
   else [Assertion "[Drawer] options.element is required"]) ++
  (if truthy (property options_of "source")
   then [Error "[Drawer] options.source is no longer accepted; use TiledImage instead"]
   else []) ++
  (if truthy (property options_of "opacity")
   then [Error "[Drawer] options.opacity is no longer accepted; set the opacity on the TiledImage instead"]
   else []).

(** The instance when the constructor reaches [_checkForAPIOverrides]. *)
Definition constructed : instance :=
  assign (assign (assign (assign (assign (assign (assign (assign
    (Instance ∅ class)
    "viewer" (property options_of "viewer"))
    "viewport" (property options_of "viewport"))
    "debugGridColor"
      (debugGridColor_of (property options_of "debugGridColor")
                         (DEFAULT_SETTINGS_debugGridColor w)))
    "useCanvas" useCanvas_of)
    "container" container_of)
    "canvas" (VElement (next_element w)))
    "element" container_of)
    "_imageSmoothingEnabled" (VBool true).

(** The value of [viewportSize] on line 107, if the call of
    [this._calculateCanvasSize()] returns one whose [x] and [y] can be read:
    the size computed by the helper of the prototype, for which the viewport
    is needed, or what the function of the class returns. *)
Definition viewportSize_of : option value :=
  match get_field (Instance ∅ class) "_calculateCanvasSize" with
  | VFun g =>
      if fn_eqb g (Proto "_calculateCanvasSize") then
        match property options_of "viewport" with
        | VViewport vp =>
            Some (VObject true
              (<[ "x"%string :=
                    VNum (Math_round (Point.x (Viewport.getContainerSize vp)
                                      * pixelDensityRatio w)) ]>
              (<[ "y"%string :=
                    VNum (Math_round (Point.y (Viewport.getContainerSize vp)
                                      * pixelDensityRatio w)) ]> ∅)))
        | _ => None
        end
      else if nullish (host_returns w g) then None else Some (host_returns w g)
  | _ => None
  end.

(** The constructor got through the call of [this._checkForAPIOverrides] and
    ended in the state [w']: no property access and no call failed on the
    way. *)
Definition reached_check (w' : world) : Prop :=
  nullish (nth 0 arguments VUndefined) = false /\
  nullish container_of = false /\
  nullish (property container_of "style") = false /\
  has_method container_of "appendChild" = true /\
  (truthy useCanvas_of = true -> exists v, viewportSize_of = Some v) /\
  this w' = constructed /\
  console w' = console w ++ reports /\
  pixelDensityRatio w' = pixelDensityRatio w /\
  exists g, get_field (Instance ∅ class) "_checkForAPIOverrides" = VFun g.

(** The constructor stopped at a failed property access or call and ended in
    the state [w']. *)
Definition stopped_early (w' : world) : Prop :=
  (nullish (nth 0 arguments VUndefined) = true /\ console w' = console w) \/
  (nullish (nth 0 arguments VUndefined) = false /\
   console w' = console w ++ reports /\
   (nullish container_of = true \/
    nullish (property container_of "style") = true \/
    has_method container_of "appendChild" = false \/
    (truthy useCanvas_of = true /\ viewportSize_of = None) \/
    (forall g, get_field (Instance ∅ class) "_checkForAPIOverrides" <> VFun g))).
End Construction.

(** The message of the exception for a missing operation. *)
Definition missing_message (k : string) : string :=
  "[drawer]." ++ k ++ " must be implemented by child class".

(** ** Statements under test *)

(** Two calls in a row of the same operation on the same input. *)
Definition twice {A : Type} (f : value -> M A) (x : value) : M (A * A) :=
  a ← f x; b ← f x; mret (a, b).

(** The density doubled, the rest of the state as it is. *)
Definition doubled_density (w : world) : world :=
  with_pixelDensityRatio (2 * pixelDensityRatio w) w.

(** "No instance lacking an override of a required operation is ever
    returned to the caller." *)
Definition overrides_enforced : Prop :=
  forall class arguments (w : world) o w',
    construct class arguments w = (Return o, w') ->
    Forall (fun k => is_placeholder o k = false) required_operations.

(** The class leaves the helper [name] of the prototype as it is: the
    instance finds the function of [$.DrawerBase.prototype] under that
    name. *)
Definition inherits_helper (class : list (gmap string value)) (name : string) : Prop :=
  get_field (Instance ∅ class) name = VFun (Proto name).

(** A reference is missing from the configuration. *)
Definition missing (options : gmap string value) (k : string) : Prop :=
  nullish (default VUndefined (options !! k)) = true.

(** "Construction fails if the viewer, the viewport or the element is
    missing." *)
Definition fails_fast : Prop :=
  forall class (options : gmap string value) (w : world),
    missing options "viewer" \/ missing options "viewport" \/ missing options "element" ->
    exists e w', construct class [VObject true options] w = (Raise e, w').

(** "Positional construction behaves as construction from the configuration
    object with the same source, viewport and element." *)
Definition positional_as_configuration : Prop :=
  forall class (a0 a1 a2 : value) (w : world),
    isPlainObject a0 = false ->
    construct class [a0; a1; a2] w =
    construct class
      [VObject true (<[ "source"%string := a0 ]> (<[ "viewport"%string := a1 ]>
                    (<[ "element"%string := a2 ]> ∅)))] w.

(** "The result with density [2 * d] is the double of the result with
    density [d]", for rectangles. *)
Definition double_rect (r : Rect.t) : Rect.t :=
  Rect.make (2 * Rect.x r) (2 * Rect.y r) (2 * Rect.width r) (2 * Rect.height r).

Definition doubling_is_exact : Prop :=
  forall (w : world) (r R : Rect.t),
    viewportToDrawerRectangle (VRect r) w = (Return (VRect R), w) ->
    viewportToDrawerRectangle (VRect r) (doubled_density w) =
      (Return (VRect (double_rect R)), doubled_density w).

(** ** Reasoning about computations *)

(** [wp m Q E w]: run from [w], the computation [m] either returns a value
    and a state that satisfy [Q], or raises an exception in a state that
    satisfy [E]. *)
Definition wp {A : Type} (m : M A) (Q : A -> world -> Prop) (E : exn -> world -> Prop)
    (w : world) : Prop :=
  match m w with
  | (Return a, w') => Q a w'
  | (Raise e, w') => E e w'
  end.

(** ** Sample data *)

(** A viewport at home position on a container of the given size: a point and
    a size in viewport space project to themselves. *)
Definition identity_viewport (size : Point.t) : Viewport.t :=
  Viewport.make size (fun p _ => p) (fun p _ => p).

(** The prototype of a concrete drawer class that provides all the required
    operations. *)
Definition complete_class : gmap string value :=
  list_to_map (imap (fun i k => (k, VFun (HostFn i))) required_operations).

(** The prototype of a class that omits [draw] and defines its own
    [_checkForAPIOverrides]. *)
Definition unchecked_class : gmap string value :=
  <[ "_checkForAPIOverrides"%string := VFun (HostFn 9) ]>
    (delete "draw"%string complete_class).

(** A drawer of that class on the given viewport. *)
Definition drawer_on (vp : Viewport.t) : instance :=
  Instance {[ "viewport"%string := VViewport vp ]} [complete_class].

(** A host with a canvas and the given density, where [this] is [o]. *)
Definition host (d : float) (o : instance) : world :=
  World o d true (VArr [VStr "#437AB2"]) (fun _ => VNull) [] [] 1 (fun _ => VUndefined).

Definition sample_viewer : value :=
  VObject false {[ "useCanvas"%string := VBool true ]}.

Definition sample_viewport : Viewport.t :=
  identity_viewport (Point.make 800.4 600.6).

(** The sample drawer on a display of density 2. *)
Definition sample_host : world := host 2 (drawer_on sample_viewport).

(** [{ viewer: ..., viewport: ..., element: ... }] *)
Definition sample_options : gmap string value :=
  <[ "viewer"%string := sample_viewer ]>
  (<[ "viewport"%string := VViewport sample_viewport ]>
  (<[ "element"%string := VElement 0 ]> ∅)).

Local Open Scope string_scope.

(** ** More of $.DrawerBase.prototype: the deprecated forwarders

    Each of them reports its deprecation, calls the method of the same name
    of the owning viewer (for [reset]: [resetItems] of the viewer's world) and
    returns [this]. *)

Definition addOverlay (element location placement onDraw : value) : M instance :=
  console_error "drawer.addOverlay is deprecated. Use viewer.addOverlay instead.";;
  viewer ← get_this "viewer";
  call_method viewer "addOverlay" [element; location; placement; onDraw];;
  w ← get_world;
  mret (this w).

Definition updateOverlay (element location placement : value) : M instance :=
  console_error "drawer.updateOverlay is deprecated. Use viewer.updateOverlay instead.";;
  viewer ← get_this "viewer";
  call_method viewer "updateOverlay" [element; location; placement];;
  w ← get_world;
  mret (this w).

Definition removeOverlay (element : value) : M instance :=
  console_error "drawer.removeOverlay is deprecated. Use viewer.removeOverlay instead.";;
  viewer ← get_this "viewer";
  call_method viewer "removeOverlay" [element];;
  w ← get_world;
  mret (this w).

Definition clearOverlays : M instance :=
  console_error "drawer.clearOverlays is deprecated. Use viewer.clearOverlays instead.";;
  viewer ← get_this "viewer";
  call_method viewer "clearOverlays" [];;
  w ← get_world;
  mret (this w).

Definition reset : M instance :=
  console_error "[Drawer.reset] this function is deprecated. Use World.resetItems instead.";;
  viewer ← get_this "viewer";
  world ← member viewer "world";
  call_method world "resetItems" [];;
  w ← get_world;
  mret (this w).



(** ** What a construction needs and what it does to the document *)

(** The conditions under which no statement of the constructor fails. *)
Definition construction_requirements (class : list (gmap string value))
    (arguments : list value) (w : world) : Prop :=
  nullish (nth 0 arguments VUndefined) = false /\
  nullish (container_of arguments w) = false /\
  nullish (property (container_of arguments w) "style") = false /\
  has_method (container_of arguments w) "appendChild" = true /\
  (truthy (useCanvas_of arguments w) = true ->
   exists vp, property (options_of arguments) "viewport" = VViewport vp) /\
  Forall (fun k => is_placeholder (Instance ∅ class) k = false) required_operations.

(** The conditions under which a construction returns an instance, for any
    class: as above, but for the two helpers that the constructor calls
    through [this], which the class may define. *)
Definition construction_proceeds (class : list (gmap string value))
    (arguments : list value) (w : world) : Prop :=
  nullish (nth 0 arguments VUndefined) = false /\
  nullish (container_of arguments w) = false /\
  nullish (property (container_of arguments w) "style") = false /\
  has_method (container_of arguments w) "appendChild" = true /\
  (truthy (useCanvas_of arguments w) = true ->
   exists v, viewportSize_of class arguments w = Some v) /\
  (exists g, get_field (Instance ∅ class) "_checkForAPIOverrides" = VFun g) /\
  (inherits_helper class "_checkForAPIOverrides" ->
   Forall (fun k => is_placeholder (Instance ∅ class) k = false) required_operations).

(** The value [v] is a viewport, or one on which [v.method(...)] raises a
    TypeError: [undefined], [null], or a value that holds no function under
    that name. *)
Definition viewport_or_none (v : value) (method : string) : Prop :=
  (exists vp, v = VViewport vp) \/ nullish v = true \/ has_method v method = false.

(** Lines 106-110: the size given to the canvas. *)
Definition initial_size (class : list (gmap string value)) (arguments : list value)
    (w : world) : list dom_event :=
  if truthy (useCanvas_of arguments w) then
    match viewportSize_of class arguments w with
    | Some viewportSize =>
        [ SetProperty (VElement (next_element w)) "width" (property viewportSize "x");
          SetProperty (VElement (next_element w)) "height" (property viewportSize "y") ]
    | None => []
    end
  else [].

(** Lines 91-124: what the constructor does to the document, in order. *)
Definition effects (class : list (gmap string value)) (arguments : list value)
    (w : world) : list dom_event :=
  let canvas := VElement (next_element w) in
  let container := container_of arguments w in
  ([ CreateElement (next_element w)
       (if truthy (useCanvas_of arguments w) then "canvas" else "div");
     SetProperty container "dir" (VStr "ltr") ] ++
   initial_size class arguments w ++
   [ SetProperty (VStyle (next_element w)) "width" (VStr "100%");
     SetProperty (VStyle (next_element w)) "height" (VStr "100%");
     SetProperty (VStyle (next_element w)) "position" (VStr "absolute");
     Helper "setElementOpacity" [canvas; get_field (Instance ∅ class) "opacity"; VBool true];
     Helper "setElementPointerEventsNone" [canvas];
     Helper "setElementTouchActionNone" [canvas];
     SetProperty (property container "style") "textAlign" (VStr "left");
     Call container "appendChild" [canvas] ])%list.


Local Close Scope string_scope.

(** * Binary64 arithmetic *)

Lemma digits2_pos_size p : digits2_pos p = Pos.size p.
Proof. induction p as [p IH|p IH|]; simpl; congruence. Qed.

Lemma Zdigits2_log2 z : 0 < z -> Zdigits2 z = Z.log2 z + 1.
Proof.
  destruct z as [|p|p]; try lia. intros _. simpl. rewrite digits2_pos_size.
  destruct p; simpl; lia.
Qed.

Lemma shr_1_div2 mrs : 0 <= shr_m mrs -> shr_m (shr_1 mrs) = shr_m mrs / 2.
Proof.
  destruct mrs as [m r s]; simpl. intros Hm. rewrite <- Z.div2_div.
  destruct m as [|[p|p|]|p]; try reflexivity; lia.
Qed.

Lemma pow2_xI p : 2 ^ Z.pos p~1 = 2 * (2 ^ Z.pos p * 2 ^ Z.pos p).
Proof.
  replace (Z.pos p~1) with (1 + (Z.pos p + Z.pos p)) by lia.
  rewrite !Z.pow_add_r by lia. reflexivity.
Qed.

Lemma pow2_xO p : 2 ^ Z.pos p~0 = 2 ^ Z.pos p * 2 ^ Z.pos p.
Proof.
  replace (Z.pos p~0) with (Z.pos p + Z.pos p) by lia.
  rewrite !Z.pow_add_r by lia. reflexivity.
Qed.

Lemma iter_shr_1_div p : forall mrs, 0 <= shr_m mrs ->
  shr_m (SpecFloat.iter_pos shr_1 p mrs) = shr_m mrs / 2 ^ Z.pos p.
Proof.
  induction p as [p IH|p IH|]; intros mrs Hm; simpl SpecFloat.iter_pos.
  - assert (H1 : 0 <= shr_m (shr_1 mrs)) by (rewrite shr_1_div2 by assumption; apply Z.div_pos; lia).
    assert (H2 : 0 <= shr_m (SpecFloat.iter_pos shr_1 p (shr_1 mrs))) by (rewrite IH by assumption; apply Z.div_pos; lia).
    rewrite IH, IH, shr_1_div2 by assumption.
    rewrite !Z.div_div by lia. rewrite pow2_xI. reflexivity.
  - assert (H2 : 0 <= shr_m (SpecFloat.iter_pos shr_1 p mrs)) by (rewrite IH by assumption; apply Z.div_pos; lia).
    rewrite IH, IH by assumption. rewrite !Z.div_div by lia. rewrite pow2_xO. reflexivity.
  - rewrite shr_1_div2 by assumption. reflexivity.
Qed.

Lemma Zdigits2_div_pow2 m n : 0 < m -> 0 <= n -> n < Zdigits2 m ->
  0 < m / 2 ^ n /\ Zdigits2 (m / 2 ^ n) = Zdigits2 m - n.
Proof.
  intros Hm Hn Hlt. rewrite (Zdigits2_log2 m) in * by assumption.
  assert (Hlog : Z.log2 (m / 2 ^ n) = Z.log2 m - n).
  { rewrite <- Z.shiftr_div_pow2 by assumption. rewrite Z.log2_shiftr by assumption. lia. }
  assert (Hpos : 0 < m / 2 ^ n).
  { apply Z.div_str_pos. split; [lia|].
    apply Z.le_trans with (2 ^ Z.log2 m).
    - apply Z.pow_le_mono_r; lia.
    - apply Z.log2_spec; assumption. }
  split; [assumption|]. rewrite Zdigits2_log2 by assumption. lia.
Qed.

Lemma Zdigits2_mono a b : 0 < a -> a <= b -> Zdigits2 a <= Zdigits2 b.
Proof.
  intros Ha Hab. rewrite !Zdigits2_log2 by lia.
  pose proof (Z.log2_le_mono a b Hab). lia.
Qed.

Lemma Zdigits2_succ a : 0 < a -> Zdigits2 (a + 1) <= Zdigits2 a + 1.
Proof.
  intros Ha. rewrite !Zdigits2_log2 by lia.
  pose proof (Z.log2_succ_le a). unfold Z.succ in *. lia.
Qed.

Lemma Zdigits2_mul a b : 0 < a -> 0 < b -> Zdigits2 a + Zdigits2 b - 1 <= Zdigits2 (a * b).
Proof.
  intros Ha Hb. rewrite !Zdigits2_log2 by lia.
  pose proof (Z.log2_mul_below a b Ha Hb). lia.
Qed.

Lemma round_nearest_even_range m l :
  round_nearest_even m l = m \/ round_nearest_even m l = m + 1.
Proof.
  destruct l as [|[| |]]; simpl; auto. destruct (Z.even m); auto.
Qed.

Lemma shr_m_of_loc m l : shr_m (shr_record_of_loc m l) = m.
Proof. destruct l as [|[| |]]; reflexivity. Qed.

Lemma binary64_constants : prec = 53 /\ emax = 1024 /\ emin = -1074.
Proof. repeat split. Qed.

Ltac b64 := destruct binary64_constants as (Hprec & Hemax & Hemin).

Lemma shr_fexp_shape m e l :
  0 < m -> prec <= Zdigits2 m -> emin <= Zdigits2 m + e - prec ->
  exists r,
    shr_fexp prec emax m e l = (r, Zdigits2 m + e - prec) /\
    shr_fexp prec emax m (e + 1) l = (r, Zdigits2 m + e - prec + 1) /\
    0 < shr_m r /\ Zdigits2 (shr_m r) = prec.
Proof.
  intros Hm Hd He. b64. unfold shr_fexp, fexp.
  rewrite !Z.max_l by lia.
  replace (Zdigits2 m + (e + 1) - prec - (e + 1)) with (Zdigits2 m - prec) by lia.
  replace (Zdigits2 m + e - prec - e) with (Zdigits2 m - prec) by lia.
  destruct (Zdigits2 m - prec) as [|p|p] eqn:Hn; try lia; unfold shr.
  - exists (shr_record_of_loc m l). rewrite shr_m_of_loc.
    repeat split; try (f_equal; lia); lia.
  - exists (SpecFloat.iter_pos shr_1 p (shr_record_of_loc m l)).
    rewrite iter_shr_1_div by (rewrite shr_m_of_loc; lia).
    rewrite shr_m_of_loc.
    destruct (Zdigits2_div_pow2 m (Z.pos p)) as [Hpos Hdig]; try lia.
    repeat split; try (f_equal; lia); try lia.
Qed.

Lemma shr_fexp_exact m e :
  Zdigits2 m = prec -> emin <= e ->
  shr_fexp prec emax m e loc_Exact = (Build_shr_record m false false, e).
Proof.
  intros Hd He. b64. unfold shr_fexp, fexp. rewrite Hd.
  rewrite Z.max_l by lia. replace (prec + e - prec - e) with 0 by lia. reflexivity.
Qed.

Lemma SF_double_normal s m e :
  Z.pos (digits2_pos m) = prec -> emin - 1 <= e ->
  SF_double (S754_finite s m e) =
    if e + 1 <=? emax - prec then S754_finite s m (e + 1) else S754_infinity s.
Proof.
  intros Hd He. b64. unfold SF_double, SF64mul, SF_two, SFmul.
  change (xorb false s) with s.
  unfold binary_round_aux.
  assert (Hs : shr_fexp prec emax (Z.pos (4503599627370496 * m)) (-51 + e) loc_Exact
               = (Build_shr_record (Z.pos m) false false, e + 1)).
  { unfold shr_fexp, fexp.
    assert (Hdig : Zdigits2 (Z.pos (4503599627370496 * m)) = 105).
    { rewrite Zdigits2_log2 by lia. rewrite Pos2Z.inj_mul, Z.mul_comm.
      change (Z.pos 4503599627370496) with (2 ^ 52).
      rewrite Z.log2_mul_pow2 by lia.
      change (Z.pos (digits2_pos m)) with (Zdigits2 (Z.pos m)) in Hd.
      rewrite Zdigits2_log2 in Hd by lia. lia. }
    rewrite Hdig. rewrite Z.max_l by lia.
    replace (105 + (-51 + e) - prec - (-51 + e)) with 52 by lia.
    unfold shr. f_equal; lia. }
  rewrite Hs. simpl shr_m. simpl loc_of_shr_record. simpl round_nearest_even.
  rewrite shr_fexp_exact by (simpl; lia). simpl shr_m. reflexivity.
Qed.

Lemma SF_double_special x :
  match x with S754_finite _ _ _ => False | _ => True end -> SF_double x = x.
Proof. destruct x as [[|]|[|]| |]; simpl; intros H; try reflexivity; contradiction. Qed.

(** Rounding the same exact product one binade higher doubles the result,
    as long as the product is not below the normal range. *)
Lemma binary_round_aux_succ s M E :
  prec <= Zdigits2 (Z.pos M) -> emin + prec <= Zdigits2 (Z.pos M) + E ->
  binary_round_aux prec emax s (Z.pos M) (E + 1) loc_Exact =
  SF_double (binary_round_aux prec emax s (Z.pos M) E loc_Exact).
Proof.
  intros Hd He. b64. unfold binary_round_aux.
  destruct (shr_fexp_shape (Z.pos M) E loc_Exact) as (r1 & H1 & H1' & Hr1 & Hd1); try lia.
  rewrite H1, H1'.
  set (m2 := round_nearest_even (shr_m r1) (loc_of_shr_record r1)).
  assert (Hm2 : 0 < m2 /\ prec <= Zdigits2 m2).
  { subst m2. destruct (round_nearest_even_range (shr_m r1) (loc_of_shr_record r1)) as [->| ->].
    - lia.
    - split; [lia|]. rewrite <- Hd1. apply Zdigits2_mono; lia. }
  destruct Hm2 as [Hm2 Hd2].
  set (e1 := Zdigits2 (Z.pos M) + E - prec) in *.
  destruct (shr_fexp_shape m2 e1 loc_Exact) as (r2 & H2 & H2' & Hr2 & Hdr2); try lia.
  rewrite H2, H2'.
  destruct (shr_m r2) as [|m3|m3] eqn:Hm3; try lia.
  set (e2 := Zdigits2 m2 + e1 - prec) in *.
  destruct (e2 <=? emax - prec) eqn:Hle.
  - rewrite SF_double_normal by (simpl in Hdr2; lia). reflexivity.
  - rewrite SF_double_special by exact I.
    destruct (e2 + 1 <=? emax - prec) eqn:Hle'; [lia | reflexivity].
Qed.

Lemma SF_double_subnormal s m :
  Z.pos (digits2_pos m) < prec ->
  SF_double (S754_finite s m emin) = S754_finite s m~0 emin.
Proof.
  intros Hd. b64. unfold SF_double, SF64mul, SF_two, SFmul.
  change (xorb false s) with s.
  unfold binary_round_aux.
  change (Z.pos (digits2_pos m)) with (Zdigits2 (Z.pos m)) in Hd.
  pose proof (Z.log2_nonneg (Z.pos m)) as Hnn.
  rewrite Zdigits2_log2 in Hd by lia.
  assert (Hs : shr_fexp prec emax (Z.pos (4503599627370496 * m)) (-51 + emin) loc_Exact
               = (Build_shr_record (Z.pos m~0) false false, emin)).
  { unfold shr_fexp, fexp.
    assert (Hdig : Zdigits2 (Z.pos (4503599627370496 * m)) = 53 + Z.log2 (Z.pos m)).
    { rewrite Zdigits2_log2 by lia. rewrite Pos2Z.inj_mul, Z.mul_comm.
      change (Z.pos 4503599627370496) with (2 ^ 52).
      rewrite Z.log2_mul_pow2 by lia. lia. }
    rewrite Hdig. rewrite Z.max_r by lia.
    replace (emin - (-51 + emin)) with 51 by lia.
    unfold shr. f_equal. }
  rewrite Hs. simpl shr_m. simpl loc_of_shr_record. simpl round_nearest_even.
  assert (Hs2 : shr_fexp prec emax (Z.pos m~0) emin loc_Exact
                = (Build_shr_record (Z.pos m~0) false false, emin)).
  { unfold shr_fexp, fexp.
    assert (Hdig : Zdigits2 (Z.pos m~0) = 2 + Z.log2 (Z.pos m)).
    { rewrite Zdigits2_log2 by lia. rewrite Pos2Z.inj_xO.
      rewrite Z.log2_double by lia. lia. }
    rewrite Hdig. rewrite Z.max_r by lia.
    replace (emin - emin) with 0 by lia. reflexivity. }
  rewrite Hs2. reflexivity.
Qed.

Lemma iter_pos_comm {A : Type} (f : A -> A) p : forall x,
  SpecFloat.iter_pos f p (f x) = f (SpecFloat.iter_pos f p x).
Proof.
  induction p as [p IH|p IH|]; intros x; simpl; rewrite ?IH; reflexivity.
Qed.

Lemma iter_pos_succ {A : Type} (f : A -> A) p x :
  SpecFloat.iter_pos f (Pos.succ p) x = SpecFloat.iter_pos f p (f x).
Proof.
  revert x. induction p as [p IH|p IH|]; intros x; simpl.
  - rewrite !IH. rewrite !iter_pos_comm. reflexivity.
  - reflexivity.
  - reflexivity.
Qed.

(** An even mantissa can be halved against the exponent before rounding. *)
Lemma binary_round_aux_even s M E :
  prec <= Zdigits2 (Z.pos M) -> emin + prec <= Zdigits2 (Z.pos M) + (E + 1) ->
  binary_round_aux prec emax s (Z.pos M~0) E loc_Exact =
  binary_round_aux prec emax s (Z.pos M) (E + 1) loc_Exact.
Proof.
  intros Hd He. b64. unfold binary_round_aux.
  assert (Hs : shr_fexp prec emax (Z.pos M~0) E loc_Exact =
               shr_fexp prec emax (Z.pos M) (E + 1) loc_Exact).
  { unfold shr_fexp, fexp.
    assert (Hdig : Zdigits2 (Z.pos M~0) = Zdigits2 (Z.pos M) + 1).
    { simpl. lia. }
    rewrite Hdig. rewrite !Z.max_l by lia.
    replace (Zdigits2 (Z.pos M) + 1 + E - prec - E) with (Zdigits2 (Z.pos M) - prec + 1) by lia.
    replace (Zdigits2 (Z.pos M) + (E + 1) - prec - (E + 1)) with (Zdigits2 (Z.pos M) - prec) by lia.
    destruct (Zdigits2 (Z.pos M) - prec) as [|p|p] eqn:Hn; try lia.
    - simpl. f_equal; lia.
    - replace (Z.pos p + 1) with (Z.pos (Pos.succ p)) by lia.
      unfold shr. rewrite iter_pos_succ. simpl shr_record_of_loc. simpl shr_1.
      f_equal; lia. }
  rewrite Hs. reflexivity.
Qed.

Lemma Zdigits2_mul_above a b : 0 < a -> 0 < b -> Zdigits2 (a * b) <= Zdigits2 a + Zdigits2 b.
Proof.
  intros Ha Hb. rewrite !Zdigits2_log2 by lia.
  pose proof (Z.log2_mul_above a b ltac:(lia) ltac:(lia)). lia.
Qed.

Lemma valid_finite_digits s m e :
  valid_binary (S754_finite s m e) = true ->
  emin <= e /\ Zdigits2 (Z.pos m) <= prec /\ (Zdigits2 (Z.pos m) < prec -> e = emin).
Proof.
  b64. unfold SpecFloat.valid_binary, bounded, canonical_mantissa, fexp.
  intros H. apply andb_prop in H. destruct H as [H _].
  apply Z.eqb_eq in H. simpl. lia.
Qed.

Lemma Prim2SF_two : Prim2SF 2 = SF_two.
Proof. reflexivity. Qed.

Lemma double_spec x : Prim2SF (2 * x) = SF_double (Prim2SF x).
Proof. rewrite mul_spec, Prim2SF_two. reflexivity. Qed.

Lemma SFeqb_refl_finite s m e : SFeqb (S754_finite s m e) (S754_finite s m e) = true.
Proof.
  unfold SFeqb, SFcompare. rewrite Z.compare_refl, Pos.compare_cont_refl.
  destruct s; reflexivity.
Qed.

Lemma is_finite_spec x :
  PrimFloat.is_finite x =
  match Prim2SF x with
  | S754_zero _ | S754_finite _ _ _ => true
  | _ => false
  end.
Proof.
  unfold PrimFloat.is_finite, PrimFloat.is_nan, PrimFloat.is_infinity.
  rewrite !FloatAxioms.eqb_spec, abs_spec.
  change (Prim2SF infinity) with (S754_infinity false).
  destruct (Prim2SF x) as [[|]|[|]| |s m e]; try reflexivity.
  rewrite SFeqb_refl_finite. destruct s; reflexivity.
Qed.


Lemma mul_double c d :
  double_is_finite d = true -> product_normal c d = true ->
  (c * (2 * d) = 2 * (c * d))%float.
Proof.
  unfold double_is_finite, product_normal. intros Hd Hp.
  rewrite (is_finite_spec d) in Hd.
  rewrite (is_finite_spec (2 * d)) in Hd.
  rewrite double_spec in Hd.
  apply Prim2SF_inj.
  rewrite (double_spec (c * d)), (mul_spec c (2 * d)), (double_spec d), (mul_spec c d).
  pose proof (Prim2SF_valid d) as Vd. pose proof (Prim2SF_valid c) as Vc.
  destruct (Prim2SF d) as [sd|sd| |sd md ed] eqn:Ed.
  - destruct (Prim2SF c) as [[|]|[|]| |[|] mc ec]; destruct sd; reflexivity.
  - destruct (Prim2SF c) as [[|]|[|]| |[|] mc ec]; destruct sd; reflexivity.
  - destruct (Prim2SF c) as [[|]|[|]| |[|] mc ec]; reflexivity.
  - b64. apply valid_finite_digits in Vd. destruct Vd as (Vd1 & Vd2 & Vd3).
    cbn [negb orb] in Hd.
    destruct (Z.eq_dec (Zdigits2 (Z.pos md)) prec) as [Hdig|Hdig].
    + (* normal density *)
      assert (Hdbl := SF_double_normal sd md ed Hdig ltac:(lia)).
      rewrite Hdbl in Hd |- *.
      destruct (ed + 1 <=? emax - prec) eqn:Hle; [|discriminate].
      destruct (Prim2SF c) as [sc|sc| |sc mc ec] eqn:Ec.
      * destruct sc, sd; reflexivity.
      * destruct sc, sd; reflexivity.
      * reflexivity.
      * apply Z.leb_le in Hp. unfold SF64mul, SFmul.
        replace (ec + (ed + 1)) with (ec + ed + 1) by lia.
        apply binary_round_aux_succ; [|lia].
        pose proof (Zdigits2_mul (Z.pos mc) (Z.pos md) ltac:(lia) ltac:(lia)) as Hm.
        rewrite <- Pos2Z.inj_mul in Hm.
        assert (1 <= Zdigits2 (Z.pos mc)) by (rewrite Zdigits2_log2 by lia; pose proof (Z.log2_nonneg (Z.pos mc)); lia).
        lia.
    + (* subnormal density *)
      assert (ed = emin) by lia. subst ed.
      assert (Hdbl := SF_double_subnormal sd md ltac:(change (Z.pos (digits2_pos md)) with (Zdigits2 (Z.pos md)); lia)).
      rewrite Hdbl.
      destruct (Prim2SF c) as [sc|sc| |sc mc ec] eqn:Ec.
      * destruct sc, sd; reflexivity.
      * destruct sc, sd; reflexivity.
      * reflexivity.
      * apply Z.leb_le in Hp. unfold SF64mul, SFmul.
        apply valid_finite_digits in Vc. destruct Vc as (Vc1 & Vc2 & Vc3).
        pose proof (Zdigits2_mul (Z.pos mc) (Z.pos md) ltac:(lia) ltac:(lia)) as Hm.
        pose proof (Zdigits2_mul_above (Z.pos mc) (Z.pos md) ltac:(lia) ltac:(lia)) as Hm'.
        rewrite <- Pos2Z.inj_mul in Hm, Hm'.
        assert (1 <= Zdigits2 (Z.pos md)) by (rewrite Zdigits2_log2 by lia; pose proof (Z.log2_nonneg (Z.pos md)); lia).
        assert (Hmc : Zdigits2 (Z.pos mc) = prec) by lia.
        rewrite Pos.mul_xO_r.
        rewrite binary_round_aux_even by lia.
        apply binary_round_aux_succ; lia.
Qed.

(** ** Values that are not finite *)

Lemma mul_not_finite_l (c d : float) :
  PrimFloat.is_finite c = false -> PrimFloat.is_finite (c * d) = false.
Proof.
  rewrite (is_finite_spec c), (is_finite_spec (c * d)), (mul_spec c d).
  destruct (Prim2SF c) as [sc|sc| |sc mc ec]; try discriminate; intros _.
  - destruct (Prim2SF d) as [sd|sd| |sd md ed]; reflexivity.
  - destruct (Prim2SF d) as [sd|sd| |sd md ed]; reflexivity.
Qed.

Lemma mul_not_finite_r (c d : float) :
  PrimFloat.is_finite d = false -> PrimFloat.is_finite (c * d) = false.
Proof.
  rewrite (is_finite_spec d), (is_finite_spec (c * d)), (mul_spec c d).
  destruct (Prim2SF d) as [sd|sd| |sd md ed]; try discriminate; intros _.
  - destruct (Prim2SF c) as [sc|sc| |sc mc ec]; reflexivity.
  - destruct (Prim2SF c) as [sc|sc| |sc mc ec]; reflexivity.
Qed.

Lemma Math_round_not_finite (x : float) :
  PrimFloat.is_finite x = false -> Math_round x = x.
Proof.
  rewrite (is_finite_spec x). unfold Math_round.
  destruct (Prim2SF x) as [s|s| |s m e]; try discriminate; reflexivity.
Qed.

(** ** Rounding *)

Lemma iter_xO p d : Z.pos (Pos.iter xO p d) = Z.pos p * 2 ^ Z.pos d.
Proof.
  change (Pos.iter xO p d) with (shift_pos d p).
  rewrite shift_pos_correct. change (Zpower_pos 2 d) with (2 ^ Z.pos d). lia.
Qed.

Lemma binary_round_aux_exact s m e :
  Zdigits2 (Z.pos m) = prec -> emin <= e -> e <= emax - prec ->
  binary_round_aux prec emax s (Z.pos m) e loc_Exact = S754_finite s m e.
Proof.
  intros Hd He He'. unfold binary_round_aux.
  rewrite shr_fexp_exact by assumption.
  simpl shr_m. simpl loc_of_shr_record. simpl round_nearest_even.
  rewrite shr_fexp_exact by assumption. simpl shr_m.
  apply Z.leb_le in He'. rewrite He'. reflexivity.
Qed.

Lemma binary_normalize_small p :
  Z.pos p < 2 ^ 53 ->
  exists m e, binary_normalize prec emax (Z.pos p) 0 false = S754_finite false m e /\
              e <= 0 /\ Z.pos m = Z.pos p * 2 ^ (- e).
Proof.
  intros Hp. b64. unfold binary_normalize, binary_round, shl_align, fexp.
  change (Z.pos (digits2_pos p)) with (Zdigits2 (Z.pos p)).
  assert (HD : 1 <= Zdigits2 (Z.pos p) <= 53).
  { rewrite Zdigits2_log2 by lia. pose proof (Z.log2_nonneg (Z.pos p)).
    assert (Z.log2 (Z.pos p) < 53) by (apply Z.log2_lt_pow2; lia). lia. }
  rewrite Z.max_l by lia.
  destruct (Zdigits2 (Z.pos p) + 0 - prec - 0) as [|q|q] eqn:Hq; try lia.
  - exists p, 0. split; [|split; [lia|simpl; lia]].
    apply binary_round_aux_exact; lia.
  - exists (Pos.iter xO p q), (Zdigits2 (Z.pos p) + 0 - prec).
    split; [|split; [lia|]].
    + apply binary_round_aux_exact; try lia.
      rewrite iter_xO. rewrite Zdigits2_log2 by lia.
      rewrite Z.log2_mul_pow2 by lia.
      rewrite Zdigits2_log2 in Hq by lia. lia.
    + rewrite iter_xO. f_equal. f_equal. lia.
Qed.

Lemma integer_value_finite x s m e :
  Prim2SF x = S754_finite s m e -> e <= 0 ->
  forall p, Z.pos m = Z.pos p * 2 ^ (- e) ->
  integer_value x = Some (if s then Z.neg p else Z.pos p).
Proof.
  intros Hx He p Hm. unfold integer_value. rewrite Hx.
  assert (Hpow : 0 < 2 ^ (- e)) by (apply Z.pow_pos_nonneg; lia).
  destruct (0 <=? e) eqn:H0.
  - apply Z.leb_le in H0. assert (e = 0) by lia. subst e.
    change (2 ^ (- 0)) with 1 in Hm. change (2 ^ 0) with 1.
    f_equal. destruct s; lia.
  - assert (Hmod : Z.pos m mod 2 ^ (- e) = 0) by (rewrite Hm; apply Z.mod_mul; lia).
    rewrite Hmod. cbn [Z.eqb]. f_equal. destruct s.
    + change (Z.neg m) with (- Z.pos m). rewrite Hm.
      rewrite <- Z.mul_opp_l, Z.div_mul by lia. reflexivity.
    + rewrite Hm, Z.div_mul by lia. reflexivity.
Qed.

Lemma float_of_Z_exact k :
  - 2 ^ 53 < k < 2 ^ 53 -> integer_value (float_of_Z k) = Some k.
Proof.
  intros Hk. destruct k as [|p|p].
  - reflexivity.
  - destruct (binary_normalize_small p ltac:(lia)) as (m & e & Hn & He & Hm).
    apply (integer_value_finite _ false m e); [|assumption..].
    unfold float_of_Z. rewrite of_uint63_spec, Uint63.of_Z_spec.
    rewrite Z.mod_small; [exact Hn|].
    change Uint63.wB with (2 ^ 63). lia.
  - destruct (binary_normalize_small p ltac:(lia)) as (m & e & Hn & He & Hm).
    apply (integer_value_finite _ true m e); [|assumption..].
    unfold float_of_Z. rewrite opp_spec, of_uint63_spec, Uint63.of_Z_spec.
    rewrite Z.mod_small; [rewrite Hn; reflexivity|].
    change Uint63.wB with (2 ^ 63). lia.
Qed.

(** floor(v + 1/2) is the integer [k] with k <= v + 1/2 < k + 1. *)
Lemma round_half_up_nearest (s : bool) (m : positive) (e : Z) :
  e < 0 ->
  let den := 2 ^ (- e) in
  let num := if s then Z.neg m else Z.pos m in
  let k := round_half_up s m e in
  2 * k * den <= 2 * num + den < 2 * (k + 1) * den.
Proof.
  intros He den num k.
  assert (Hden : 0 < den) by (apply Z.pow_pos_nonneg; lia).
  unfold k, round_half_up. fold den num.
  pose proof (Z.div_mod (2 * num + den) (2 * den) ltac:(lia)) as Hdm.
  pose proof (Z.mod_pos_bound (2 * num + den) (2 * den) ltac:(lia)) as Hb.
  nia.
Qed.

Lemma round_half_up_bound (s : bool) (m : positive) (e : Z) :
  e < 0 -> Z.pos m < 2 ^ 53 -> - 2 ^ 53 < round_half_up s m e < 2 ^ 53.
Proof.
  intros He Hm.
  pose proof (round_half_up_nearest s m e He) as H. cbv zeta in H.
  assert (Hden : 2 <= 2 ^ (- e)).
  { change 2 with (2 ^ 1) at 1. apply Z.pow_le_mono_r; lia. }
  destruct s; nia.
Qed.

(** The result of [Math.round] on a finite number that is not integral by
    its representation is the integer floor(x + 1/2). *)
Lemma Math_round_value (x : float) s m e :
  Prim2SF x = S754_finite s m e -> e < 0 ->
  integer_value (Math_round x) = Some (round_half_up s m e).
Proof.
  intros Hx He. b64.
  pose proof (Prim2SF_valid x) as V. rewrite Hx in V.
  apply valid_finite_digits in V. destruct V as (_ & Vd & _).
  assert (Hm : Z.pos m < 2 ^ 53).
  { rewrite Zdigits2_log2 in Vd by lia.
    apply Z.log2_lt_pow2; lia. }
  pose proof (round_half_up_bound s m e He Hm) as Hb.
  unfold Math_round. rewrite Hx.
  destruct (0 <=? e) eqn:H0; [apply Z.leb_le in H0; lia|].
  destruct (round_half_up s m e) as [|p|p] eqn:Hk.
  - destruct s; reflexivity.
  - apply float_of_Z_exact. lia.
  - apply float_of_Z_exact. lia.
Qed.

(** [Math.round] of a finite number is the integer nearest to it, the upper
    one on a tie. *)
Lemma Math_round_rounds (x : float) :
  PrimFloat.is_finite x = true ->
  exists k : Z, integer_value (Math_round x) = Some k /\ rounds_to x k.
Proof.
  rewrite (is_finite_spec x). unfold rounds_to.
  destruct (Prim2SF x) as [s|s| |s m e] eqn:Hx; try discriminate; intros _.
  - exists 0. split; [|reflexivity].
    unfold Math_round, integer_value. rewrite Hx, Hx. reflexivity.
  - destruct (Z.leb_spec 0 e) as [He|He].
    + exists ((if s then Z.neg m else Z.pos m) * 2 ^ e). split; [|lia].
      unfold Math_round, integer_value. rewrite Hx.
      apply Z.leb_le in He. rewrite He, Hx, He. reflexivity.
    + exists (round_half_up s m e). split.
      * apply (Math_round_value x s m e Hx He).
      * apply (round_half_up_nearest s m e He).
Qed.

(** ** Multiplication by one *)

Lemma shr_fexp_canonical m e :
  fexp prec emax (Zdigits2 (Z.pos m) + e) = e ->
  shr_fexp prec emax (Z.pos m) e loc_Exact = (Build_shr_record (Z.pos m) false false, e).
Proof.
  intros H. unfold shr_fexp. rewrite H, Z.sub_diag. reflexivity.
Qed.

Lemma shr_fexp_one m e :
  fexp prec emax (Zdigits2 (Z.pos m) + e) = e ->
  shr_fexp prec emax (Z.pos (4503599627370496 * m)) (e + -52) loc_Exact =
    (Build_shr_record (Z.pos m) false false, e).
Proof.
  intros H. unfold shr_fexp.
  assert (Hdig : Zdigits2 (Z.pos (4503599627370496 * m)) = Zdigits2 (Z.pos m) + 52).
  { rewrite !Zdigits2_log2 by lia. rewrite Pos2Z.inj_mul, Z.mul_comm.
    change (Z.pos 4503599627370496) with (2 ^ 52).
    rewrite Z.log2_mul_pow2 by lia. lia. }
  rewrite Hdig.
  replace (Zdigits2 (Z.pos m) + 52 + (e + -52)) with (Zdigits2 (Z.pos m) + e) by lia.
  rewrite H. replace (e - (e + -52)) with 52 by lia.
  unfold shr. f_equal; first [lia | reflexivity].
Qed.

Lemma mul_one (x : float) : (x * 1 = x)%float.
Proof.
  apply Prim2SF_inj. rewrite mul_spec.
  change (Prim2SF 1) with (S754_finite false 4503599627370496 (-52)).
  pose proof (Prim2SF_valid x) as V.
  destruct (Prim2SF x) as [s|s| |s m e].
  - destruct s; reflexivity.
  - destruct s; reflexivity.
  - reflexivity.
  - unfold SpecFloat.valid_binary, bounded, canonical_mantissa in V.
    apply andb_prop in V. destruct V as [Hc Hb].
    apply Z.eqb_eq in Hc.
    change (Z.pos (digits2_pos m)) with (Zdigits2 (Z.pos m)) in Hc.
    unfold SF64mul, SFmul. rewrite Pos.mul_comm. unfold binary_round_aux.
    rewrite (shr_fexp_one m e Hc).
    simpl shr_m. simpl loc_of_shr_record. simpl round_nearest_even.
    rewrite (shr_fexp_canonical m e Hc). simpl shr_m.
    rewrite Hb. destruct s; reflexivity.
Qed.

(** ** Integers are fixed by rounding *)

Lemma float_of_Z_shape (p : positive) (s : bool) :
  Z.pos p < 2 ^ 53 ->
  exists m e,
    Prim2SF (float_of_Z (if s then Z.neg p else Z.pos p)) = S754_finite s m e /\
    e <= 0 /\ Z.pos m = Z.pos p * 2 ^ (- e).
Proof.
  intros Hp.
  destruct (binary_normalize_small p Hp) as (m & e & Hn & He & Hm).
  exists m, e. split; [|split; assumption].
  assert (Hu : Prim2SF (of_uint63 (Uint63.of_Z (Z.pos p))) = S754_finite false m e).
  { rewrite of_uint63_spec, Uint63.of_Z_spec.
    rewrite Z.mod_small; [exact Hn|].
    change Uint63.wB with (2 ^ 63). lia. }
  destruct s; unfold float_of_Z.
  - rewrite opp_spec, Hu. reflexivity.
  - exact Hu.
Qed.

Lemma canonical_unique (p m m' : positive) (e e' : Z) :
  e <= 0 -> e' <= 0 ->
  Z.pos m = Z.pos p * 2 ^ (- e) -> Z.pos m' = Z.pos p * 2 ^ (- e') ->
  fexp prec emax (Zdigits2 (Z.pos m) + e) = e ->
  fexp prec emax (Zdigits2 (Z.pos m') + e') = e' ->
  m = m' /\ e = e'.
Proof.
  intros He He' Hm Hm' Hc Hc'.
  assert (Hd : forall q f, f <= 0 -> Z.pos q = Z.pos p * 2 ^ (- f) ->
                 Zdigits2 (Z.pos q) + f = Zdigits2 (Z.pos p)).
  { intros q f Hf Hq. rewrite Hq, !Zdigits2_log2.
    - rewrite Z.log2_mul_pow2 by lia. lia.
    - lia.
    - apply Z.mul_pos_pos; [lia|]. apply Z.pow_pos_nonneg; lia. }
  rewrite (Hd m e He Hm) in Hc. rewrite (Hd m' e' He' Hm') in Hc'.
  assert (Hee : e = e') by congruence.
  split; [|exact Hee]. assert (Z.pos m = Z.pos m') by (rewrite Hm, Hm', Hee; reflexivity).
  congruence.
Qed.

Lemma valid_canonical s m e :
  valid_binary (S754_finite s m e) = true ->
  fexp prec emax (Zdigits2 (Z.pos m) + e) = e.
Proof.
  unfold SpecFloat.valid_binary, bounded, canonical_mantissa. intros V.
  apply andb_prop in V. destruct V as [Hc _]. apply Z.eqb_eq in Hc. exact Hc.
Qed.

(** [Math.round] returns a number that is an integer as it is. *)
Lemma Math_round_integer (x : float) (k : Z) :
  integer_value x = Some k -> Math_round x = x.
Proof.
  unfold integer_value, Math_round. intros Hk. b64.
  pose proof (Prim2SF_valid x) as V.
  destruct (Prim2SF x) as [s|s| |s m e] eqn:Hx; try reflexivity.
  destruct (0 <=? e) eqn:H0; [reflexivity|]. apply Z.leb_gt in H0.
  destruct (Z.eqb_spec (Z.pos m mod 2 ^ (- e)) 0) as [Hmod|]; [|discriminate]. clear Hk.
  assert (Hden : 0 < 2 ^ (- e)) by (apply Z.pow_pos_nonneg; lia).
  apply Z.div_exact in Hmod; [|lia].
  set (den := 2 ^ (- e)) in *.
  assert (Hq : 0 < Z.pos m / den) by nia.
  destruct (Z.pos m / den) as [|p|p] eqn:Hp; try lia.
  assert (Hm : Z.pos m = Z.pos p * den) by lia.
  assert (Hr : round_half_up s m e = if s then Z.neg p else Z.pos p).
  { unfold round_half_up. fold den.
    destruct s.
    - change (Z.neg m) with (- Z.pos m). rewrite Hm.
      replace (2 * - (Z.pos p * den) + den) with (Z.neg p * (2 * den) + den) by lia.
      rewrite Z.div_add_l by lia. rewrite Z.div_small by lia. lia.
    - rewrite Hm.
      replace (2 * (Z.pos p * den) + den) with (Z.pos p * (2 * den) + den) by lia.
      rewrite Z.div_add_l by lia. rewrite Z.div_small by lia. lia. }
  rewrite Hr.
  assert (Hb : Z.pos p < 2 ^ 53).
  { pose proof (valid_finite_digits _ _ _ V) as (_ & Vd & _).
    rewrite Zdigits2_log2 in Vd by lia.
    assert (Z.pos m < 2 ^ 53) by (apply Z.log2_lt_pow2; lia). nia. }
  destruct (float_of_Z_shape p s Hb) as (m' & e' & Hs & He' & Hm').
  assert (Hgoal : float_of_Z (if s then Z.neg p else Z.pos p) = x).
  { apply Prim2SF_inj. rewrite Hs, Hx.
    pose proof (Prim2SF_valid (float_of_Z (if s then Z.neg p else Z.pos p))) as V'.
    rewrite Hs in V'.
    destruct (canonical_unique p m' m e' e) as [-> ->]; try assumption; try lia.
    - exact (valid_canonical _ _ _ V').
    - exact (valid_canonical _ _ _ V).
    - reflexivity. }
  destruct s; exact Hgoal.
Qed.

Lemma Math_round_idempotent (x : float) : Math_round (Math_round x) = Math_round x.
Proof.
  destruct (PrimFloat.is_finite x) eqn:Hf.
  - destruct (Math_round_rounds x Hf) as (k & Hk & _).
    exact (Math_round_integer _ k Hk).
  - rewrite (Math_round_not_finite x Hf). apply Math_round_not_finite. exact Hf.
Qed.

Local Open Scope string_scope.

(** * Objects *)

Lemma prototype_data (k : string) (p : prop) :
  k <> "isOpenSeadragonDrawer" -> DrawerBase_prototype !! k = Some p ->
  p = Data (VFun (Proto k)).
Proof.
  intros Hk H. unfold DrawerBase_prototype in H.
  rewrite lookup_insert_ne in H by congruence.
  apply elem_of_list_to_map_2 in H.
  apply list_elem_of_In, in_map_iff in H. destruct H as (k' & Heq & _).
  congruence.
Qed.

Lemma inherited_not_accessor (o : instance) (k : string) (g : unit -> value) :
  k <> "isOpenSeadragonDrawer" -> inherited o k <> Some (Accessor g).
Proof.
  intros Hk. unfold inherited. destruct (layers_lookup (layers o) k); [discriminate|].
  intros H. apply prototype_data in H; [discriminate|assumption].
Qed.

Lemma assign_own (o : instance) (k : string) (v : value) :
  k <> "isOpenSeadragonDrawer" ->
  assign o k v = Instance (<[k := v]> (own o)) (layers o).
Proof.
  intros Hk. unfold assign, put_field.
  destruct (own o !! k); [reflexivity|].
  pose proof (inherited_not_accessor o k) as Hn.
  destruct (inherited o k) as [[v'|g]|]; try reflexivity.
  exfalso. exact (Hn g Hk eq_refl).
Qed.

Lemma get_field_assign_eq (o : instance) (k : string) (v : value) :
  k <> "isOpenSeadragonDrawer" -> get_field (assign o k v) k = v.
Proof.
  intros Hk. rewrite assign_own by assumption. unfold get_field. simpl.
  rewrite lookup_insert_eq. reflexivity.
Qed.

Lemma layers_assign (o : instance) (k : string) (v : value) :
  layers (assign o k v) = layers o.
Proof.
  unfold assign, put_field.
  destruct (own o !! k); [reflexivity|].
  destruct (inherited o k) as [[v'|g]|]; reflexivity.
Qed.

Lemma get_field_assign_ne (o : instance) (k k' : string) (v : value) :
  k <> k' -> get_field (assign o k' v) k = get_field o k.
Proof.
  intros Hk. unfold assign, put_field.
  destruct (own o !! k') eqn:Ho.
  - unfold get_field, inherited. simpl. rewrite lookup_insert_ne by congruence. reflexivity.
  - destruct (inherited o k') as [[v'|g]|]; try reflexivity;
      unfold get_field, inherited; simpl; rewrite lookup_insert_ne by congruence; reflexivity.
Qed.

(** * A program logic for [M] *)

Lemma wp_bind {A B : Type} (m : M A) (f : A -> M B) Q E w :
  wp m (fun a w' => wp (f a) Q E w') E w -> wp (m ≫= f) Q E w.
Proof.
  unfold wp, mbind, M_bind. destruct (m w) as [[a|e] w']; auto.
Qed.

Lemma wp_ret {A : Type} (a : A) Q E w : Q a w -> wp (mret a) Q E w.
Proof. auto. Qed.

Lemma wp_mono {A : Type} (m : M A) (Q Q' : A -> world -> Prop) (E E' : exn -> world -> Prop) w :
  wp m Q E w -> (forall a w', Q a w' -> Q' a w') -> (forall e w', E e w' -> E' e w') ->
  wp m Q' E' w.
Proof. unfold wp. destruct (m w) as [[a|e] w']; auto. Qed.

Lemma wp_if {A : Type} (b : bool) (m1 m2 : M A) Q E w :
  (b = true -> wp m1 Q E w) -> (b = false -> wp m2 Q E w) ->
  wp (if b then m1 else m2) Q E w.
Proof. destruct b; auto. Qed.

(** ** Rules for the primitive computations *)

Lemma with_console_nil w : with_console (console w ++ []) w = w.
Proof. destruct w. unfold with_console. simpl. rewrite app_nil_r. reflexivity. Qed.

Section Rules.
Context {A : Type} (Q : A -> world -> Prop) (E : exn -> world -> Prop) (w : world).

Lemma wp_raise (e : exn) : E e w -> wp (raise e) Q E w.
Proof. auto. Qed.
End Rules.

Section RulesValue.
Context (Q : value -> world -> Prop) (E : exn -> world -> Prop) (w : world).

Lemma wp_member v k :
  (nullish v = true -> E (TypeError ("cannot read property " ++ k)) w) ->
  (nullish v = false -> Q (property v k) w) ->
  wp (member v k) Q E w.
Proof. unfold wp, member. destruct (nullish v); simpl; auto. Qed.

Lemma wp_get_this k : Q (get_field (this w) k) w -> wp (get_this k) Q E w.
Proof. auto. Qed.

Lemma wp_getElement v :
  Q (match v with VStr id => getElementById w id | _ => v end) w ->
  wp (getElement v) Q E w.
Proof. auto. Qed.

Lemma wp_makeNeutralElement tag :
  Q (VElement (next_element w))
    (with_dom (dom w ++ [CreateElement (next_element w) tag]) (S (next_element w)) w) ->
  wp (makeNeutralElement tag) Q E w.
Proof. auto. Qed.

Lemma wp_calculateCanvasSize (a : instance) p sc d g c dm n h :
  w = World a p sc d g c dm n h ->
  (forall vp, get_field a "viewport" = VViewport vp ->
     Q (VObject true
          (<[ "x" := VNum (Math_round (Point.x (Viewport.getContainerSize vp) * p)) ]>
          (<[ "y" := VNum (Math_round (Point.y (Viewport.getContainerSize vp) * p)) ]> ∅))) w) ->
  ((forall vp, get_field a "viewport" <> VViewport vp) -> forall s, E (TypeError s) w) ->
  wp _calculateCanvasSize Q E w.
Proof.
  intros -> HQ HE. unfold wp, _calculateCanvasSize, mbind, M_bind, get_world, get_this, viewport_of.
  cbn [this pixelDensityRatio].
  destruct (get_field a "viewport") eqn:Hv; simpl;
    try (apply HE; intros; discriminate).
  apply HQ. reflexivity.
Qed.
End RulesValue.

Section RulesUnit.
Context (Q : unit -> world -> Prop) (E : exn -> world -> Prop) (w : world).

Lemma wp_console_assert c msg :
  Q tt (with_console (console w ++ (if truthy c then [] else [Assertion msg])) w) ->
  wp (console_assert c msg) Q E w.
Proof.
  unfold wp, console_assert. destruct (truthy c); auto. rewrite with_console_nil. auto.
Qed.

Lemma wp_console_error_if (b : bool) msg :
  Q tt (with_console (console w ++ (if b then [Error msg] else [])) w) ->
  wp (if b then console_error msg else mret tt) Q E w.
Proof.
  unfold wp, console_error. destruct b; auto. rewrite with_console_nil. auto.
Qed.

Lemma wp_set_this k v :
  Q tt (with_this (assign (this w) k v) w) -> wp (set_this k v) Q E w.
Proof. auto. Qed.

Lemma wp_emit ev :
  Q tt (with_dom (dom w ++ [ev]) (next_element w) w) -> wp (emit ev) Q E w.
Proof. auto. Qed.

Lemma wp_set_member t k v :
  (nullish t = true -> E (TypeError ("cannot set property " ++ k)) w) ->
  (nullish t = false -> Q tt (with_dom (dom w ++ [SetProperty t k v]) (next_element w) w)) ->
  wp (set_member t k v) Q E w.
Proof. unfold wp, set_member. destruct (nullish t); simpl; auto. Qed.

Lemma wp_call_method t k args :
  (nullish t = true -> E (TypeError ("cannot read property " ++ k)) w) ->
  (nullish t = false -> has_method t k = false -> E (TypeError (k ++ " is not a function")) w) ->
  (nullish t = false -> has_method t k = true ->
     Q tt (with_dom (dom w ++ [Call t k args]) (next_element w) w)) ->
  wp (call_method t k args) Q E w.
Proof.
  unfold wp, call_method. destruct (nullish t); simpl; auto.
  destruct (has_method t k); simpl; auto.
Qed.

Lemma wp_dom_helper name args :
  Q tt (with_dom (dom w ++ [Helper name args]) (next_element w) w) ->
  wp (dom_helper name args) Q E w.
Proof. auto. Qed.
End RulesUnit.

Lemma wp_get_world (Q : world -> world -> Prop) E w : Q w w -> wp get_world Q E w.
Proof. auto. Qed.

Lemma truthy_not_nullish v : truthy v = true -> nullish v = false.
Proof. destruct v; simpl; congruence. Qed.

(** Line 77: the value of [this.useCanvas]. *)
Lemma wp_useCanvas (b : bool) (Q : value -> world -> Prop) E w :
  Q (if b then
       if truthy (get_field (this w) "viewer")
       then property (get_field (this w) "viewer") "useCanvas"
       else VBool true
     else VBool false) w ->
  wp (if b then
        viewer ← get_this "viewer";
        if truthy viewer then member viewer "useCanvas" else mret (VBool true)
      else mret (VBool false)) Q E w.
Proof.
  intros HQ. destruct b; [|exact HQ].
  apply wp_bind, wp_get_this.
  destruct (truthy (get_field (this w) "viewer")) eqn:Ht; [|exact HQ].
  apply wp_member; [|auto]. intros Hn. apply truthy_not_nullish in Ht. congruence.
Qed.

Lemma is_placeholder_cases o :
  Forall (fun k => is_placeholder o k = false) required_operations \/
  exists k, In k required_operations /\ is_placeholder o k = true.
Proof.
  unfold required_operations.
  destruct (is_placeholder o "draw") eqn:H1; [right; eexists; split; [|eassumption]; simpl; tauto|].
  destruct (is_placeholder o "canRotate") eqn:H2; [right; eexists; split; [|eassumption]; simpl; tauto|].
  destruct (is_placeholder o "destroy") eqn:H3; [right; eexists; split; [|eassumption]; simpl; tauto|].
  destruct (is_placeholder o "clear") eqn:H4; [right; eexists; split; [|eassumption]; simpl; tauto|].
  destruct (is_placeholder o "setImageSmoothingEnabled") eqn:H5; [right; eexists; split; [|eassumption]; simpl; tauto|].
  left. repeat constructor; assumption.
Qed.

Lemma first_missing_In (o : instance) (k : string) :
  first_missing o k -> In k required_operations /\ is_placeholder o k = true.
Proof.
  intros (before & after & Hr & _ & Hp). split; [|exact Hp].
  rewrite Hr. apply in_or_app. right. apply in_eq.
Qed.

(** The check returns when every required operation is overridden, and
    otherwise throws the message of the first one that is not. *)
Lemma checkForAPIOverrides_outcome w :
  (Forall (fun k => is_placeholder (this w) k = false) required_operations /\
   _checkForAPIOverrides w = (Return tt, w)) \/
  (exists k, first_missing (this w) k /\
   _checkForAPIOverrides w = (Raise (Thrown (VStr (missing_message k))), w)).
Proof.
  unfold _checkForAPIOverrides, mbind, M_bind, get_world, first_missing, required_operations.
  destruct (is_placeholder (this w) "draw") eqn:H1.
  { right. exists "draw". split; [exists []; eexists; repeat constructor; assumption | reflexivity]. }
  destruct (is_placeholder (this w) "canRotate") eqn:H2.
  { right. exists "canRotate".
    split; [exists ["draw"]; eexists; repeat constructor; assumption
           | reflexivity]. }
  destruct (is_placeholder (this w) "destroy") eqn:H3.
  { right. exists "destroy".
    split; [exists ["draw"; "canRotate"]; eexists; repeat constructor; assumption
           | reflexivity]. }
  destruct (is_placeholder (this w) "clear") eqn:H4.
  { right. exists "clear".
    split; [exists ["draw"; "canRotate"; "destroy"]; eexists; repeat constructor; assumption
           | reflexivity]. }
  destruct (is_placeholder (this w) "setImageSmoothingEnabled") eqn:H5.
  { right. exists "setImageSmoothingEnabled".
    split; [exists ["draw"; "canRotate"; "destroy"; "clear"]; eexists; repeat constructor; assumption
           | reflexivity]. }
  left. split; [repeat constructor; assumption | reflexivity].
Qed.

Lemma wp_checkForAPIOverrides (Q : unit -> world -> Prop) E w (a : instance) p sc d g c dm n h :
  w = World a p sc d g c dm n h ->
  (Forall (fun k => is_placeholder a k = false) required_operations -> Q tt w) ->
  (forall k, first_missing a k -> E (Thrown (VStr (missing_message k))) w) ->
  wp _checkForAPIOverrides Q E w.
Proof.
  intros -> HQ HE. unfold wp.
  destruct (checkForAPIOverrides_outcome (World a p sc d g c dm n h)) as [[H ->]|(k & Hk & ->)]; auto.
Qed.

Lemma fn_eqb_eq (g f : fn) : fn_eqb g f = true <-> g = f.
Proof.
  destruct g as [a|a], f as [b|b]; simpl;
    try (split; [discriminate | intros E; inversion E]).
  - rewrite String.eqb_eq. split; [intros ->; reflexivity | intros E; inversion E; reflexivity].
  - rewrite Nat.eqb_eq. split; [intros ->; reflexivity | intros E; inversion E; reflexivity].
Qed.

(** A call through [this]: the helper of the prototype, a function of the
    class, or no function at all. *)
Lemma wp_dispatch (method : string) (body : M value) (f : value)
    (Q : value -> world -> Prop) E w :
  (f = VFun (Proto method) -> wp body Q E w) ->
  (forall g, f = VFun g -> g <> Proto method -> Q (host_returns w g) w) ->
  ((forall g, f <> VFun g) -> E (TypeError (method ++ " is not a function")) w) ->
  wp (dispatch method body f) Q E w.
Proof.
  intros Hbase Hhost Hnone. unfold dispatch.
  destruct f; try (apply Hnone; intros; discriminate).
  destruct (fn_eqb f (Proto method)) eqn:He.
  - apply Hbase. apply fn_eqb_eq in He. rewrite He. reflexivity.
  - apply Hhost; [reflexivity|]. intros ->.
    assert (fn_eqb (Proto method) (Proto method) = true) by (apply fn_eqb_eq; reflexivity).
    congruence.
Qed.

Ltac wsimpl :=
  cbv beta iota delta [this console dom next_element supportsCanvas pixelDensityRatio
       DEFAULT_SETTINGS_debugGridColor getElementById host_returns
       with_this with_console with_dom with_pixelDensityRatio].

Ltac fsimpl :=
  repeat first [ rewrite get_field_assign_eq by discriminate
               | rewrite get_field_assign_ne by discriminate ].

Ltac wp_prim :=
  lazymatch goal with
  | |- wp (mbind _ _) _ _ _ => apply wp_bind
  | |- wp (mret _) _ _ _ => apply wp_ret
  | |- wp (member _ _) _ _ _ => apply wp_member; [intros ? | intros ?]
  | |- wp (get_this _) _ _ _ => apply wp_get_this
  | |- wp get_world _ _ _ => apply wp_get_world
  | |- wp (getElement _) _ _ _ => apply wp_getElement
  | |- wp (makeNeutralElement _) _ _ _ => apply wp_makeNeutralElement
  | |- wp (console_assert _ _) _ _ _ => apply wp_console_assert
  | |- wp (if _ then console_error _ else mret tt) _ _ _ => apply wp_console_error_if
  | |- wp (set_this _ _) _ _ _ => apply wp_set_this
  | |- wp (set_member _ _ _) _ _ _ => apply wp_set_member; [intros ? | intros ?]
  | |- wp (call_method _ _ _) _ _ _ => apply wp_call_method; [intros ? | intros ? ? | intros ? ?]
  | |- wp (dom_helper _ _) _ _ _ => apply wp_dom_helper
  | |- wp (call_this _ _) _ _ _ => unfold call_this
  | |- wp (dispatch _ _ _) _ _ _ =>
      apply wp_dispatch; [intros ? | intros ? ? ? | intros ?]
  | |- wp _calculateCanvasSize _ _ _ =>
      eapply wp_calculateCanvasSize; [reflexivity | intros ? ? | intros ? ?]
  | |- wp _checkForAPIOverrides _ _ _ =>
      eapply wp_checkForAPIOverrides; [reflexivity | intros ? | intros ? ?]
  | |- wp (if _ then _ else mret (VBool false)) _ _ _ => apply wp_useCanvas
  | |- wp (if _ then _ else _) _ _ _ => apply wp_if; intros ?
  end; wsimpl; fsimpl.


(** * The constructor *)

Lemma options_not_nullish arguments :
  nullish (nth 0 arguments VUndefined) = false -> nullish (options_of arguments) = false.
Proof.
  unfold options_of. intros H. destruct (negb (isPlainObject (nth 0 arguments VUndefined))); auto.
Qed.

Section Leaves.
Variables (class : list (gmap string value)) (arguments : list value).
Variables (t : instance) (p : float) (sc : bool) (d : value) (g : string -> value).
Variables (c : list console_entry) (dm : list dom_event) (n : nat) (h : fn -> value).

Let w0 : world := World t p sc d g c dm n h.

Lemma constructed_unfold :
  constructed class arguments w0 =
  assign (assign (assign (assign (assign (assign (assign (assign
    (Instance ∅ class)
    "viewer" (property (options_of arguments) "viewer"))
    "viewport" (property (options_of arguments) "viewport"))
    "debugGridColor"
      (debugGridColor_of (property (options_of arguments) "debugGridColor") d))
    "useCanvas" (useCanvas_of arguments w0))
    "container" (container_of arguments w0))
    "canvas" (VElement n))
    "element" (container_of arguments w0))
    "_imageSmoothingEnabled" (VBool true).
Proof. reflexivity. Qed.

Lemma useCanvas_unfold :
  useCanvas_of arguments w0 =
  if sc then
    if truthy (property (options_of arguments) "viewer")
    then property (property (options_of arguments) "viewer") "useCanvas"
    else VBool true
  else VBool false.
Proof. reflexivity. Qed.

Lemma container_unfold :
  container_of arguments w0 =
  match property (options_of arguments) "element" with
  | VStr id => g id
  | _ => property (options_of arguments) "element"
  end.
Proof. reflexivity. Qed.

(** The three ways in which [this._calculateCanvasSize()] gives no size, and
    the two in which it gives one. *)
Lemma size_none_viewport :
  get_field (Instance ∅ class) "_calculateCanvasSize" = VFun (Proto "_calculateCanvasSize") ->
  (forall vp, property (options_of arguments) "viewport" <> VViewport vp) ->
  viewportSize_of class arguments w0 = None.
Proof.
  intros Hf Hv. unfold viewportSize_of. rewrite Hf. cbn [fn_eqb String.eqb Ascii.eqb Bool.eqb].
  destruct (property (options_of arguments) "viewport"); try reflexivity.
  exfalso. exact (Hv _ eq_refl).
Qed.

Lemma size_none_host (f : fn) :
  get_field (Instance ∅ class) "_calculateCanvasSize" = VFun f ->
  f <> Proto "_calculateCanvasSize" ->
  nullish (h f) = true ->
  viewportSize_of class arguments w0 = None.
Proof.
  intros Hf Hne Hn. unfold viewportSize_of. rewrite Hf.
  destruct (fn_eqb f (Proto "_calculateCanvasSize")) eqn:He.
  - apply fn_eqb_eq in He. contradiction.
  - unfold w0. cbn [host_returns]. rewrite Hn. reflexivity.
Qed.

Lemma size_none_function :
  (forall f, get_field (Instance ∅ class) "_calculateCanvasSize" <> VFun f) ->
  viewportSize_of class arguments w0 = None.
Proof.
  intros Hf. unfold viewportSize_of.
  destruct (get_field (Instance ∅ class) "_calculateCanvasSize"); try reflexivity.
  exfalso. exact (Hf _ eq_refl).
Qed.

Lemma size_base (vp : Viewport.t) :
  get_field (Instance ∅ class) "_calculateCanvasSize" = VFun (Proto "_calculateCanvasSize") ->
  property (options_of arguments) "viewport" = VViewport vp ->
  viewportSize_of class arguments w0 =
  Some (VObject true
    (<[ "x" := VNum (Math_round (Point.x (Viewport.getContainerSize vp) * p)) ]>
    (<[ "y" := VNum (Math_round (Point.y (Viewport.getContainerSize vp) * p)) ]> ∅))).
Proof.
  intros Hf Hv. unfold viewportSize_of. rewrite Hf, Hv. reflexivity.
Qed.

Lemma size_host (f : fn) :
  get_field (Instance ∅ class) "_calculateCanvasSize" = VFun f ->
  f <> Proto "_calculateCanvasSize" ->
  nullish (h f) = false ->
  viewportSize_of class arguments w0 = Some (h f).
Proof.
  intros Hf Hne Hn. unfold viewportSize_of. rewrite Hf.
  destruct (fn_eqb f (Proto "_calculateCanvasSize")) eqn:He.
  - apply fn_eqb_eq in He. contradiction.
  - unfold w0. cbn [host_returns]. rewrite Hn. reflexivity.
Qed.

Lemma stopped_at_first (A : instance) p' sc' d' g' dm' n' h' :
  nullish (nth 0 arguments VUndefined) = true ->
  stopped_early class arguments w0 (World A p' sc' d' g' c dm' n' h').
Proof. intros H. left. split; [assumption | reflexivity]. Qed.

Lemma stopped_later (A : instance) p' sc' d' g' C dm' n' h' :
  nullish (nth 0 arguments VUndefined) = false ->
  C = (c ++ reports arguments)%list ->
  (nullish (container_of arguments w0) = true \/
   nullish (property (container_of arguments w0) "style") = true \/
   has_method (container_of arguments w0) "appendChild" = false \/
   (truthy (useCanvas_of arguments w0) = true /\
    viewportSize_of class arguments w0 = None) \/
   (forall f, get_field (Instance ∅ class) "_checkForAPIOverrides" <> VFun f)) ->
  stopped_early class arguments w0 (World A p' sc' d' g' C dm' n' h').
Proof. intros H HC HD. right. split; [assumption|]. split; assumption. Qed.

Lemma reached_check_intro (A : instance) sc' d' g' C dm' n' h' (f : fn) :
  nullish (nth 0 arguments VUndefined) = false ->
  nullish (container_of arguments w0) = false ->
  nullish (property (container_of arguments w0) "style") = false ->
  has_method (container_of arguments w0) "appendChild" = true ->
  (truthy (useCanvas_of arguments w0) = true ->
   exists v, viewportSize_of class arguments w0 = Some v) ->
  A = constructed class arguments w0 ->
  C = (c ++ reports arguments)%list ->
  get_field (Instance ∅ class) "_checkForAPIOverrides" = VFun f ->
  reached_check class arguments w0 (World A p sc' d' g' C dm' n' h').
Proof.
  intros. unfold reached_check. simpl. repeat split; try assumption. eauto.
Qed.
End Leaves.

Lemma DrawerBase_spec class arguments w :
  wp (DrawerBase arguments)
     (fun _ w' =>
        reached_check class arguments w w' /\
        (inherits_helper class "_checkForAPIOverrides" ->
         Forall (fun k => is_placeholder (constructed class arguments w) k = false)
                required_operations))
     (fun e w' =>
        match e with
        | TypeError _ => stopped_early class arguments w w'
        | Thrown v =>
            reached_check class arguments w w' /\
            inherits_helper class "_checkForAPIOverrides" /\
            exists k, first_missing (constructed class arguments w) k /\
                      v = VStr (missing_message k)
        end)
     (with_this (Instance ∅ class) w).
Proof.
  destruct w as [t p sc d g c dm n h]. wsimpl.
  unfold DrawerBase. cbv zeta.
  change (if negb (isPlainObject (nth 0 arguments VUndefined)) then _ else _)
    with (options_of arguments).
  repeat wp_prim.
  all: try (exfalso; match goal with H : nullish (options_of _) = true |- _ => rewrite options_not_nullish in H by assumption; discriminate end).
  all: try (exfalso; match goal with H : nullish _ = true |- _ => discriminate H end).
  all: try (exfalso; match goal with H : nullish ?v = true, H' : nullish ?v = false |- _ => rewrite H in H'; discriminate H' end).
  all: repeat match goal with
       | H : context [get_field (assign _ _ _) _] |- _ =>
           first [ rewrite get_field_assign_eq in H by discriminate
                 | rewrite get_field_assign_ne in H by discriminate ]
       end.
  all: try (apply stopped_at_first; assumption).
  all: try (apply stopped_later; [assumption | unfold reports; rewrite <- !app_assoc; reflexivity |];
            rewrite container_unfold, useCanvas_unfold;
            first [ left; assumption
                  | right; left; assumption
                  | right; right; left; assumption
                  | right; right; right; left; split; [assumption|];
                    first [ eapply size_none_host; eassumption
                          | apply size_none_function; assumption
                          | apply size_none_viewport; [assumption|]; intros vp Hvp;
                            match goal with H : forall _, _ <> VViewport _ |- _ =>
                              exact (H vp Hvp) end ]
                  | right; right; right; right; assumption ]).
  all: (split;
        [ eapply reached_check_intro;
          rewrite ?constructed_unfold, ?container_unfold, ?useCanvas_unfold;
          try eassumption; try reflexivity;
          try (unfold reports; rewrite <- !app_assoc; reflexivity);
          try (intros Ht;
               first [ eexists; eapply size_base; eassumption
                     | eexists; eapply size_host; eassumption
                     | congruence ])
        | ]).
  all: first [ intros Hi; unfold inherits_helper in Hi;
               first [ rewrite constructed_unfold, container_unfold, useCanvas_unfold; assumption
                     | exfalso; congruence ]
             | split; [assumption|];
               rewrite constructed_unfold, container_unfold, useCanvas_unfold;
               eexists; split; [eassumption | reflexivity] ].
Qed.
(** * The coordinate helpers *)

Lemma viewportToDrawerRectangle_value (w : world) (vp : Viewport.t) (r : Rect.t) :
  get_field (this w) "viewport" = VViewport vp ->
  viewportToDrawerRectangle (VRect r) w =
    (Return (VRect (Rect.make
       (Point.x (Viewport.pixelFromPointNoRotate vp (Rect.getTopLeft r) true) * pixelDensityRatio w)
       (Point.y (Viewport.pixelFromPointNoRotate vp (Rect.getTopLeft r) true) * pixelDensityRatio w)
       (Point.x (Viewport.deltaPixelsFromPointsNoRotate vp (Rect.getSize r) true) * pixelDensityRatio w)
       (Point.y (Viewport.deltaPixelsFromPointsNoRotate vp (Rect.getSize r) true) * pixelDensityRatio w))),
     w).
Proof.
  intros H. unfold viewportToDrawerRectangle, mbind, M_bind, get_this, get_world.
  cbv beta. rewrite H. cbn [viewport_of rect_of point_of mret M_ret]. rewrite ?H. reflexivity.
Qed.

Lemma viewportCoordToDrawerCoord_value (w : world) (vp : Viewport.t) (p : Point.t) :
  get_field (this w) "viewport" = VViewport vp ->
  viewportCoordToDrawerCoord (VPoint p) w =
    (Return (VPoint (Point.make
       (Point.x (Viewport.pixelFromPointNoRotate vp p true) * pixelDensityRatio w)
       (Point.y (Viewport.pixelFromPointNoRotate vp p true) * pixelDensityRatio w))),
     w).
Proof.
  intros H. unfold viewportCoordToDrawerCoord, mbind, M_bind, get_this, get_world.
  cbv beta. rewrite H. cbn [viewport_of rect_of point_of mret M_ret]. rewrite ?H. reflexivity.
Qed.

Lemma calculateCanvasSize_value (w : world) (vp : Viewport.t) :
  get_field (this w) "viewport" = VViewport vp ->
  _calculateCanvasSize w =
    (Return (VObject true
       (<[ "x" := VNum (Math_round (Point.x (Viewport.getContainerSize vp) * pixelDensityRatio w)) ]>
       (<[ "y" := VNum (Math_round (Point.y (Viewport.getContainerSize vp) * pixelDensityRatio w)) ]> ∅))),
     w).
Proof.
  intros H. unfold _calculateCanvasSize, mbind, M_bind, get_this, get_world.
  cbv beta. rewrite H. cbn [viewport_of rect_of point_of mret M_ret]. rewrite ?H. reflexivity.
Qed.

Lemma viewportToDrawerRectangle_state (x : value) (w : world) :
  snd (viewportToDrawerRectangle x w) = w.
Proof.
  unfold viewportToDrawerRectangle, mbind, M_bind, get_this, get_world.
  cbv beta. destruct (get_field (this w) "viewport") eqn:Hv; try reflexivity.
  destruct x; simpl; rewrite ?Hv; reflexivity.
Qed.

Lemma viewportCoordToDrawerCoord_state (x : value) (w : world) :
  snd (viewportCoordToDrawerCoord x w) = w.
Proof.
  unfold viewportCoordToDrawerCoord, mbind, M_bind, get_this, get_world.
  cbv beta. destruct (get_field (this w) "viewport") eqn:Hv; try reflexivity.
  destruct x; simpl; rewrite ?Hv; reflexivity.
Qed.

Lemma twice_same {A : Type} (f : value -> M A) (x : value) (w : world) :
  snd (f x w) = w ->
  twice f x w =
    match fst (f x w) with
    | Return a => (Return (a, a), w)
    | Raise e => (Raise e, w)
    end.
Proof.
  unfold twice, mbind, M_bind. destruct (f x w) as [[a|e] w'] eqn:Hf; simpl; intros ->.
  - rewrite Hf. reflexivity.
  - reflexivity.
Qed.

(** * Construction *)

Lemma construct_outcome class arguments w :
  match construct class arguments w with
  | (Return o, w') =>
      o = constructed class arguments w /\
      reached_check class arguments w w' /\
      (inherits_helper class "_checkForAPIOverrides" ->
       Forall (fun k => is_placeholder o k = false) required_operations)
  | (Raise (TypeError _), w') => stopped_early class arguments w w'
  | (Raise (Thrown v), w') =>
      reached_check class arguments w w' /\
      inherits_helper class "_checkForAPIOverrides" /\
      exists k, first_missing (constructed class arguments w) k /\
                v = VStr (missing_message k)
  end.
Proof.
  pose proof (DrawerBase_spec class arguments w) as H. unfold wp in H. unfold construct.
  destruct (DrawerBase arguments (with_this (Instance ∅ class) w)) as [[[]|[s|v]] w'].
  - destruct H as [Hr Hf]. pose proof Hr as (_ & _ & _ & _ & _ & Ht & _).
    split; [assumption|]. split; [assumption|]. rewrite Ht. assumption.
  - assumption.
  - assumption.
Qed.

Lemma constructed_layers class arguments w : layers (constructed class arguments w) = class.
Proof. unfold constructed. rewrite !layers_assign. reflexivity. Qed.

Lemma constructed_field class arguments w (k : string) :
  ~ In k ["viewer"; "viewport"; "debugGridColor"; "useCanvas"; "container"; "canvas";
          "element"; "_imageSmoothingEnabled"] ->
  get_field (constructed class arguments w) k = get_field (Instance ∅ class) k.
Proof.
  intros Hk. unfold constructed.
  rewrite !get_field_assign_ne; [reflexivity|..]; intros ->; apply Hk; simpl; tauto.
Qed.

Lemma constructed_placeholder class arguments w (k : string) :
  In k required_operations ->
  is_placeholder (constructed class arguments w) k = is_placeholder (Instance ∅ class) k.
Proof.
  intros Hk. unfold is_placeholder. rewrite constructed_field; [reflexivity|].
  unfold required_operations in Hk. simpl in *.
  intros H. repeat (destruct Hk as [<-|Hk]; [repeat (destruct H as [H|H]; [discriminate H|]); exact H|]).
  exact Hk.
Qed.

Lemma construct_returns class arguments w o w' :
  construct class arguments w = (Return o, w') ->
  o = constructed class arguments w /\
  reached_check class arguments w w' /\
  (inherits_helper class "_checkForAPIOverrides" ->
   Forall (fun k => is_placeholder o k = false) required_operations).
Proof.
  intros Hrun. pose proof (construct_outcome class arguments w) as H.
  rewrite Hrun in H. exact H.
Qed.

(** With the helper of the prototype, the size of the canvas needs the
    viewport. *)
Lemma viewportSize_inherited class arguments w :
  inherits_helper class "_calculateCanvasSize" ->
  viewportSize_of class arguments w =
  match property (options_of arguments) "viewport" with
  | VViewport vp =>
      Some (VObject true
        (<[ "x" := VNum (Math_round (Point.x (Viewport.getContainerSize vp)
                                     * pixelDensityRatio w)) ]>
        (<[ "y" := VNum (Math_round (Point.y (Viewport.getContainerSize vp)
                                     * pixelDensityRatio w)) ]> ∅)))
  | _ => None
  end.
Proof.
  unfold inherits_helper, viewportSize_of. intros ->. reflexivity.
Qed.

Lemma viewportSize_viewport class arguments w (v : value) :
  inherits_helper class "_calculateCanvasSize" ->
  viewportSize_of class arguments w = Some v ->
  exists vp, property (options_of arguments) "viewport" = VViewport vp.
Proof.
  intros Hi. rewrite (viewportSize_inherited _ _ _ Hi).
  destruct (property (options_of arguments) "viewport"); try discriminate. eauto.
Qed.

Lemma constructed_viewer class arguments w :
  get_field (constructed class arguments w) "viewer" =
  property (options_of arguments) "viewer".
Proof.
  unfold constructed.
  rewrite !(get_field_assign_ne _ "viewer") by discriminate.
  apply get_field_assign_eq. discriminate.
Qed.

Lemma first_missing_transfer (o o' : instance) (k : string) :
  (forall k', In k' required_operations -> is_placeholder o k' = is_placeholder o' k') ->
  first_missing o k -> first_missing o' k.
Proof.
  intros He (before & after & Hr & Hb & Hp).
  exists before, after. split; [exact Hr|]. split.
  - apply List.Forall_forall. intros k' Hk'.
    rewrite <- He.
    + rewrite List.Forall_forall in Hb. apply Hb. exact Hk'.
    + rewrite Hr. apply in_or_app. left. exact Hk'.
  - rewrite <- He; [exact Hp|].
    rewrite Hr. apply in_or_app. right. apply in_eq.
Qed.

(** The first check is the one of [draw]. *)
Lemma first_missing_draw (o : instance) (k : string) :
  is_placeholder o "draw" = true -> first_missing o k -> k = "draw".
Proof.
  intros Hd (before & after & Hr & Hb & _).
  destruct before as [|b before]; unfold required_operations in Hr; simpl in Hr.
  - congruence.
  - assert (b = "draw") by congruence. subst b.
    apply List.Forall_inv in Hb. congruence.
Qed.

Lemma assign_keeps (o : instance) (k k' : string) (v : value) :
  k <> "isOpenSeadragonDrawer" -> k <> k' ->
  own (assign o k v) !! k' = own o !! k'.
Proof.
  intros Hk Hne. rewrite assign_own by exact Hk. cbn [own].
  apply lookup_insert_ne. exact Hne.
Qed.

Lemma marker_not_own class arguments w :
  own (constructed class arguments w) !! "isOpenSeadragonDrawer" = None.
Proof.
  unfold constructed.
  rewrite !assign_keeps by discriminate.
  reflexivity.
Qed.

(** * The drawer contract *)

(** An operation left to the placeholder stops the construction, when the
    check is the one of the prototype. *)
Lemma placeholder_stops class arguments w (k : string) :
  inherits_helper class "_checkForAPIOverrides" ->
  In k required_operations -> is_placeholder (Instance ∅ class) k = true ->
  exists e w', construct class arguments w = (Raise e, w').
Proof.
  intros Hi Hk Hp.
  pose proof (construct_outcome class arguments w) as H.
  destruct (construct class arguments w) as [[o|e] w']; [|eauto].
  exfalso. destruct H as (-> & _ & Hf). specialize (Hf Hi).
  rewrite List.Forall_forall in Hf. specialize (Hf k Hk).
  rewrite constructed_placeholder in Hf by exact Hk. congruence.
Qed.

(** C1, as stated, fails: the check is called through [this] (line 130), so
    a class that defines its own [_checkForAPIOverrides] is not checked by
    the one of the prototype.  Such a class that omits [draw] gets an
    instance, whose [draw] is the placeholder. *)
Lemma overrides_enforced_counterexample :
  (exists o w',
      construct [unchecked_class] [VObject true sample_options] (host 2 (Instance ∅ []))
        = (Return o, w') /\
      is_placeholder o "draw" = true) /\
  ~ overrides_enforced.
Proof.
  destruct (construct [unchecked_class] [VObject true sample_options]
              (host 2 (Instance ∅ []))) as [[o|e] w'] eqn:Hrun;
    [|vm_compute in Hrun; discriminate Hrun].
  assert (Hd : is_placeholder o "draw" = true).
  { pose proof (construct_outcome [unchecked_class] [VObject true sample_options]
                  (host 2 (Instance ∅ []))) as H.
    rewrite Hrun in H. destruct H as (-> & _).
    rewrite constructed_placeholder by (simpl; tauto).
    vm_compute. reflexivity. }
  split; [eauto|].
  intros H. specialize (H _ _ _ _ _ Hrun).
  apply List.Forall_inv in H. congruence.
Qed.

(** C1 (amended): the check of the prototype compares each of the five
    required operations of the instance with the placeholder of
    [$.DrawerBase.prototype], in the order [draw], [canRotate], [destroy],
    [clear], [setImageSmoothingEnabled]; it changes nothing, returns when
    none is the placeholder and otherwise throws the message that names the
    first one that is.  The constructor calls it last, through [this], after
    [this._calculateCanvasSize()].  For a class that defines neither of the
    two helpers, so that the ones of the prototype are called, a construction
    therefore returns only instances on which no required operation is the
    placeholder; an exception thrown names the first operation that the
    instance as constructed leaves to the placeholder; a class that leaves a
    required operation to the placeholder never gets an instance, and when
    that operation is [draw] the exception thrown names [draw]. *)
Theorem required_operations_enforced :
  (forall w : world,
      match _checkForAPIOverrides w with
      | (Return _, w') =>
          w' = w /\
          Forall (fun k => is_placeholder (this w) k = false) required_operations
      | (Raise e, w') =>
          w' = w /\
          exists k, first_missing (this w) k /\ e = Thrown (VStr (missing_message k))
      end) /\
  (forall class arguments w,
      inherits_helper class "_calculateCanvasSize" ->
      inherits_helper class "_checkForAPIOverrides" ->
      match construct class arguments w with
      | (Return o, _) =>
          Forall (fun k => is_placeholder o k = false) required_operations
      | (Raise (Thrown v), w') =>
          exists k, first_missing (this w') k /\ v = VStr (missing_message k)
      | (Raise (TypeError _), _) => True
      end) /\
  (forall class arguments w k,
      inherits_helper class "_calculateCanvasSize" ->
      inherits_helper class "_checkForAPIOverrides" ->
      In k required_operations -> is_placeholder (Instance ∅ class) k = true ->
      exists e w',
        construct class arguments w = (Raise e, w') /\
        forall v, e = Thrown v ->
          exists k', first_missing (Instance ∅ class) k' /\
                     v = VStr (missing_message k') /\
                     (k = "draw" -> k' = "draw")).
Proof.
  split; [|split].
  - intros w.
    destruct (checkForAPIOverrides_outcome w) as [[H ->]|(k & Hk & ->)].
    + split; [reflexivity | exact H].
    + split; [reflexivity | exists k; auto].
  - intros class arguments w _ Hi.
    pose proof (construct_outcome class arguments w) as H.
    destruct (construct class arguments w) as [[o|[s|v]] w'].
    + apply H. exact Hi.
    + exact I.
    + destruct H as (Hr & _ & k & Hk & ->).
      destruct Hr as (_ & _ & _ & _ & _ & -> & _).
      exists k. auto.
  - intros class arguments w k _ Hi Hk Hp.
    destruct (placeholder_stops class arguments w k Hi Hk Hp) as (e & w' & Hrun).
    exists e, w'. split; [exact Hrun|]. intros v ->.
    pose proof (construct_outcome class arguments w) as H. rewrite Hrun in H.
    destruct H as (_ & _ & k' & Hk' & ->).
    apply (first_missing_transfer _ (Instance ∅ class)) in Hk';
      [|intros; apply constructed_placeholder; assumption].
    exists k'. split; [exact Hk'|]. split; [reflexivity|].
    intros ->. exact (first_missing_draw _ _ Hp Hk').
Qed.

(** A class that provides [canRotate], [destroy], [clear] and
    [setImageSmoothingEnabled], omits [draw] and leaves the two helpers to
    the prototype gets no instance, and the exception names [draw]. *)
Lemma required_operations_enforced_witness :
  inherits_helper [delete "draw" complete_class] "_calculateCanvasSize" /\
  inherits_helper [delete "draw" complete_class] "_checkForAPIOverrides" /\
  In "draw" required_operations /\
  is_placeholder (Instance ∅ [delete "draw" complete_class]) "draw" = true /\
  exists w',
    construct [delete "draw" complete_class] [VObject true sample_options]
              (host 2 (Instance ∅ [])) =
    (Raise (Thrown (VStr "[drawer].draw must be implemented by child class")), w').
Proof.
  assert (Hs : inherits_helper [delete "draw" complete_class] "_calculateCanvasSize")
    by (vm_compute; reflexivity).
  assert (H0 : inherits_helper [delete "draw" complete_class] "_checkForAPIOverrides")
    by (vm_compute; reflexivity).
  assert (H1 : In "draw" required_operations) by (simpl; tauto).
  assert (H2 : is_placeholder (Instance ∅ [delete "draw" complete_class]) "draw" = true)
    by (vm_compute; reflexivity).
  split; [exact Hs|]. split; [exact H0|]. split; [exact H1|]. split; [exact H2|].
  destruct (proj2 (proj2 required_operations_enforced) [delete "draw" complete_class]
              [VObject true sample_options] (host 2 (Instance ∅ [])) "draw" Hs H0 H1 H2)
    as (e & w' & Hrun & He).
  exists w'. rewrite Hrun.
  destruct e as [s|v].
  - exfalso. revert Hrun. vm_compute. discriminate.
  - destruct (He v eq_refl) as (k' & _ & -> & Hd). rewrite (Hd eq_refl). reflexivity.
Defined.

(** C2: on a drawer that holds a viewport, [_calculateCanvasSize] returns the
    object whose [x] is [Math.round] of the width of the container times the
    pixel density ratio and whose [y] is [Math.round] of the height times the
    ratio, each computed from its own axis, and leaves the state as it is; a
    finite product is rounded to the integer nearest to it (the upper one on a
    tie).  With the container 800.4 x 600.6 and the ratio 2 the result is
    [{x: 1601, y: 1201}]. *)
Theorem surface_size_rounded :
  (forall (w : world) (vp : Viewport.t),
      get_field (this w) "viewport" = VViewport vp ->
      let viewportSize := Viewport.getContainerSize vp in
      let width := (Point.x viewportSize * pixelDensityRatio w)%float in
      let height := (Point.y viewportSize * pixelDensityRatio w)%float in
      _calculateCanvasSize w =
        (Return (VObject true
           (<[ "x" := VNum (Math_round width) ]>
           (<[ "y" := VNum (Math_round height) ]> ∅))), w) /\
      (PrimFloat.is_finite width = true ->
       exists k : Z, integer_value (Math_round width) = Some k /\ rounds_to width k) /\
      (PrimFloat.is_finite height = true ->
       exists k : Z, integer_value (Math_round height) = Some k /\ rounds_to height k)) /\
  _calculateCanvasSize sample_host =
    (Return (VObject true (<[ "x" := VNum 1601 ]> (<[ "y" := VNum 1201 ]> ∅))),
     sample_host).
Proof.
  split.
  - intros w vp H viewportSize width height.
    split; [exact (calculateCanvasSize_value w vp H)|].
    split; apply Math_round_rounds.
  - vm_compute. reflexivity.
Qed.

(** The sample drawer: 800.4 * 2 is rounded to 1601 and 600.6 * 2 to 1201. *)
Lemma surface_size_rounded_witness :
  get_field (this sample_host) "viewport" = VViewport sample_viewport /\
  PrimFloat.is_finite (800.4 * 2) = true /\
  PrimFloat.is_finite (600.6 * 2) = true /\
  _calculateCanvasSize sample_host =
    (Return (VObject true
       (<[ "x" := VNum (Math_round (800.4 * 2)) ]>
       (<[ "y" := VNum (Math_round (600.6 * 2)) ]> ∅))), sample_host) /\
  (exists k : Z, integer_value (Math_round (800.4 * 2)) = Some k /\
                 rounds_to (800.4 * 2) k) /\
  (exists k : Z, integer_value (Math_round (600.6 * 2)) = Some k /\
                 rounds_to (600.6 * 2) k).
Proof.
  assert (H : get_field (this sample_host) "viewport" = VViewport sample_viewport)
    by (vm_compute; reflexivity).
  assert (Hx : PrimFloat.is_finite (800.4 * 2) = true) by (vm_compute; reflexivity).
  assert (Hy : PrimFloat.is_finite (600.6 * 2) = true) by (vm_compute; reflexivity).
  destruct (proj1 surface_size_rounded sample_host sample_viewport H) as (Hrun & Hkx & Hky).
  split; [exact H|]. split; [exact Hx|]. split; [exact Hy|].
  split; [exact Hrun|]. split; [exact (Hkx Hx) | exact (Hky Hy)].
Defined.

(** C3: on a drawer that holds a viewport, [viewportToDrawerRectangle] of a
    rectangle returns the rectangle whose position is the projection by
    [pixelFromPointNoRotate] of the top-left corner and whose size is the
    projection by [deltaPixelsFromPointsNoRotate] of the size, each of the
    four components multiplied by the pixel density ratio and by nothing
    else: the products are returned as they are, without rounding, and the
    state is left as it is. *)
Theorem rectangle_projected_and_scaled (w : world) (vp : Viewport.t) (r : Rect.t) :
  get_field (this w) "viewport" = VViewport vp ->
  let topLeft :=
    Viewport.pixelFromPointNoRotate vp (Point.make (Rect.x r) (Rect.y r)) true in
  let size :=
    Viewport.deltaPixelsFromPointsNoRotate vp
      (Point.make (Rect.width r) (Rect.height r)) true in
  viewportToDrawerRectangle (VRect r) w =
    (Return (VRect (Rect.make
       (Point.x topLeft * pixelDensityRatio w)
       (Point.y topLeft * pixelDensityRatio w)
       (Point.x size * pixelDensityRatio w)
       (Point.y size * pixelDensityRatio w))),
     w).
Proof.
  intros H. exact (viewportToDrawerRectangle_value w vp r H).
Qed.

(** With density 1.5, the rectangle at (0.5, 0.25) of size 1.5 x 2.5 goes to
    the rectangle at (0.75, 0.375) of size 2.25 x 3.75. *)
Lemma rectangle_projected_and_scaled_witness :
  get_field (this (host 1.5 (drawer_on sample_viewport))) "viewport"
    = VViewport sample_viewport /\
  viewportToDrawerRectangle (VRect (Rect.make 0.5 0.25 1.5 2.5))
      (host 1.5 (drawer_on sample_viewport)) =
    (Return (VRect (Rect.make 0.75 0.375 2.25 3.75)),
     host 1.5 (drawer_on sample_viewport)).
Proof.
  assert (H : get_field (this (host 1.5 (drawer_on sample_viewport))) "viewport"
              = VViewport sample_viewport) by (vm_compute; reflexivity).
  split; [exact H|].
  exact (rectangle_projected_and_scaled (host 1.5 (drawer_on sample_viewport))
           sample_viewport (Rect.make 0.5 0.25 1.5 2.5) H).
Defined.

(** Once the first argument can be read, the console holds the reports of
    the constructor however the construction ends. *)
Lemma construct_console class arguments w :
  nullish (nth 0 arguments VUndefined) = false ->
  console (snd (construct class arguments w)) = (console w ++ reports arguments)%list.
Proof.
  intros Hn. pose proof (construct_outcome class arguments w) as H.
  destruct (construct class arguments w) as [[o|[s|v]] w']; cbn [snd].
  - destruct H as (_ & Hr & _). apply Hr.
  - destruct H as [[Hn' _]|(_ & Hc & _)]; [congruence | exact Hc].
  - destruct H as [Hr _]. apply Hr.
Qed.

(** A construction that does not stop at a failed property access has a
    container, and a viewport if it sizes a canvas with the helper of the
    prototype. *)
Lemma construct_needs class arguments w :
  nullish (container_of arguments w) = true \/
  (inherits_helper class "_calculateCanvasSize" /\
   truthy (useCanvas_of arguments w) = true /\
   forall vp, property (options_of arguments) "viewport" <> VViewport vp) ->
  exists s w', construct class arguments w = (Raise (TypeError s), w').
Proof.
  intros Hm. pose proof (construct_outcome class arguments w) as H.
  assert (Hno : ~ reached_check class arguments w (snd (construct class arguments w))).
  { intros (_ & Hc & _ & _ & Hv & _). destruct Hm as [Hm|(Hi & Hu & Hm)].
    - congruence.
    - destruct (Hv Hu) as [v Hs].
      destruct (viewportSize_viewport _ _ _ _ Hi Hs) as [vp Hvp]. exact (Hm vp Hvp). }
  destruct (construct class arguments w) as [[o|[s|v]] w']; cbn [snd] in Hno.
  - exfalso. apply Hno. apply H.
  - eauto.
  - exfalso. apply Hno. apply H.
Qed.

(** C4, as stated, fails: the sample configuration without its [viewer],
    given to a class that provides the required operations, yields an
    instance, whose [viewer] is [undefined]. *)
Lemma fails_fast_counterexample :
  missing (delete "viewer" sample_options) "viewer" /\
  (exists o w',
      construct [complete_class] [VObject true (delete "viewer" sample_options)]
                (host 2 (Instance ∅ [])) = (Return o, w') /\
      get_field o "viewer" = VUndefined) /\
  ~ fails_fast.
Proof.
  assert (Hm : missing (delete "viewer" sample_options) "viewer")
    by (vm_compute; reflexivity).
  destruct (construct [complete_class] [VObject true (delete "viewer" sample_options)]
              (host 2 (Instance ∅ []))) as [[o|e] w'] eqn:Hrun;
    [|vm_compute in Hrun; discriminate Hrun].
  split; [exact Hm|]. split.
  - exists o, w'. split; [reflexivity|].
    destruct (construct_returns _ _ _ _ _ Hrun) as (-> & _).
    rewrite constructed_viewer. vm_compute. reflexivity.
  - intros H.
    destruct (H [complete_class] (delete "viewer" sample_options)
                (host 2 (Instance ∅ [])) (or_introl Hm)) as (e & w2 & Hrun').
    rewrite Hrun in Hrun'. discriminate Hrun'.
Qed.

Lemma nullish_not_truthy (v : value) : nullish v = true -> truthy v = false.
Proof. destruct v; try discriminate; reflexivity. Qed.

Lemma nullish_container arguments w :
  nullish (property (options_of arguments) "element") = true ->
  nullish (container_of arguments w) = true.
Proof.
  unfold container_of.
  destruct (property (options_of arguments) "element"); try discriminate; reflexivity.
Qed.

(** C4 (amended): for a configuration object, each of [viewer], [viewport]
    and [element] that is missing is reported on the console by a failed
    assertion, whatever the construction does next.  The report by itself
    does not stop the construction: it fails, with a TypeError at the first
    use of the missing reference, when the element is missing, and when the
    viewport is missing and a canvas is to be sized by the
    [_calculateCanvasSize] of the prototype (a class may define its own, which
    is then the one called); no such failure is promised for a missing
    viewer. *)
Theorem missing_references_reported class (options : gmap string value) (w : world) :
  let arguments := [VObject true options] in
  let result := construct class arguments w in
  (missing options "viewer" ->
   In (Assertion "[Drawer] options.viewer is required") (console (snd result))) /\
  (missing options "viewport" ->
   In (Assertion "[Drawer] options.viewport is required") (console (snd result)) /\
   (truthy (useCanvas_of arguments w) = true ->
    inherits_helper class "_calculateCanvasSize" ->
    exists s, fst result = Raise (TypeError s))) /\
  (missing options "element" ->
   In (Assertion "[Drawer] options.element is required") (console (snd result)) /\
   exists s, fst result = Raise (TypeError s)).
Proof.
  intros arguments result. unfold result.
  rewrite (construct_console class arguments w) by reflexivity.
  unfold missing, reports.
  change (options_of arguments) with (VObject true options).
  change (nth 0 arguments VUndefined) with (VObject true options).
  change (property (VObject true options) "viewer")
    with (default VUndefined (options !! "viewer")).
  change (property (VObject true options) "viewport")
    with (default VUndefined (options !! "viewport")).
  change (property (VObject true options) "element")
    with (default VUndefined (options !! "element")).
  split; [|split].
  - intros Hm. apply nullish_not_truthy in Hm. rewrite Hm.
    apply in_or_app. right. apply in_or_app. left. apply in_eq.
  - intros Hm. split.
    + apply nullish_not_truthy in Hm. rewrite Hm.
      apply in_or_app. right. apply in_or_app. right.
      apply in_or_app. left. apply in_eq.
    + intros Hu Hi.
      destruct (construct_needs class arguments w) as (s & w' & ->); [|eauto].
      right. split; [exact Hi|]. split; [exact Hu|]. intros vp Hvp.
      change (property (options_of arguments) "viewport")
        with (default VUndefined (options !! "viewport")) in Hvp.
      rewrite Hvp in Hm. discriminate Hm.
  - intros Hm. split.
    + apply nullish_not_truthy in Hm. rewrite Hm.
      apply in_or_app. right. do 2 (apply in_or_app; right).
      apply in_or_app. left. apply in_eq.
    + destruct (construct_needs class arguments w) as (s & w' & ->); [|eauto].
      left. apply nullish_container. exact Hm.
Qed.

(** The sample configuration without its [element], and without its
    [viewport]: the assertion is on the console and the construction raises a
    TypeError. *)
Lemma missing_references_reported_witness :
  (missing (delete "element" sample_options) "element" /\
   In (Assertion "[Drawer] options.element is required")
      (console (snd (construct [complete_class]
                       [VObject true (delete "element" sample_options)]
                       (host 2 (Instance ∅ []))))) /\
   exists s,
     fst (construct [complete_class] [VObject true (delete "element" sample_options)]
            (host 2 (Instance ∅ []))) = Raise (TypeError s)) /\
  (missing (delete "viewport" sample_options) "viewport" /\
   truthy (useCanvas_of [VObject true (delete "viewport" sample_options)]
             (host 2 (Instance ∅ []))) = true /\
   inherits_helper [complete_class] "_calculateCanvasSize" /\
   exists s,
     fst (construct [complete_class] [VObject true (delete "viewport" sample_options)]
            (host 2 (Instance ∅ []))) = Raise (TypeError s)).
Proof.
  assert (Hm : missing (delete "element" sample_options) "element")
    by (vm_compute; reflexivity).
  assert (Hv : missing (delete "viewport" sample_options) "viewport")
    by (vm_compute; reflexivity).
  assert (Hu : truthy (useCanvas_of [VObject true (delete "viewport" sample_options)]
                         (host 2 (Instance ∅ []))) = true) by (vm_compute; reflexivity).
  assert (Hi : inherits_helper [complete_class] "_calculateCanvasSize")
    by (vm_compute; reflexivity).
  split.
  - split; [exact Hm|].
    exact (proj2 (proj2 (missing_references_reported [complete_class]
                           (delete "element" sample_options) (host 2 (Instance ∅ []))))
             Hm).
  - split; [exact Hv|]. split; [exact Hu|]. split; [exact Hi|].
    exact (proj2 (proj1 (proj2 (missing_references_reported [complete_class]
                           (delete "viewport" sample_options) (host 2 (Instance ∅ []))))
             Hv) Hu Hi).
Defined.

Lemma float_neq (a b : float) : Prim2SF a <> Prim2SF b -> a <> b.
Proof. intros H E. apply H. rewrite E. reflexivity. Qed.

(** C5, as stated, fails where the product underflows: with the projection
    of the sample viewport and density 0.7, the rectangle whose abscissa is
    the smallest positive number, 2^-1074 (5e-324), goes to abscissa 2^-1074
    (0.7 * 2^-1074 rounds up to 2^-1074), and with density 2 * 0.7 it goes to
    2^-1074 again (1.4 * 2^-1074 rounds down), which is not the double. *)
Lemma doubling_is_exact_counterexample :
  viewportToDrawerRectangle (VRect (Rect.make 5e-324 0 0 0))
      (host 0.7 (drawer_on sample_viewport)) =
    (Return (VRect (Rect.make 5e-324 0 0 0)), host 0.7 (drawer_on sample_viewport)) /\
  viewportToDrawerRectangle (VRect (Rect.make 5e-324 0 0 0))
      (doubled_density (host 0.7 (drawer_on sample_viewport))) =
    (Return (VRect (Rect.make 5e-324 0 0 0)),
     doubled_density (host 0.7 (drawer_on sample_viewport))) /\
  double_rect (Rect.make 5e-324 0 0 0) = Rect.make 1e-323 0 0 0 /\
  ~ doubling_is_exact.
Proof.
  assert (H1 : viewportToDrawerRectangle (VRect (Rect.make 5e-324 0 0 0))
                 (host 0.7 (drawer_on sample_viewport)) =
               (Return (VRect (Rect.make 5e-324 0 0 0)),
                host 0.7 (drawer_on sample_viewport)))
    by (vm_compute; reflexivity).
  assert (H2 : viewportToDrawerRectangle (VRect (Rect.make 5e-324 0 0 0))
                 (doubled_density (host 0.7 (drawer_on sample_viewport))) =
               (Return (VRect (Rect.make 5e-324 0 0 0)),
                doubled_density (host 0.7 (drawer_on sample_viewport))))
    by (vm_compute; reflexivity).
  split; [exact H1|]. split; [exact H2|]. split; [vm_compute; reflexivity|].
  intros H. specialize (H _ _ _ H1). rewrite H2 in H.
  assert (E : Rect.x (Rect.make 5e-324 0 0 0) =
              Rect.x (double_rect (Rect.make 5e-324 0 0 0))) by congruence.
  revert E. apply float_neq. vm_compute. discriminate.
Qed.

(** Doubling the ratio can also overflow: with density 1e308 the abscissa
    0.25 goes to 2.5e307, and with the doubled density, which is infinite, to
    infinity (and the zero components to NaN). *)
Lemma doubling_overflow_example :
  double_is_finite 1e308 = false /\
  viewportToDrawerRectangle (VRect (Rect.make 0.25 0 0 0))
      (host 1e308 (drawer_on sample_viewport)) =
    (Return (VRect (Rect.make 2.5e307 0 0 0)), host 1e308 (drawer_on sample_viewport)) /\
  viewportToDrawerRectangle (VRect (Rect.make 0.25 0 0 0))
      (doubled_density (host 1e308 (drawer_on sample_viewport))) =
    (Return (VRect (Rect.make infinity nan nan nan)),
     doubled_density (host 1e308 (drawer_on sample_viewport))).
Proof.
  split; [vm_compute; reflexivity|]. split; vm_compute; reflexivity.
Qed.

(** C5 (amended): on a drawer that holds a viewport, when doubling the pixel
    density ratio does not overflow and none of the four products of a
    projected component by the ratio underflows, [viewportToDrawerRectangle]
    with the doubled ratio returns the rectangle whose four components are
    the doubles of those returned with the ratio itself. *)
Theorem doubling_exact_in_range (w : world) (vp : Viewport.t) (r : Rect.t) :
  get_field (this w) "viewport" = VViewport vp ->
  let d := pixelDensityRatio w in
  let topLeft := Viewport.pixelFromPointNoRotate vp (Rect.getTopLeft r) true in
  let size := Viewport.deltaPixelsFromPointsNoRotate vp (Rect.getSize r) true in
  double_is_finite d = true ->
  product_normal (Point.x topLeft) d = true ->
  product_normal (Point.y topLeft) d = true ->
  product_normal (Point.x size) d = true ->
  product_normal (Point.y size) d = true ->
  exists R : Rect.t,
    viewportToDrawerRectangle (VRect r) w = (Return (VRect R), w) /\
    viewportToDrawerRectangle (VRect r) (doubled_density w) =
      (Return (VRect (double_rect R)), doubled_density w).
Proof.
  intros H d topLeft size Hd H1 H2 H3 H4.
  eexists. split; [apply (viewportToDrawerRectangle_value w vp r H)|].
  rewrite (viewportToDrawerRectangle_value (doubled_density w) vp r H).
  unfold double_rect. cbn [Rect.x Rect.y Rect.width Rect.height].
  change (pixelDensityRatio (doubled_density w)) with (2 * d)%float.
  fold topLeft size d.
  rewrite (mul_double (Point.x topLeft) d Hd H1), (mul_double (Point.y topLeft) d Hd H2),
          (mul_double (Point.x size) d Hd H3), (mul_double (Point.y size) d Hd H4).
  reflexivity.
Qed.

(** Density 0.7 doubled, on a rectangle with fractional coordinates. *)
Lemma doubling_exact_in_range_witness :
  get_field (this (host 0.7 (drawer_on sample_viewport))) "viewport"
    = VViewport sample_viewport /\
  double_is_finite 0.7 = true /\
  product_normal 0.1 0.7 = true /\ product_normal 0.2 0.7 = true /\
  product_normal 0.3 0.7 = true /\ product_normal 1e-300 0.7 = true /\
  exists R : Rect.t,
    viewportToDrawerRectangle (VRect (Rect.make 0.1 0.2 0.3 1e-300))
        (host 0.7 (drawer_on sample_viewport))
      = (Return (VRect R), host 0.7 (drawer_on sample_viewport)) /\
    viewportToDrawerRectangle (VRect (Rect.make 0.1 0.2 0.3 1e-300))
        (doubled_density (host 0.7 (drawer_on sample_viewport)))
      = (Return (VRect (double_rect R)),
         doubled_density (host 0.7 (drawer_on sample_viewport))).
Proof.
  assert (H : get_field (this (host 0.7 (drawer_on sample_viewport))) "viewport"
              = VViewport sample_viewport) by (vm_compute; reflexivity).
  assert (Hd : double_is_finite 0.7 = true) by (vm_compute; reflexivity).
  assert (H1 : product_normal 0.1 0.7 = true) by (vm_compute; reflexivity).
  assert (H2 : product_normal 0.2 0.7 = true) by (vm_compute; reflexivity).
  assert (H3 : product_normal 0.3 0.7 = true) by (vm_compute; reflexivity).
  assert (H4 : product_normal 1e-300 0.7 = true) by (vm_compute; reflexivity).
  repeat (split; [assumption|]).
  exact (doubling_exact_in_range (host 0.7 (drawer_on sample_viewport)) sample_viewport
           (Rect.make 0.1 0.2 0.3 1e-300) H Hd H1 H2 H3 H4).
Defined.

(** The outcome of a transform depends on the state only through the
    viewport of the instance and the pixel density ratio. *)
Lemma viewportToDrawerRectangle_reads (x : value) (w1 w2 : world) :
  get_field (this w1) "viewport" = get_field (this w2) "viewport" ->
  pixelDensityRatio w1 = pixelDensityRatio w2 ->
  fst (viewportToDrawerRectangle x w1) = fst (viewportToDrawerRectangle x w2).
Proof.
  intros Hv Hd. unfold viewportToDrawerRectangle, mbind, M_bind, get_this, get_world.
  cbv beta. rewrite Hv.
  destruct (get_field (this w2) "viewport") eqn:E; try reflexivity.
  destruct x; simpl; rewrite ?Hv, ?E; simpl; rewrite ?Hd; reflexivity.
Qed.

Lemma viewportCoordToDrawerCoord_reads (x : value) (w1 w2 : world) :
  get_field (this w1) "viewport" = get_field (this w2) "viewport" ->
  pixelDensityRatio w1 = pixelDensityRatio w2 ->
  fst (viewportCoordToDrawerCoord x w1) = fst (viewportCoordToDrawerCoord x w2).
Proof.
  intros Hv Hd. unfold viewportCoordToDrawerCoord, mbind, M_bind, get_this, get_world.
  cbv beta. rewrite Hv.
  destruct (get_field (this w2) "viewport") eqn:E; try reflexivity.
  destruct x; simpl; rewrite ?Hv, ?E; simpl; rewrite ?Hd; reflexivity.
Qed.

(** C6: a call of [viewportToDrawerRectangle] or of
    [viewportCoordToDrawerCoord], on any argument and in any state, ends in
    the state it started in (the instance, its viewport, the pixel density
    ratio, the console and the document are as before); two calls in a row
    on the same argument give the same outcome twice; and calls on the same
    argument from two states that agree on the viewport of the instance and
    on the pixel density ratio give the same outcome. *)
Theorem transforms_are_pure (x : value) (w w2 : world) :
  get_field (this w) "viewport" = get_field (this w2) "viewport" ->
  pixelDensityRatio w = pixelDensityRatio w2 ->
  (snd (viewportToDrawerRectangle x w) = w /\
   snd (viewportCoordToDrawerCoord x w) = w) /\
  (twice viewportToDrawerRectangle x w =
     match fst (viewportToDrawerRectangle x w) with
     | Return a => (Return (a, a), w)
     | Raise e => (Raise e, w)
     end /\
   twice viewportCoordToDrawerCoord x w =
     match fst (viewportCoordToDrawerCoord x w) with
     | Return a => (Return (a, a), w)
     | Raise e => (Raise e, w)
     end) /\
  (fst (viewportToDrawerRectangle x w) = fst (viewportToDrawerRectangle x w2) /\
   fst (viewportCoordToDrawerCoord x w) = fst (viewportCoordToDrawerCoord x w2)).
Proof.
  intros Hv Hd.
  pose proof (viewportToDrawerRectangle_state x w) as Hr.
  pose proof (viewportCoordToDrawerCoord_state x w) as Hp.
  split; [split; assumption|]. split.
  - split; apply twice_same; assumption.
  - split.
    + apply viewportToDrawerRectangle_reads; assumption.
    + apply viewportCoordToDrawerCoord_reads; assumption.
Qed.

(** The sample drawer before and after an unrelated message on the
    console. *)
Lemma transforms_are_pure_witness :
  get_field (this sample_host) "viewport" =
    get_field (this (with_console [Error "unrelated"] sample_host)) "viewport" /\
  pixelDensityRatio sample_host =
    pixelDensityRatio (with_console [Error "unrelated"] sample_host) /\
  snd (viewportCoordToDrawerCoord (VPoint (Point.make 0.5 0.25)) sample_host)
    = sample_host /\
  fst (viewportCoordToDrawerCoord (VPoint (Point.make 0.5 0.25)) sample_host) =
    fst (viewportCoordToDrawerCoord (VPoint (Point.make 0.5 0.25))
           (with_console [Error "unrelated"] sample_host)) /\
  twice viewportCoordToDrawerCoord (VPoint (Point.make 0.5 0.25)) sample_host =
    (Return (VPoint (Point.make 1 0.5), VPoint (Point.make 1 0.5)), sample_host).
Proof.
  assert (Hv : get_field (this sample_host) "viewport" =
               get_field (this (with_console [Error "unrelated"] sample_host)) "viewport")
    by reflexivity.
  assert (Hd : pixelDensityRatio sample_host =
               pixelDensityRatio (with_console [Error "unrelated"] sample_host))
    by reflexivity.
  destruct (transforms_are_pure (VPoint (Point.make 0.5 0.25)) sample_host
              (with_console [Error "unrelated"] sample_host) Hv Hd)
    as ((_ & Hs) & (_ & Ht) & (_ & Hf)).
  split; [exact Hv|]. split; [exact Hd|]. split; [exact Hs|]. split; [exact Hf|].
  rewrite Ht. vm_compute. reflexivity.
Defined.

Lemma scaled_not_finite (c d : float) :
  PrimFloat.is_finite c = false \/ PrimFloat.is_finite d = false ->
  PrimFloat.is_finite (c * d) = false.
Proof.
  intros [H|H]; [apply mul_not_finite_l | apply mul_not_finite_r]; exact H.
Qed.

Lemma rounded_not_finite (c d : float) :
  PrimFloat.is_finite c = false \/ PrimFloat.is_finite d = false ->
  PrimFloat.is_finite (Math_round (c * d)) = false.
Proof.
  intros H. apply scaled_not_finite in H.
  rewrite Math_round_not_finite; exact H.
Qed.

(** C7: on a drawer that holds a viewport, [viewportToDrawerRectangle] of a
    rectangle, [viewportCoordToDrawerCoord] of a point and
    [_calculateCanvasSize] return and leave the state as it is, whatever the
    numbers are; a component of the result is not finite as soon as the
    projected coordinate (for the size of the canvas: the size of the
    container) or the pixel density ratio it is computed from is not
    finite. *)
Theorem transforms_do_not_raise (w : world) (vp : Viewport.t) :
  get_field (this w) "viewport" = VViewport vp ->
  (forall r : Rect.t,
      let topLeft := Viewport.pixelFromPointNoRotate vp (Rect.getTopLeft r) true in
      let size := Viewport.deltaPixelsFromPointsNoRotate vp (Rect.getSize r) true in
      let not_finite c :=
        PrimFloat.is_finite c = false \/ PrimFloat.is_finite (pixelDensityRatio w) = false in
      exists R : Rect.t,
        viewportToDrawerRectangle (VRect r) w = (Return (VRect R), w) /\
        (not_finite (Point.x topLeft) -> PrimFloat.is_finite (Rect.x R) = false) /\
        (not_finite (Point.y topLeft) -> PrimFloat.is_finite (Rect.y R) = false) /\
        (not_finite (Point.x size) -> PrimFloat.is_finite (Rect.width R) = false) /\
        (not_finite (Point.y size) -> PrimFloat.is_finite (Rect.height R) = false)) /\
  (forall p : Point.t,
      let vpPoint := Viewport.pixelFromPointNoRotate vp p true in
      let not_finite c :=
        PrimFloat.is_finite c = false \/ PrimFloat.is_finite (pixelDensityRatio w) = false in
      exists P : Point.t,
        viewportCoordToDrawerCoord (VPoint p) w = (Return (VPoint P), w) /\
        (not_finite (Point.x vpPoint) -> PrimFloat.is_finite (Point.x P) = false) /\
        (not_finite (Point.y vpPoint) -> PrimFloat.is_finite (Point.y P) = false)) /\
  (let viewportSize := Viewport.getContainerSize vp in
   let not_finite c :=
     PrimFloat.is_finite c = false \/ PrimFloat.is_finite (pixelDensityRatio w) = false in
   exists X Y : float,
     _calculateCanvasSize w =
       (Return (VObject true (<[ "x" := VNum X ]> (<[ "y" := VNum Y ]> ∅))), w) /\
     (not_finite (Point.x viewportSize) -> PrimFloat.is_finite X = false) /\
     (not_finite (Point.y viewportSize) -> PrimFloat.is_finite Y = false)).
Proof.
  intros H. split; [|split].
  - intros r topLeft size not_finite.
    eexists. split; [apply (viewportToDrawerRectangle_value w vp r H)|].
    cbn [Rect.x Rect.y Rect.width Rect.height].
    repeat split; apply scaled_not_finite.
  - intros p vpPoint not_finite.
    eexists. split; [apply (viewportCoordToDrawerCoord_value w vp p H)|].
    cbn [Point.x Point.y].
    repeat split; apply scaled_not_finite.
  - intros viewportSize not_finite.
    eexists. eexists. split; [apply (calculateCanvasSize_value w vp H)|].
    split; apply rounded_not_finite.
Qed.

(** On the sample drawer, a rectangle at an infinite abscissa goes to a
    rectangle at an infinite abscissa. *)
Lemma transforms_do_not_raise_witness :
  get_field (this sample_host) "viewport" = VViewport sample_viewport /\
  exists R : Rect.t,
    viewportToDrawerRectangle (VRect (Rect.make infinity 0.25 1.5 2.5)) sample_host
      = (Return (VRect R), sample_host) /\
    PrimFloat.is_finite (Rect.x R) = false.
Proof.
  assert (H : get_field (this sample_host) "viewport" = VViewport sample_viewport)
    by (vm_compute; reflexivity).
  split; [exact H|].
  destruct (proj1 (transforms_do_not_raise sample_host sample_viewport H)
              (Rect.make infinity 0.25 1.5 2.5)) as (R & Hrun & Hx & _).
  exists R. split; [exact Hrun|].
  apply Hx. left. vm_compute. reflexivity.
Defined.

(** The first statement of the constructor, when the first argument can be
    read and holds no viewer. *)
Lemma viewer_assertion_fails (v : value) (msg : string) (rest : M unit) (w : world) :
  nullish v = false -> truthy (property v "viewer") = false ->
  (viewer ← member v "viewer"; console_assert viewer msg;; rest) w =
  rest (with_console (console w ++ [Assertion msg]) w).
Proof.
  intros Hn Ht. unfold member, mbind, M_bind, console_assert. rewrite Hn.
  cbn [mret M_ret]. rewrite Ht. reflexivity.
Qed.

Lemma DrawerBase_positional (a0 a1 a2 : value) (w : world) :
  isPlainObject a0 = false -> nullish a0 = false ->
  truthy (property a0 "viewer") = false ->
  DrawerBase [a0; a1; a2] w =
  DrawerBase [VObject true (<[ "source" := a0 ]> (<[ "viewport" := a1 ]>
                           (<[ "element" := a2 ]> ∅)))] w.
Proof.
  intros Hp Hn Ht. unfold DrawerBase. cbv zeta.
  change (nth 0 [a0; a1; a2] VUndefined) with a0.
  change (nth 1 [a0; a1; a2] VUndefined) with a1.
  change (nth 2 [a0; a1; a2] VUndefined) with a2.
  rewrite Hp.
  rewrite (viewer_assertion_fails a0) by assumption.
  rewrite (viewer_assertion_fails (nth 0 _ _)) by reflexivity.
  reflexivity.
Qed.

(** C8, as stated, fails: with [null] as the first positional argument the
    constructor raises a TypeError at its first statement, which reads
    [options.viewer] before the arguments are normalized, while the
    configuration object with the same source, viewport and element yields an
    instance. *)
Lemma positional_as_configuration_counterexample :
  isPlainObject VNull = false /\
  construct [complete_class] [VNull; VViewport sample_viewport; VElement 0]
            (host 2 (Instance ∅ [])) =
    (Raise (TypeError "cannot read property viewer"),
     host 2 (Instance ∅ [complete_class])) /\
  (exists o w',
      construct [complete_class]
        [VObject true (<[ "source" := VNull ]>
                      (<[ "viewport" := VViewport sample_viewport ]>
                      (<[ "element" := VElement 0 ]> ∅)))]
        (host 2 (Instance ∅ [])) = (Return o, w')) /\
  ~ positional_as_configuration.
Proof.
  assert (H1 : construct [complete_class] [VNull; VViewport sample_viewport; VElement 0]
                 (host 2 (Instance ∅ [])) =
               (Raise (TypeError "cannot read property viewer"),
                host 2 (Instance ∅ [complete_class])))
    by (vm_compute; reflexivity).
  destruct (construct [complete_class]
              [VObject true (<[ "source" := VNull ]>
                            (<[ "viewport" := VViewport sample_viewport ]>
                            (<[ "element" := VElement 0 ]> ∅)))]
              (host 2 (Instance ∅ []))) as [[o|e] w'] eqn:H2;
    [|vm_compute in H2; discriminate H2].
  split; [reflexivity|]. split; [exact H1|]. split; [eauto|].
  intros H.
  specialize (H [complete_class] VNull (VViewport sample_viewport) (VElement 0)
                (host 2 (Instance ∅ [])) eq_refl).
  rewrite H1, H2 in H. discriminate H.
Qed.

(** C8 (amended): the constructor first reads [viewer] from its first
    argument as it was passed and reports it when it is missing; only then is
    a first argument that is not a plain object replaced by the configuration
    [{source, viewport, element}] of the first three arguments, and the
    viewport and the element are validated on that configuration.  When the
    first positional argument is neither [null] nor [undefined] and holds no
    viewer, the construction is the one from that configuration object: same
    outcome, same final state. *)
Theorem positional_normalized class (a0 a1 a2 : value) (w : world) :
  isPlainObject a0 = false ->
  let configuration :=
    VObject true (<[ "source" := a0 ]> (<[ "viewport" := a1 ]>
                 (<[ "element" := a2 ]> ∅))) in
  options_of [a0; a1; a2] = configuration /\
  options_of [configuration] = configuration /\
  (nullish a0 = false -> truthy (property a0 "viewer") = false ->
   construct class [a0; a1; a2] w = construct class [configuration] w).
Proof.
  intros Hp configuration. split; [|split].
  - unfold options_of. change (nth 0 [a0; a1; a2] VUndefined) with a0.
    rewrite Hp. reflexivity.
  - reflexivity.
  - intros Hn Ht. unfold construct.
    rewrite (DrawerBase_positional a0 a1 a2 _ Hp Hn Ht). reflexivity.
Qed.

(** The legacy call [new Drawer(source, viewport, element)] with a tile
    source that holds no viewer. *)
Lemma positional_normalized_witness :
  isPlainObject (VObject false ∅) = false /\
  nullish (VObject false ∅) = false /\
  truthy (property (VObject false ∅) "viewer") = false /\
  construct [complete_class] [VObject false ∅; VViewport sample_viewport; VElement 0]
            (host 2 (Instance ∅ [])) =
  construct [complete_class]
            [VObject true (<[ "source" := VObject false ∅ ]>
                          (<[ "viewport" := VViewport sample_viewport ]>
                          (<[ "element" := VElement 0 ]> ∅)))]
            (host 2 (Instance ∅ [])).
Proof.
  split; [reflexivity|]. split; [reflexivity|]. split; [reflexivity|].
  exact (proj2 (proj2 (positional_normalized [complete_class] (VObject false ∅)
                         (VViewport sample_viewport) (VElement 0)
                         (host 2 (Instance ∅ [])) eq_refl))
           eq_refl eq_refl).
Defined.

Lemma marker_inherited (o : instance) :
  layers_lookup (layers o) "isOpenSeadragonDrawer" = None ->
  inherited o "isOpenSeadragonDrawer" = Some (Accessor (fun _ => VBool true)).
Proof.
  intros Hl. unfold inherited. rewrite Hl. reflexivity.
Qed.

(** C9: on an object that inherits from [$.DrawerBase.prototype] and neither
    holds nor inherits from its class a property of its own named
    [isOpenSeadragonDrawer], the marker reads [true], an assignment to it is
    rejected and leaves the object as it is, and it still reads [true]
    afterwards.  The instances built by the constructor are such objects
    whenever the class does not define the name. *)
Theorem marker_is_true_and_read_only :
  (forall (o : instance) (v : value),
      own o !! "isOpenSeadragonDrawer" = None ->
      layers_lookup (layers o) "isOpenSeadragonDrawer" = None ->
      get_field o "isOpenSeadragonDrawer" = VBool true /\
      put_field o "isOpenSeadragonDrawer" v = None /\
      assign o "isOpenSeadragonDrawer" v = o) /\
  (forall class arguments w o w' (v : value),
      layers_lookup class "isOpenSeadragonDrawer" = None ->
      construct class arguments w = (Return o, w') ->
      get_field o "isOpenSeadragonDrawer" = VBool true /\
      put_field o "isOpenSeadragonDrawer" v = None /\
      get_field (assign o "isOpenSeadragonDrawer" v) "isOpenSeadragonDrawer" = VBool true).
Proof.
  assert (Hobj : forall (o : instance) (v : value),
      own o !! "isOpenSeadragonDrawer" = None ->
      layers_lookup (layers o) "isOpenSeadragonDrawer" = None ->
      get_field o "isOpenSeadragonDrawer" = VBool true /\
      put_field o "isOpenSeadragonDrawer" v = None /\
      assign o "isOpenSeadragonDrawer" v = o).
  { intros o v Ho Hl. apply marker_inherited in Hl.
    unfold assign, get_field, put_field. rewrite Ho, Hl. auto. }
  split; [exact Hobj|].
  intros class arguments w o w' v Hc Hrun.
  pose proof (construct_outcome class arguments w) as H.
  rewrite Hrun in H. destruct H as (-> & _ & _).
  destruct (Hobj (constructed class arguments w) v) as (Hg & Hp & Ha).
  - apply marker_not_own.
  - rewrite constructed_layers. exact Hc.
  - rewrite Ha. auto.
Qed.

(** The sample drawer is built, its marker reads [true], and assigning
    [false] to the marker changes nothing. *)
Lemma marker_is_true_and_read_only_witness :
  layers_lookup [complete_class] "isOpenSeadragonDrawer" = None /\
  exists o w',
    construct [complete_class] [VObject true sample_options] (host 2 (Instance ∅ []))
      = (Return o, w') /\
    get_field o "isOpenSeadragonDrawer" = VBool true /\
    put_field o "isOpenSeadragonDrawer" (VBool false) = None /\
    get_field (assign o "isOpenSeadragonDrawer" (VBool false)) "isOpenSeadragonDrawer"
      = VBool true.
Proof.
  assert (Hc : layers_lookup [complete_class] "isOpenSeadragonDrawer" = None)
    by (vm_compute; reflexivity).
  split; [exact Hc|].
  destruct (construct [complete_class] [VObject true sample_options]
              (host 2 (Instance ∅ []))) as [[o|e] w'] eqn:Hrun;
    [|vm_compute in Hrun; discriminate Hrun].
  exists o, w'. split; [reflexivity|].
  exact (proj2 marker_is_true_and_read_only [complete_class]
           [VObject true sample_options] (host 2 (Instance ∅ [])) o w' (VBool false)
           Hc Hrun).
Defined.

Lemma constructed_debugGridColor class arguments w :
  get_field (constructed class arguments w) "debugGridColor" =
  debugGridColor_of (property (options_of arguments) "debugGridColor")
                    (DEFAULT_SETTINGS_debugGridColor w).
Proof.
  unfold constructed.
  rewrite !(get_field_assign_ne _ "debugGridColor") by discriminate.
  apply get_field_assign_eq. discriminate.
Qed.

(** C10: the instance that the constructor returns holds in [debugGridColor]
    the normalization of the option of that name: a string gives the array of
    that one string (the empty string too, the test on the type comes first),
    a value that is not a string and is falsy (absent, [undefined], [null],
    [false]) gives [$.DEFAULT_SETTINGS.debugGridColor], and any other value is
    stored as it is. *)
Theorem debugGridColor_normalized :
  (forall class arguments w o w',
      construct class arguments w = (Return o, w') ->
      get_field o "debugGridColor" =
      debugGridColor_of (property (options_of arguments) "debugGridColor")
                        (DEFAULT_SETTINGS_debugGridColor w)) /\
  (forall (s : string) (d : value), debugGridColor_of (VStr s) d = VArr [VStr s]) /\
  (forall g d : value,
      typeof_string g = false -> truthy g = false -> debugGridColor_of g d = d) /\
  (forall g d : value,
      typeof_string g = false -> truthy g = true -> debugGridColor_of g d = g) /\
  (forall (options : gmap string value) (d : value),
      options !! "debugGridColor" = None ->
      debugGridColor_of (property (VObject true options) "debugGridColor") d = d).
Proof.
  split; [|split; [|split; [|split]]].
  - intros class arguments w o w' Hrun.
    pose proof (construct_outcome class arguments w) as H.
    rewrite Hrun in H. destruct H as (-> & _ & _).
    apply constructed_debugGridColor.
  - reflexivity.
  - intros g d Hs Ht. unfold debugGridColor_of. rewrite Hs, Ht. reflexivity.
  - intros g d Hs Ht. unfold debugGridColor_of. rewrite Hs, Ht. reflexivity.
  - intros options d Ho. cbn [property]. rewrite Ho. reflexivity.
Qed.

(** The sample drawer built with [debugGridColor: "red"] holds [["red"]]. *)
Lemma debugGridColor_normalized_witness :
  exists o w',
    construct [complete_class]
      [VObject true (<[ "debugGridColor" := VStr "red" ]> sample_options)]
      (host 2 (Instance ∅ [])) = (Return o, w') /\
    get_field o "debugGridColor" = VArr [VStr "red"].
Proof.
  destruct (construct [complete_class]
              [VObject true (<[ "debugGridColor" := VStr "red" ]> sample_options)]
              (host 2 (Instance ∅ []))) as [[o|e] w'] eqn:Hrun;
    [|vm_compute in Hrun; discriminate Hrun].
  exists o, w'. split; [reflexivity|].
  rewrite (proj1 debugGridColor_normalized _ _ _ _ _ Hrun).
  vm_compute. reflexivity.
Defined.
(** * The constructor and the document *)

Section EffectLeaves.
Variables (class : list (gmap string value)) (arguments : list value).
Variables (t : instance) (p : float) (sc : bool) (d : value) (g : string -> value).
Variables (c : list console_entry) (dm : list dom_event) (n : nat) (h : fn -> value).

Let w0 : world := World t p sc d g c dm n h.

Lemma initial_size_some (v : value) :
  truthy (if sc then
            if truthy (property (options_of arguments) "viewer")
            then property (property (options_of arguments) "viewer") "useCanvas"
            else VBool true
          else VBool false) = true ->
  viewportSize_of class arguments w0 = Some v ->
  initial_size class arguments w0 =
  [ SetProperty (VElement n) "width" (property v "x");
    SetProperty (VElement n) "height" (property v "y") ].
Proof.
  intros Hu Hv. unfold initial_size, w0. rewrite useCanvas_unfold, Hu.
  fold w0. rewrite Hv. reflexivity.
Qed.

Lemma initial_size_div :
  truthy (if sc then
            if truthy (property (options_of arguments) "viewer")
            then property (property (options_of arguments) "viewer") "useCanvas"
            else VBool true
          else VBool false) = false ->
  initial_size class arguments w0 = [].
Proof.
  intros Hu. unfold initial_size, w0. rewrite useCanvas_unfold, Hu. reflexivity.
Qed.

Lemma effects_unfold :
  effects class arguments w0 =
  ([ CreateElement n (if truthy (useCanvas_of arguments w0) then "canvas" else "div");
     SetProperty (container_of arguments w0) "dir" (VStr "ltr") ] ++
   initial_size class arguments w0 ++
   [ SetProperty (VStyle n) "width" (VStr "100%");
     SetProperty (VStyle n) "height" (VStr "100%");
     SetProperty (VStyle n) "position" (VStr "absolute");
     Helper "setElementOpacity"
       [VElement n; get_field (Instance ∅ class) "opacity"; VBool true];
     Helper "setElementPointerEventsNone" [VElement n];
     Helper "setElementTouchActionNone" [VElement n];
     SetProperty (property (container_of arguments w0) "style") "textAlign" (VStr "left");
     Call (container_of arguments w0) "appendChild" [VElement n] ])%list.
Proof. reflexivity. Qed.
End EffectLeaves.

Lemma DrawerBase_effects class arguments w :
  wp (DrawerBase arguments)
     (fun _ w' =>
        dom w' = (dom w ++ effects class arguments w)%list /\
        next_element w' = S (next_element w))
     (fun e w' =>
        match e with
        | TypeError _ => True
        | Thrown _ =>
            dom w' = (dom w ++ effects class arguments w)%list /\
            next_element w' = S (next_element w)
        end)
     (with_this (Instance ∅ class) w).
Proof.
  destruct w as [t p sc d g c dm n h]. wsimpl.
  unfold DrawerBase. cbv zeta.
  change (if negb (isPlainObject (nth 0 arguments VUndefined)) then _ else _)
    with (options_of arguments).
  repeat wp_prim.
  all: try lazymatch goal with |- True => exact I end.
  all: repeat match goal with
       | H : context [get_field (assign _ _ _) _] |- _ =>
           first [ rewrite get_field_assign_eq in H by discriminate
                 | rewrite get_field_assign_ne in H by discriminate ]
       end.
  all: (split; [|reflexivity]).
  all: rewrite effects_unfold.
  all: first [ erewrite initial_size_some;
               [| eassumption
                | first [ eapply size_base; eassumption | eapply size_host; eassumption ] ]
             | rewrite initial_size_div by assumption ].
  all: rewrite container_unfold, useCanvas_unfold.
  all: change (property (VElement n) "style") with (VStyle n).
  all: rewrite <- !app_assoc; reflexivity.
Qed.

Lemma construct_effects class arguments w :
  match construct class arguments w with
  | (Return _, w') | (Raise (Thrown _), w') =>
      dom w' = (dom w ++ effects class arguments w)%list /\
      next_element w' = S (next_element w)
  | (Raise (TypeError _), _) => True
  end.
Proof.
  pose proof (DrawerBase_effects class arguments w) as H. unfold wp in H. unfold construct.
  destruct (DrawerBase arguments (with_this (Instance ∅ class) w)) as [[[]|[s|v]] w'];
    exact H.
Qed.

Lemma constructed_viewport class arguments w :
  get_field (constructed class arguments w) "viewport" =
  property (options_of arguments) "viewport".
Proof.
  unfold constructed.
  rewrite !(get_field_assign_ne _ "viewport") by discriminate.
  apply get_field_assign_eq. discriminate.
Qed.

Lemma constructed_useCanvas class arguments w :
  get_field (constructed class arguments w) "useCanvas" = useCanvas_of arguments w.
Proof.
  unfold constructed.
  rewrite !(get_field_assign_ne _ "useCanvas") by discriminate.
  apply get_field_assign_eq. discriminate.
Qed.

Lemma constructed_container class arguments w :
  get_field (constructed class arguments w) "container" = container_of arguments w.
Proof.
  unfold constructed.
  rewrite !(get_field_assign_ne _ "container") by discriminate.
  apply get_field_assign_eq. discriminate.
Qed.

Lemma constructed_canvas class arguments w :
  get_field (constructed class arguments w) "canvas" = VElement (next_element w).
Proof.
  unfold constructed.
  rewrite !(get_field_assign_ne _ "canvas") by discriminate.
  apply get_field_assign_eq. discriminate.
Qed.

Lemma constructed_element class arguments w :
  get_field (constructed class arguments w) "element" = container_of arguments w.
Proof.
  unfold constructed.
  rewrite !(get_field_assign_ne _ "element") by discriminate.
  apply get_field_assign_eq. discriminate.
Qed.

Lemma constructed_imageSmoothingEnabled class arguments w :
  get_field (constructed class arguments w) "_imageSmoothingEnabled" = VBool true.
Proof.
  unfold constructed. apply get_field_assign_eq. discriminate.
Qed.

Lemma last_effect class arguments w (l : list dom_event) :
  last (l ++ effects class arguments w) =
  Some (Call (container_of arguments w) "appendChild" [VElement (next_element w)]).
Proof.
  unfold effects. cbv zeta. do 3 (apply last_app_Some; left). reflexivity.
Qed.

(** * More of the constructor *)

Lemma constructed_all_overridden class arguments w :
  Forall (fun k => is_placeholder (constructed class arguments w) k = false)
         required_operations <->
  Forall (fun k => is_placeholder (Instance ∅ class) k = false) required_operations.
Proof.
  rewrite !List.Forall_forall. split; intros H k Hk.
  - rewrite <- (constructed_placeholder class arguments w k Hk). apply H, Hk.
  - rewrite (constructed_placeholder class arguments w k Hk). apply H, Hk.
Qed.

Lemma first_missing_not_all (o : instance) (k : string) :
  first_missing o k ->
  ~ Forall (fun k' => is_placeholder o k' = false) required_operations.
Proof.
  intros Hk Hf. apply first_missing_In in Hk. destruct Hk as [Hin Hp].
  rewrite List.Forall_forall in Hf. specialize (Hf k Hin). congruence.
Qed.

(** A construction returns exactly when nothing fails on the way and the
    check, if it is the one of the prototype, finds every operation
    overridden. *)
Lemma proceeds_iff class arguments w :
  (exists o w', construct class arguments w = (Return o, w')) <->
  construction_proceeds class arguments w.
Proof.
  pose proof (construct_outcome class arguments w) as H. split.
  - intros (o & w' & Hrun). rewrite Hrun in H.
    destruct H as (-> & (Hn & Hc & Hs & Hm & Hv & _ & _ & _ & Hg) & Hf).
    repeat split; try assumption.
    intros Hi. apply (constructed_all_overridden class arguments w). exact (Hf Hi).
  - intros (Hn & Hc & Hs & Hm & Hv & Hg & Hf).
    destruct (construct class arguments w) as [[o|[s|v]] w']; [eauto|exfalso..].
    + destruct H as [[Hn' _]|(_ & _ & [H|[H|[H|[[Hu H]|H]]]])]; try congruence.
      * destruct (Hv Hu) as [v Hsome]. congruence.
      * destruct Hg as [g Hg]. exact (H g Hg).
    + destruct H as (_ & Hi & k & Hk & _).
      apply (first_missing_not_all _ _ Hk). apply constructed_all_overridden. exact (Hf Hi).
Qed.

Lemma requirements_proceeds class arguments w :
  inherits_helper class "_calculateCanvasSize" ->
  inherits_helper class "_checkForAPIOverrides" ->
  construction_requirements class arguments w <-> construction_proceeds class arguments w.
Proof.
  intros Hsize Hcheck. unfold construction_requirements, construction_proceeds.
  split.
  - intros (Hn & Hc & Hs & Hm & Hv & Hf). repeat split; try assumption.
    + intros Hu. destruct (Hv Hu) as [vp Hvp].
      rewrite (viewportSize_inherited _ _ _ Hsize), Hvp. eauto.
    + eexists. exact Hcheck.
    + intros _. exact Hf.
  - intros (Hn & Hc & Hs & Hm & Hv & _ & Hf). repeat split; try assumption.
    + intros Hu. destruct (Hv Hu) as [v Hsome].
      exact (viewportSize_viewport _ _ _ _ Hsize Hsome).
    + exact (Hf Hcheck).
Qed.

(** X1: for a class that leaves the two helpers [_calculateCanvasSize] and
    [_checkForAPIOverrides] to the prototype, and a [viewport] option that is
    a viewport or cannot be called upon, a construction returns an instance
    exactly when its first argument is neither [null] nor [undefined], the
    container it resolves is an object with a style and an [appendChild]
    method, the viewport is there if a canvas is to be sized, and the class
    overrides the five required operations.  Nothing else is needed: not the
    viewer, nor, without a canvas, the viewport. *)
Theorem construction_succeeds_iff class arguments w :
  inherits_helper class "_calculateCanvasSize" ->
  inherits_helper class "_checkForAPIOverrides" ->
  viewport_or_none (property (options_of arguments) "viewport") "getContainerSize" ->
  ((exists o w', construct class arguments w = (Return o, w')) <->
   construction_requirements class arguments w).
Proof.
  intros Hsize Hcheck _.
  rewrite (requirements_proceeds class arguments w Hsize Hcheck).
  exact (proceeds_iff class arguments w).
Qed.

(** The sample configuration and class meet the requirements; so does the
    configuration without its viewer. *)
Lemma construction_succeeds_iff_witness :
  inherits_helper [complete_class] "_calculateCanvasSize" /\
  inherits_helper [complete_class] "_checkForAPIOverrides" /\
  viewport_or_none (property (options_of [VObject true sample_options]) "viewport")
    "getContainerSize" /\
  construction_requirements [complete_class] [VObject true sample_options]
    (host 2 (Instance ∅ [])) /\
  exists o w',
    construct [complete_class] [VObject true (delete "viewer" sample_options)]
      (host 2 (Instance ∅ [])) = (Return o, w').
Proof.
  assert (H1 : inherits_helper [complete_class] "_calculateCanvasSize")
    by (vm_compute; reflexivity).
  assert (H2 : inherits_helper [complete_class] "_checkForAPIOverrides")
    by (vm_compute; reflexivity).
  assert (H3 : viewport_or_none (property (options_of [VObject true sample_options])
                                   "viewport") "getContainerSize")
    by (left; exists sample_viewport; vm_compute; reflexivity).
  assert (H4 : viewport_or_none
                 (property (options_of [VObject true (delete "viewer" sample_options)])
                    "viewport") "getContainerSize")
    by (left; exists sample_viewport; vm_compute; reflexivity).
  split; [exact H1|]. split; [exact H2|]. split; [exact H3|]. split.
  - apply (proj1 (construction_succeeds_iff _ _ _ H1 H2 H3)).
    destruct (construct [complete_class] [VObject true sample_options]
                (host 2 (Instance ∅ []))) as [[o|e] w'] eqn:Hrun;
      [eauto | vm_compute in Hrun; discriminate Hrun].
  - apply (proj2 (construction_succeeds_iff _ _ _ H1 H2 H4)).
    repeat split; try (vm_compute; reflexivity).
    + intros _. exists sample_viewport. vm_compute. reflexivity.
    + repeat constructor; vm_compute; reflexivity.
Defined.

(** A first argument that is [undefined] (no argument at all) or [null]
    stops the constructor at its first statement. *)
Lemma DrawerBase_no_options arguments w :
  nullish (nth 0 arguments VUndefined) = true ->
  DrawerBase arguments w = (Raise (TypeError "cannot read property viewer"), w).
Proof.
  intros Hn. unfold DrawerBase. cbv zeta.
  unfold mbind at 1. unfold M_bind at 1. unfold member at 1. rewrite Hn. reflexivity.
Qed.

(** X2: when the first argument is [undefined] (as in a call without
    arguments) or [null], the construction raises a TypeError at the first
    statement, before anything is written on the console or done to the
    document: the state is the one before the call, but for the new object
    bound to [this]. *)
Theorem construction_without_options class arguments w :
  nullish (nth 0 arguments VUndefined) = true ->
  construct class arguments w =
    (Raise (TypeError "cannot read property viewer"), with_this (Instance ∅ class) w).
Proof.
  intros Hn. unfold construct. rewrite (DrawerBase_no_options _ _ Hn). reflexivity.
Qed.

Lemma construction_without_options_witness :
  nullish (nth 0 [] VUndefined) = true /\
  construct [complete_class] [] (host 2 (Instance ∅ [])) =
    (Raise (TypeError "cannot read property viewer"),
     with_this (Instance ∅ [complete_class]) (host 2 (Instance ∅ []))).
Proof.
  split; [reflexivity|].
  exact (construction_without_options [complete_class] [] (host 2 (Instance ∅ [])) eq_refl).
Defined.

(** X3: the instance that a construction returns holds the viewer and the
    viewport of the configuration as they were given, the resolved container
    under both [container] and its deprecated alias [element], the element
    created by this construction under [canvas], and [true] under
    [_imageSmoothingEnabled], whatever the configuration says. *)
Theorem constructed_references class arguments w o w' :
  construct class arguments w = (Return o, w') ->
  this w' = o /\
  get_field o "viewer" = property (options_of arguments) "viewer" /\
  get_field o "viewport" = property (options_of arguments) "viewport" /\
  get_field o "container" = container_of arguments w /\
  get_field o "element" = get_field o "container" /\
  get_field o "canvas" = VElement (next_element w) /\
  next_element w' = S (next_element w) /\
  get_field o "_imageSmoothingEnabled" = VBool true.
Proof.
  intros Hrun.
  pose proof (construct_effects class arguments w) as He. rewrite Hrun in He.
  destruct (construct_returns _ _ _ _ _ Hrun) as (-> & Hr & _).
  destruct Hr as (_ & _ & _ & _ & _ & Ht & _).
  rewrite constructed_viewer, constructed_viewport, constructed_container,
    constructed_element, constructed_canvas, constructed_imageSmoothingEnabled.
  repeat split; [exact Ht | apply He].
Qed.

Lemma constructed_references_witness :
  exists o w',
    construct [complete_class] [VObject true sample_options] (host 2 (Instance ∅ []))
      = (Return o, w') /\
    get_field o "viewer" = sample_viewer /\
    get_field o "container" = VElement 0 /\
    get_field o "element" = VElement 0 /\
    get_field o "canvas" = VElement 1.
Proof.
  destruct (construct [complete_class] [VObject true sample_options]
              (host 2 (Instance ∅ []))) as [[o|e] w'] eqn:Hrun;
    [|vm_compute in Hrun; discriminate Hrun].
  exists o, w'. split; [reflexivity|].
  destruct (constructed_references _ _ _ _ _ Hrun)
    as (_ & Hv & _ & Hc & He & Hk & _).
  rewrite He, Hv, Hc, Hk. repeat split; vm_compute; reflexivity.
Defined.

(** X4: [useCanvas] on a returned instance: [false] when the browser has no
    canvas support, whatever the viewer asks for; with canvas support, the
    viewer's [useCanvas] when there is a viewer and [true] when there is
    none.  The element created is a canvas exactly when that value is truthy,
    a div otherwise. *)
Theorem useCanvas_rule class arguments w o w' :
  construct class arguments w = (Return o, w') ->
  let viewer := property (options_of arguments) "viewer" in
  (supportsCanvas w = false -> get_field o "useCanvas" = VBool false) /\
  (supportsCanvas w = true -> truthy viewer = false ->
   get_field o "useCanvas" = VBool true) /\
  (supportsCanvas w = true -> truthy viewer = true ->
   get_field o "useCanvas" = property viewer "useCanvas") /\
  In (CreateElement (next_element w)
        (if truthy (get_field o "useCanvas") then "canvas" else "div")) (dom w').
Proof.
  intros Hrun viewer.
  pose proof (construct_effects class arguments w) as He. rewrite Hrun in He.
  destruct He as [He _].
  destruct (construct_returns _ _ _ _ _ Hrun) as (-> & _ & _).
  rewrite constructed_useCanvas. unfold useCanvas_of. fold viewer.
  split; [intros ->; reflexivity|].
  split; [intros -> ->; reflexivity|].
  split; [intros -> ->; reflexivity|].
  rewrite He. apply in_or_app. right. unfold effects. cbv zeta. apply in_eq.
Qed.

(** Without canvas support the sample viewer's [useCanvas: true] is
    overruled and a div is created. *)
Lemma useCanvas_rule_witness :
  exists o w',
    construct [complete_class] [VObject true sample_options]
      (World (Instance ∅ []) 2 false VNull (fun _ => VNull) [] [] 1 (fun _ => VUndefined)) = (Return o, w') /\
    get_field o "useCanvas" = VBool false /\
    In (CreateElement 1 "div") (dom w').
Proof.
  destruct (construct [complete_class] [VObject true sample_options]
              (World (Instance ∅ []) 2 false VNull (fun _ => VNull) [] [] 1 (fun _ => VUndefined)))
    as [[o|e] w'] eqn:Hrun; [|vm_compute in Hrun; discriminate Hrun].
  exists o, w'. split; [reflexivity|].
  destruct (useCanvas_rule _ _ _ _ _ Hrun) as (H1 & _ & _ & H4).
  specialize (H1 eq_refl). rewrite H1 in H4. split; [exact H1 | exact H4].
Defined.

(** X5: for a class that leaves the two helpers to the prototype, and a
    [viewport] option that is a viewport or cannot be called upon, a
    construction that returns has done to the document exactly this, in this
    order, and nothing else: it has created one element, has set [dir] of the
    container to ["ltr"], has sized the canvas if there is one, has styled
    the new element, and at last has appended the new element to the
    container. *)
Theorem construction_document class arguments w o w' :
  inherits_helper class "_calculateCanvasSize" ->
  inherits_helper class "_checkForAPIOverrides" ->
  viewport_or_none (property (options_of arguments) "viewport") "getContainerSize" ->
  construct class arguments w = (Return o, w') ->
  dom w' = (dom w ++ effects class arguments w)%list /\
  (exists rest,
      effects class arguments w =
      CreateElement (next_element w)
        (if truthy (get_field o "useCanvas") then "canvas" else "div") ::
      SetProperty (get_field o "container") "dir" (VStr "ltr") :: rest) /\
  last (dom w') =
    Some (Call (get_field o "container") "appendChild" [get_field o "canvas"]) /\
  next_element w' = S (next_element w).
Proof.
  intros _ _ _ Hrun.
  pose proof (construct_effects class arguments w) as He. rewrite Hrun in He.
  destruct He as [He Hn].
  destruct (construct_returns _ _ _ _ _ Hrun) as (-> & _ & _).
  rewrite constructed_useCanvas, constructed_container, constructed_canvas.
  split; [exact He|]. split; [|split; [|exact Hn]].
  - eexists. unfold effects. cbv zeta. reflexivity.
  - rewrite He. apply last_effect.
Qed.

Lemma construction_document_witness :
  inherits_helper [complete_class] "_calculateCanvasSize" /\
  inherits_helper [complete_class] "_checkForAPIOverrides" /\
  viewport_or_none (property (options_of [VObject true sample_options]) "viewport")
    "getContainerSize" /\
  exists o w',
    construct [complete_class] [VObject true sample_options] (host 2 (Instance ∅ []))
      = (Return o, w') /\
    dom w' =
    [ CreateElement 1 "canvas";
      SetProperty (VElement 0) "dir" (VStr "ltr");
      SetProperty (VElement 1) "width" (VNum 1601);
      SetProperty (VElement 1) "height" (VNum 1201);
      SetProperty (VStyle 1) "width" (VStr "100%");
      SetProperty (VStyle 1) "height" (VStr "100%");
      SetProperty (VStyle 1) "position" (VStr "absolute");
      Helper "setElementOpacity" [VElement 1; VUndefined; VBool true];
      Helper "setElementPointerEventsNone" [VElement 1];
      Helper "setElementTouchActionNone" [VElement 1];
      SetProperty (VStyle 0) "textAlign" (VStr "left");
      Call (VElement 0) "appendChild" [VElement 1] ].
Proof.
  assert (H1 : inherits_helper [complete_class] "_calculateCanvasSize")
    by (vm_compute; reflexivity).
  assert (H2 : inherits_helper [complete_class] "_checkForAPIOverrides")
    by (vm_compute; reflexivity).
  assert (H3 : viewport_or_none
                 (property (options_of [VObject true sample_options]) "viewport")
                 "getContainerSize") by (left; eexists; vm_compute; reflexivity).
  split; [exact H1|]. split; [exact H2|]. split; [exact H3|].
  destruct (construct [complete_class] [VObject true sample_options]
              (host 2 (Instance ∅ []))) as [[o|e] w'] eqn:Hrun;
    [|vm_compute in Hrun; discriminate Hrun].
  exists o, w'. split; [reflexivity|].
  rewrite (proj1 (construction_document _ _ _ _ _ H1 H2 H3 Hrun)).
  vm_compute. reflexivity.
Defined.

(** X6: the check of the overrides is the last statement of the
    constructor.  For a class that leaves the two helpers to the prototype,
    and a [viewport] option that is a viewport or cannot be called upon,
    when the check throws, the instance is not returned, but it has been
    initialized in full and the document has been changed as by a successful
    construction: the new element has been created and appended to the
    container, whose [dir] has been set. *)
Theorem failed_check_leaves_document_changed class arguments w v w' :
  inherits_helper class "_calculateCanvasSize" ->
  inherits_helper class "_checkForAPIOverrides" ->
  viewport_or_none (property (options_of arguments) "viewport") "getContainerSize" ->
  construct class arguments w = (Raise (Thrown v), w') ->
  this w' = constructed class arguments w /\
  dom w' = (dom w ++ effects class arguments w)%list /\
  last (dom w') =
    Some (Call (container_of arguments w) "appendChild" [VElement (next_element w)]) /\
  In (SetProperty (container_of arguments w) "dir" (VStr "ltr")) (dom w').
Proof.
  intros _ _ _ Hrun.
  pose proof (construct_effects class arguments w) as He. rewrite Hrun in He.
  destruct He as [He _].
  pose proof (construct_outcome class arguments w) as Ho. rewrite Hrun in Ho.
  destruct Ho as [(_ & _ & _ & _ & _ & Ht & _) _].
  split; [exact Ht|]. split; [exact He|]. rewrite He. split.
  - apply last_effect.
  - apply in_or_app. right. unfold effects. cbv zeta. right. apply in_eq.
Qed.

Lemma failed_check_leaves_document_changed_witness :
  inherits_helper [delete "draw" complete_class] "_calculateCanvasSize" /\
  inherits_helper [delete "draw" complete_class] "_checkForAPIOverrides" /\
  viewport_or_none (property (options_of [VObject true sample_options]) "viewport")
    "getContainerSize" /\
  exists v w',
    construct [delete "draw" complete_class] [VObject true sample_options]
      (host 2 (Instance ∅ [])) = (Raise (Thrown v), w') /\
    last (dom w') = Some (Call (VElement 0) "appendChild" [VElement 1]).
Proof.
  assert (H1 : inherits_helper [delete "draw" complete_class] "_calculateCanvasSize")
    by (vm_compute; reflexivity).
  assert (H2 : inherits_helper [delete "draw" complete_class] "_checkForAPIOverrides")
    by (vm_compute; reflexivity).
  assert (H3 : viewport_or_none
                 (property (options_of [VObject true sample_options]) "viewport")
                 "getContainerSize") by (left; eexists; vm_compute; reflexivity).
  split; [exact H1|]. split; [exact H2|]. split; [exact H3|].
  destruct (construct [delete "draw" complete_class] [VObject true sample_options]
              (host 2 (Instance ∅ []))) as [[o|[s|v]] w'] eqn:Hrun;
    [vm_compute in Hrun; discriminate Hrun | vm_compute in Hrun; discriminate Hrun |].
  exists v, w'. split; [reflexivity|].
  destruct (failed_check_leaves_document_changed _ _ _ _ _ H1 H2 H3 Hrun) as (_ & _ & Hl & _).
  rewrite Hl. vm_compute. reflexivity.
Defined.

Lemma not_sized class arguments w (k : string) (v : value) :
  k = "width" \/ k = "height" ->
  initial_size class arguments w = [] ->
  ~ In (SetProperty (VElement (next_element w)) k v) (effects class arguments w).
Proof.
  intros Hk Hi. unfold effects. cbv zeta. rewrite Hi. simpl.
  intros [H|[H|[H|[H|[H|[H|[H|[H|[H|[H|[]]]]]]]]]]];
    try discriminate H; destruct Hk as [-> | ->]; discriminate H.
Qed.

(** X7: for a class that leaves the two helpers to the prototype, and a
    [viewport] option that is a viewport or cannot be called upon, the size
    given to the canvas at construction is the one that
    [_calculateCanvasSize] computes on the returned drawer: when the drawer
    uses a canvas, the constructor has set the [width] and the [height] of
    the canvas to the [x] and the [y] that [_calculateCanvasSize] returns in
    the state after the construction; when it does not, the construction has
    set neither the [width] nor the [height] of the new element. *)
Theorem initial_canvas_size class arguments w o w' :
  inherits_helper class "_calculateCanvasSize" ->
  inherits_helper class "_checkForAPIOverrides" ->
  viewport_or_none (property (options_of arguments) "viewport") "getContainerSize" ->
  construct class arguments w = (Return o, w') ->
  (truthy (get_field o "useCanvas") = true ->
   exists X Y : float,
     _calculateCanvasSize w' =
       (Return (VObject true (<[ "x" := VNum X ]> (<[ "y" := VNum Y ]> ∅))), w') /\
     In (SetProperty (get_field o "canvas") "width" (VNum X)) (dom w') /\
     In (SetProperty (get_field o "canvas") "height" (VNum Y)) (dom w')) /\
  (truthy (get_field o "useCanvas") = false ->
   forall (k : string) (v : value),
     k = "width" \/ k = "height" ->
     In (SetProperty (get_field o "canvas") k v) (dom w') ->
     In (SetProperty (get_field o "canvas") k v) (dom w)).
Proof.
  intros Hsize _ _ Hrun.
  pose proof (construct_effects class arguments w) as He. rewrite Hrun in He.
  destruct He as [He _].
  destruct (construct_returns _ _ _ _ _ Hrun) as (-> & Hr & _).
  destruct Hr as (_ & _ & _ & _ & Hv & Ht & _ & Hd & _).
  rewrite constructed_useCanvas, constructed_canvas. split.
  - intros Hu. destruct (Hv Hu) as [v Hsome].
    destruct (viewportSize_viewport _ _ _ _ Hsize Hsome) as [vp Hvp].
    assert (Hw : get_field (this w') "viewport" = VViewport vp)
      by (rewrite Ht, constructed_viewport; exact Hvp).
    eexists. eexists. split; [apply (calculateCanvasSize_value w' vp Hw)|].
    rewrite He, Hd. unfold effects, initial_size. cbv zeta.
    rewrite Hu, (viewportSize_inherited _ _ _ Hsize), Hvp.
    split; apply in_or_app; right; apply in_or_app; right; apply in_or_app; left.
    + apply in_eq.
    + right. apply in_eq.
  - intros Hu k v Hk Hin. rewrite He in Hin. apply in_app_or in Hin.
    destruct Hin as [Hin|Hin]; [exact Hin|]. exfalso.
    apply (not_sized class arguments w k v Hk); [|exact Hin].
    unfold initial_size. rewrite Hu. reflexivity.
Qed.

Lemma initial_canvas_size_witness :
  inherits_helper [complete_class] "_calculateCanvasSize" /\
  inherits_helper [complete_class] "_checkForAPIOverrides" /\
  viewport_or_none (property (options_of [VObject true sample_options]) "viewport")
    "getContainerSize" /\
  exists o w',
    construct [complete_class] [VObject true sample_options] (host 2 (Instance ∅ []))
      = (Return o, w') /\
    truthy (get_field o "useCanvas") = true /\
    exists X Y : float,
      _calculateCanvasSize w' =
        (Return (VObject true (<[ "x" := VNum X ]> (<[ "y" := VNum Y ]> ∅))), w') /\
      In (SetProperty (get_field o "canvas") "width" (VNum X)) (dom w') /\
      In (SetProperty (get_field o "canvas") "height" (VNum Y)) (dom w').
Proof.
  assert (H1 : inherits_helper [complete_class] "_calculateCanvasSize")
    by (vm_compute; reflexivity).
  assert (H2 : inherits_helper [complete_class] "_checkForAPIOverrides")
    by (vm_compute; reflexivity).
  assert (H3 : viewport_or_none
                 (property (options_of [VObject true sample_options]) "viewport")
                 "getContainerSize") by (left; eexists; vm_compute; reflexivity).
  split; [exact H1|]. split; [exact H2|]. split; [exact H3|].
  destruct (construct [complete_class] [VObject true sample_options]
              (host 2 (Instance ∅ []))) as [[o|e] w'] eqn:Hrun;
    [|vm_compute in Hrun; discriminate Hrun].
  exists o, w'. split; [reflexivity|].
  assert (Hu : truthy (get_field o "useCanvas") = true).
  { destruct (construct_returns _ _ _ _ _ Hrun) as (-> & _).
    rewrite constructed_useCanvas. vm_compute. reflexivity. }
  split; [exact Hu|].
  exact (proj1 (initial_canvas_size _ _ _ _ _ H1 H2 H3 Hrun) Hu).
Defined.

(** X8: a drawer of a class that leaves [_calculateCanvasSize] to the
    prototype, constructed with a canvas from a [viewport] option that is a
    viewport or cannot be called upon, has its viewport: on it, in the
    state after the construction, both transforms return for every rectangle
    and every point. *)
Theorem transforms_on_constructed class arguments w o w' :
  inherits_helper class "_calculateCanvasSize" ->
  viewport_or_none (property (options_of arguments) "viewport") "getContainerSize" ->
  construct class arguments w = (Return o, w') ->
  truthy (get_field o "useCanvas") = true ->
  (forall r : Rect.t, exists R : Rect.t,
      viewportToDrawerRectangle (VRect r) w' = (Return (VRect R), w')) /\
  (forall p : Point.t, exists P : Point.t,
      viewportCoordToDrawerCoord (VPoint p) w' = (Return (VPoint P), w')).
Proof.
  intros Hsize _ Hrun Hu.
  destruct (construct_returns _ _ _ _ _ Hrun) as (-> & Hr & _).
  destruct Hr as (_ & _ & _ & _ & Hv & Ht & _).
  rewrite constructed_useCanvas in Hu. destruct (Hv Hu) as [v Hsome].
  destruct (viewportSize_viewport _ _ _ _ Hsize Hsome) as [vp Hvp].
  assert (Hw : get_field (this w') "viewport" = VViewport vp)
    by (rewrite Ht, constructed_viewport; exact Hvp).
  split.
  - intros r. eexists. apply (viewportToDrawerRectangle_value w' vp r Hw).
  - intros p. eexists. apply (viewportCoordToDrawerCoord_value w' vp p Hw).
Qed.

Lemma transforms_on_constructed_witness :
  inherits_helper [complete_class] "_calculateCanvasSize" /\
  viewport_or_none (property (options_of [VObject true sample_options]) "viewport")
    "getContainerSize" /\
  exists o w',
    construct [complete_class] [VObject true sample_options] (host 2 (Instance ∅ []))
      = (Return o, w') /\
    truthy (get_field o "useCanvas") = true /\
    exists P : Point.t,
      viewportCoordToDrawerCoord (VPoint (Point.make 0.5 0.25)) w'
        = (Return (VPoint P), w').
Proof.
  assert (H1 : inherits_helper [complete_class] "_calculateCanvasSize")
    by (vm_compute; reflexivity).
  assert (H3 : viewport_or_none
                 (property (options_of [VObject true sample_options]) "viewport")
                 "getContainerSize") by (left; eexists; vm_compute; reflexivity).
  split; [exact H1|]. split; [exact H3|].
  destruct (construct [complete_class] [VObject true sample_options]
              (host 2 (Instance ∅ []))) as [[o|e] w'] eqn:Hrun;
    [|vm_compute in Hrun; discriminate Hrun].
  exists o, w'. split; [reflexivity|].
  assert (Hu : truthy (get_field o "useCanvas") = true).
  { destruct (construct_returns _ _ _ _ _ Hrun) as (-> & _).
    rewrite constructed_useCanvas. vm_compute. reflexivity. }
  split; [exact Hu|].
  exact (proj2 (transforms_on_constructed _ _ _ _ _ H1 H3 Hrun Hu) (Point.make 0.5 0.25)).
Defined.






(** * The console *)




(** X11: the legacy positional form cannot name a viewer.  When the first
    argument is not a plain object, the drawer that is returned has no
    viewer, its [useCanvas] is the canvas support of the browser, the missing
    viewer has been reported, and so has the source if the first argument is
    truthy. *)
Theorem legacy_form_has_no_viewer class (a0 a1 a2 : value) (w : world) o w' :
  isPlainObject a0 = false ->
  construct class [a0; a1; a2] w = (Return o, w') ->
  get_field o "viewer" = VUndefined /\
  get_field o "useCanvas" = VBool (supportsCanvas w) /\
  get_field o "viewport" = a1 /\
  (truthy (property a0 "viewer") = false ->
   In (Assertion "[Drawer] options.viewer is required") (console w')) /\
  (truthy a0 = true ->
   In (Error "[Drawer] options.source is no longer accepted; use TiledImage instead")
      (console w')).
Proof.
  intros Hp Hrun.
  destruct (construct_returns _ _ _ _ _ Hrun) as (-> & Hr & _).
  destruct Hr as (_ & _ & _ & _ & _ & _ & Hc & _).
  rewrite constructed_viewer, constructed_useCanvas, constructed_viewport, Hc.
  unfold useCanvas_of, reports, options_of.
  change (nth 0 [a0; a1; a2] VUndefined) with a0.
  change (nth 1 [a0; a1; a2] VUndefined) with a1.
  change (nth 2 [a0; a1; a2] VUndefined) with a2.
  rewrite Hp. cbn [negb].
  change (property (VObject true (<[ "source" := a0 ]> (<[ "viewport" := a1 ]>
            (<[ "element" := a2 ]> ∅)))) "viewer") with VUndefined.
  change (property (VObject true (<[ "source" := a0 ]> (<[ "viewport" := a1 ]>
            (<[ "element" := a2 ]> ∅)))) "viewport") with a1.
  change (property (VObject true (<[ "source" := a0 ]> (<[ "viewport" := a1 ]>
            (<[ "element" := a2 ]> ∅)))) "source") with a0.
  cbn [truthy].
  split; [reflexivity|]. split; [destruct (supportsCanvas w); reflexivity|].
  split; [reflexivity|]. split.
  - intros ->. apply in_or_app. right. apply in_or_app. left. apply in_eq.
  - intros ->. apply in_or_app. right. do 3 (apply in_or_app; right).
    apply in_or_app. left. apply in_eq.
Qed.

(** [new Drawer(source, viewport, element)] with a tile source. *)
Lemma legacy_form_has_no_viewer_witness :
  isPlainObject (VStr "tiles") = false /\
  exists o w',
    construct [complete_class] [VStr "tiles"; VViewport sample_viewport; VElement 0]
      (host 2 (Instance ∅ [])) = (Return o, w') /\
    get_field o "viewer" = VUndefined /\
    get_field o "useCanvas" = VBool true /\
    In (Error "[Drawer] options.source is no longer accepted; use TiledImage instead")
       (console w').
Proof.
  split; [reflexivity|].
  destruct (construct [complete_class] [VStr "tiles"; VViewport sample_viewport; VElement 0]
              (host 2 (Instance ∅ []))) as [[o|e] w'] eqn:Hrun;
    [|vm_compute in Hrun; discriminate Hrun].
  exists o, w'. split; [reflexivity|].
  destruct (legacy_form_has_no_viewer [complete_class] (VStr "tiles")
              (VViewport sample_viewport) (VElement 0) (host 2 (Instance ∅ [])) o w'
              eq_refl Hrun) as (Hv & Hu & _ & _ & Hs).
  split; [exact Hv|]. split; [exact Hu|]. exact (Hs eq_refl).
Defined.

(** * More of the check of the overrides *)

Lemma is_function_spec (v : value) (f : fn) : is_function v f = true <-> v = VFun f.
Proof.
  destruct v as [| | | | |g| | | | | | |]; simpl; try (split; [discriminate|discriminate]).
  destruct g as [a|a], f as [b|b]; simpl;
    try (split; [discriminate | intros E; inversion E]).
  - rewrite String.eqb_eq. split; [intros ->; reflexivity | intros E; inversion E; reflexivity].
  - rewrite Nat.eqb_eq. split; [intros ->; reflexivity | intros E; inversion E; reflexivity].
Qed.

Lemma is_placeholder_false (o : instance) (k : string) :
  is_placeholder o k = false <-> get_field o k <> VFun (Proto k).
Proof.
  unfold is_placeholder. rewrite <- is_function_spec.
  destruct (is_function (get_field o k) (Proto k)); split; congruence.
Qed.

(** X12: the check is a comparison of identity with the placeholder and
    nothing more: it returns exactly when, for each of the five operations,
    the instance holds under that name anything but the placeholder of that
    name, be it a function or not (a number, [null], the placeholder of
    another operation). *)
Theorem check_compares_identity (w : world) :
  _checkForAPIOverrides w = (Return tt, w) <->
  Forall (fun k => get_field (this w) k <> VFun (Proto k)) required_operations.
Proof.
  assert (He : Forall (fun k => get_field (this w) k <> VFun (Proto k)) required_operations <->
               Forall (fun k => is_placeholder (this w) k = false) required_operations).
  { rewrite !List.Forall_forall. split; intros H k Hk; apply is_placeholder_false, H, Hk. }
  rewrite He.
  destruct (checkForAPIOverrides_outcome w) as [[H Hrun]|(k & Hk & Hrun)].
  - split; auto.
  - rewrite Hrun. split; [discriminate|].
    intros Hf. exfalso. exact (first_missing_not_all _ _ Hk Hf).
Qed.

(** A class whose five operations are [null], a number, [undefined] and
    placeholders of other operations gets an instance. *)
Lemma check_compares_identity_witness :
  exists o w',
    construct
      [list_to_map [("draw", VNull); ("canRotate", VNum 0); ("destroy", VUndefined);
                    ("clear", VFun (Proto "draw"));
                    ("setImageSmoothingEnabled", VFun (Proto "clear"))]]
      [VObject true sample_options] (host 2 (Instance ∅ [])) = (Return o, w') /\
    _checkForAPIOverrides w' = (Return tt, w') /\
    get_field (this w') "draw" = VNull.
Proof.
  destruct (construct
      [list_to_map [("draw", VNull); ("canRotate", VNum 0); ("destroy", VUndefined);
                    ("clear", VFun (Proto "draw"));
                    ("setImageSmoothingEnabled", VFun (Proto "clear"))]]
      [VObject true sample_options] (host 2 (Instance ∅ []))) as [[o|e] w'] eqn:Hrun;
    [|vm_compute in Hrun; discriminate Hrun].
  exists o, w'. split; [reflexivity|].
  destruct (construct_returns _ _ _ _ _ Hrun) as (-> & Hr & Hf).
  specialize (Hf ltac:(vm_compute; reflexivity)).
  destruct Hr as (_ & _ & _ & _ & _ & Ht & _).
  split.
  - apply (proj2 (check_compares_identity w')). rewrite Ht.
    rewrite List.Forall_forall in Hf |- *.
    intros k Hk. apply is_placeholder_false, Hf, Hk.
  - rewrite Ht. rewrite constructed_field; [vm_compute; reflexivity|].
    simpl. intros H. repeat (destruct H as [H|H]; [discriminate H|]). exact H.
Defined.

(** * More of the coordinate helpers *)

(** X13: on a drawer that holds a viewport, [viewportCoordToDrawerCoord] of a
    point returns the projection of the point by [pixelFromPointNoRotate],
    each coordinate multiplied by the pixel density ratio, without rounding,
    and leaves the state as it is. *)
Theorem point_projected_and_scaled (w : world) (vp : Viewport.t) (p : Point.t) :
  get_field (this w) "viewport" = VViewport vp ->
  let vpPoint := Viewport.pixelFromPointNoRotate vp p true in
  viewportCoordToDrawerCoord (VPoint p) w =
    (Return (VPoint (Point.make (Point.x vpPoint * pixelDensityRatio w)
                                (Point.y vpPoint * pixelDensityRatio w))), w).
Proof.
  intros H. exact (viewportCoordToDrawerCoord_value w vp p H).
Qed.

Lemma point_projected_and_scaled_witness :
  get_field (this (host 1.5 (drawer_on sample_viewport))) "viewport"
    = VViewport sample_viewport /\
  viewportCoordToDrawerCoord (VPoint (Point.make 0.5 0.25))
      (host 1.5 (drawer_on sample_viewport)) =
    (Return (VPoint (Point.make 0.75 0.375)), host 1.5 (drawer_on sample_viewport)).
Proof.
  assert (H : get_field (this (host 1.5 (drawer_on sample_viewport))) "viewport"
              = VViewport sample_viewport) by (vm_compute; reflexivity).
  split; [exact H|].
  exact (point_projected_and_scaled (host 1.5 (drawer_on sample_viewport))
           sample_viewport (Point.make 0.5 0.25) H).
Defined.

(** X14: the two transforms agree: the position of the rectangle that
    [viewportToDrawerRectangle] returns is the point that
    [viewportCoordToDrawerCoord] returns for the top-left corner of the
    argument, bit for bit. *)
Theorem rectangle_corner_is_point (w : world) (vp : Viewport.t) (r R : Rect.t) :
  get_field (this w) "viewport" = VViewport vp ->
  viewportToDrawerRectangle (VRect r) w = (Return (VRect R), w) ->
  viewportCoordToDrawerCoord (VPoint (Rect.getTopLeft r)) w =
    (Return (VPoint (Rect.getTopLeft R)), w).
Proof.
  intros H Hrun.
  rewrite (viewportToDrawerRectangle_value w vp r H) in Hrun.
  rewrite (viewportCoordToDrawerCoord_value w vp _ H).
  injection Hrun as <-. reflexivity.
Qed.

Lemma rectangle_corner_is_point_witness :
  get_field (this (host 1.5 (drawer_on sample_viewport))) "viewport"
    = VViewport sample_viewport /\
  viewportToDrawerRectangle (VRect (Rect.make 0.5 0.25 1.5 2.5))
      (host 1.5 (drawer_on sample_viewport)) =
    (Return (VRect (Rect.make 0.75 0.375 2.25 3.75)),
     host 1.5 (drawer_on sample_viewport)) /\
  viewportCoordToDrawerCoord (VPoint (Point.make 0.5 0.25))
      (host 1.5 (drawer_on sample_viewport)) =
    (Return (VPoint (Point.make 0.75 0.375)), host 1.5 (drawer_on sample_viewport)).
Proof.
  assert (H : get_field (this (host 1.5 (drawer_on sample_viewport))) "viewport"
              = VViewport sample_viewport) by (vm_compute; reflexivity).
  assert (Hr : viewportToDrawerRectangle (VRect (Rect.make 0.5 0.25 1.5 2.5))
                 (host 1.5 (drawer_on sample_viewport)) =
               (Return (VRect (Rect.make 0.75 0.375 2.25 3.75)),
                host 1.5 (drawer_on sample_viewport))) by (vm_compute; reflexivity).
  split; [exact H|]. split; [exact Hr|].
  exact (rectangle_corner_is_point _ _ _ _ H Hr).
Defined.



(** * Density one *)

(** X16: on a display whose pixel density ratio is 1, drawer coordinates are
    the viewport's pixel coordinates: [viewportToDrawerRectangle] returns the
    projected position and size and [viewportCoordToDrawerCoord] the
    projected point, bit for bit, whatever the numbers are (zeros keep their
    sign, infinities and NaN stay). *)
Theorem density_one_is_projection (w : world) (vp : Viewport.t) :
  get_field (this w) "viewport" = VViewport vp ->
  pixelDensityRatio w = 1%float ->
  (forall r : Rect.t,
      let topLeft := Viewport.pixelFromPointNoRotate vp (Rect.getTopLeft r) true in
      let size := Viewport.deltaPixelsFromPointsNoRotate vp (Rect.getSize r) true in
      viewportToDrawerRectangle (VRect r) w =
        (Return (VRect (Rect.make (Point.x topLeft) (Point.y topLeft)
                                  (Point.x size) (Point.y size))), w)) /\
  (forall p : Point.t,
      viewportCoordToDrawerCoord (VPoint p) w =
        (Return (VPoint (Viewport.pixelFromPointNoRotate vp p true)), w)).
Proof.
  intros H Hd. split.
  - intros r topLeft size.
    rewrite (viewportToDrawerRectangle_value w vp r H), Hd, !mul_one. reflexivity.
  - intros p.
    rewrite (viewportCoordToDrawerCoord_value w vp p H), Hd, !mul_one.
    destruct (Viewport.pixelFromPointNoRotate vp p true). reflexivity.
Qed.

Lemma density_one_is_projection_witness :
  get_field (this (host 1 (drawer_on sample_viewport))) "viewport"
    = VViewport sample_viewport /\
  pixelDensityRatio (host 1 (drawer_on sample_viewport)) = 1%float /\
  viewportCoordToDrawerCoord (VPoint (Point.make 0.1 (-0)))
      (host 1 (drawer_on sample_viewport)) =
    (Return (VPoint (Point.make 0.1 (-0))), host 1 (drawer_on sample_viewport)).
Proof.
  assert (H : get_field (this (host 1 (drawer_on sample_viewport))) "viewport"
              = VViewport sample_viewport) by (vm_compute; reflexivity).
  split; [exact H|]. split; [reflexivity|].
  exact (proj2 (density_one_is_projection (host 1 (drawer_on sample_viewport))
                  sample_viewport H eq_refl) (Point.make 0.1 (-0))).
Defined.

(** X17: on a display whose pixel density ratio is 1, a container whose
    width and height are whole numbers gets a canvas of exactly that width
    and height. *)
Theorem whole_size_kept (w : world) (vp : Viewport.t) (a b : Z) :
  get_field (this w) "viewport" = VViewport vp ->
  pixelDensityRatio w = 1%float ->
  integer_value (Point.x (Viewport.getContainerSize vp)) = Some a ->
  integer_value (Point.y (Viewport.getContainerSize vp)) = Some b ->
  _calculateCanvasSize w =
    (Return (VObject true
       (<[ "x" := VNum (Point.x (Viewport.getContainerSize vp)) ]>
       (<[ "y" := VNum (Point.y (Viewport.getContainerSize vp)) ]> ∅))), w).
Proof.
  intros H Hd Ha Hb.
  rewrite (calculateCanvasSize_value w vp H), Hd, !mul_one.
  rewrite (Math_round_integer _ a Ha), (Math_round_integer _ b Hb). reflexivity.
Qed.

Lemma whole_size_kept_witness :
  get_field (this (host 1 (drawer_on (identity_viewport (Point.make 800 600)))))
    "viewport" = VViewport (identity_viewport (Point.make 800 600)) /\
  integer_value 800 = Some 800%Z /\ integer_value 600 = Some 600%Z /\
  _calculateCanvasSize (host 1 (drawer_on (identity_viewport (Point.make 800 600)))) =
    (Return (VObject true (<[ "x" := VNum 800 ]> (<[ "y" := VNum 600 ]> ∅))),
     host 1 (drawer_on (identity_viewport (Point.make 800 600)))).
Proof.
  assert (H : get_field (this (host 1 (drawer_on (identity_viewport (Point.make 800 600)))))
                "viewport" = VViewport (identity_viewport (Point.make 800 600)))
    by (vm_compute; reflexivity).
  assert (Ha : integer_value 800 = Some 800%Z) by (vm_compute; reflexivity).
  assert (Hb : integer_value 600 = Some 600%Z) by (vm_compute; reflexivity).
  split; [exact H|]. split; [exact Ha|]. split; [exact Hb|].
  exact (whole_size_kept _ _ 800 600 H eq_refl Ha Hb).
Defined.

(** * The deprecated forwarders *)


Lemma forward_fails (msg : string) (target : value) (method : string) (args : list value)
    (w : world) :
  nullish target = true \/ has_method target method = false ->
  exists s,
    (call_method target method args;; w' ← get_world; mret (this w'))
      (with_console (console w ++ [Error msg]) w) =
    (Raise (TypeError s), with_console (console w ++ [Error msg]) w).
Proof.
  intros H. unfold mbind, M_bind, call_method.
  destruct (nullish target); [eexists; reflexivity|].
  destruct H as [H|H]; [discriminate H|]. rewrite H. eexists. reflexivity.
Qed.



(** X19: on a drawer without a viewer (the constructor returns such drawers),
    and on one whose viewer lacks the method, each of the five forwarders
    raises a TypeError after it has reported its deprecation: the message is
    on the console, nothing has been called, the drawer is as it was. *)
Theorem forwarders_need_viewer (w : world) (element location placement onDraw : value) :
  let viewer := get_field (this w) "viewer" in
  let failed (result : outcome instance * world) (msg : string) :=
    exists s, result = (Raise (TypeError s), with_console (console w ++ [Error msg]) w) in
  (nullish viewer = true \/ has_method viewer "addOverlay" = false ->
   failed (addOverlay element location placement onDraw w)
     "drawer.addOverlay is deprecated. Use viewer.addOverlay instead.") /\
  (nullish viewer = true \/ has_method viewer "updateOverlay" = false ->
   failed (updateOverlay element location placement w)
     "drawer.updateOverlay is deprecated. Use viewer.updateOverlay instead.") /\
  (nullish viewer = true \/ has_method viewer "removeOverlay" = false ->
   failed (removeOverlay element w)
     "drawer.removeOverlay is deprecated. Use viewer.removeOverlay instead.") /\
  (nullish viewer = true \/ has_method viewer "clearOverlays" = false ->
   failed (clearOverlays w)
     "drawer.clearOverlays is deprecated. Use viewer.clearOverlays instead.") /\
  (nullish viewer = true ->
   failed (reset w)
     "[Drawer.reset] this function is deprecated. Use World.resetItems instead.").
Proof.
  intros viewer failed. unfold failed.
  repeat split; intros H.
  - exact (forward_fails _ viewer "addOverlay" _ w H).
  - exact (forward_fails _ viewer "updateOverlay" _ w H).
  - exact (forward_fails _ viewer "removeOverlay" _ w H).
  - exact (forward_fails _ viewer "clearOverlays" _ w H).
  - unfold reset. unfold mbind at 1, M_bind at 1. cbn [console_error].
    unfold mbind at 1, M_bind at 1. cbn [get_this].
    change (get_field (this (with_console _ w)) "viewer") with viewer.
    unfold mbind at 1, M_bind at 1. unfold member. rewrite H.
    eexists. reflexivity.
Qed.

(** The drawer built from the sample configuration without its viewer. *)
Lemma forwarders_need_viewer_witness :
  exists o w',
    construct [complete_class] [VObject true (delete "viewer" sample_options)]
      (host 2 (Instance ∅ [])) = (Return o, w') /\
    nullish (get_field (this w') "viewer") = true /\
    exists s,
      addOverlay (VElement 7) VUndefined VUndefined VUndefined w' =
      (Raise (TypeError s),
       with_console
         (console w' ++
          [Error "drawer.addOverlay is deprecated. Use viewer.addOverlay instead."]) w').
Proof.
  destruct (construct [complete_class] [VObject true (delete "viewer" sample_options)]
              (host 2 (Instance ∅ []))) as [[o|e] w'] eqn:Hrun;
    [|vm_compute in Hrun; discriminate Hrun].
  exists o, w'. split; [reflexivity|].
  assert (Hn : nullish (get_field (this w') "viewer") = true).
  { destruct (construct_returns _ _ _ _ _ Hrun) as (_ & Hr & _).
    destruct Hr as (_ & _ & _ & _ & _ & -> & _).
    rewrite constructed_viewer. vm_compute. reflexivity. }
  split; [exact Hn|].
  exact (proj1 (forwarders_need_viewer w' (VElement 7) VUndefined VUndefined VUndefined)
           (or_introl Hn)).
Defined.
